(** * Event handlers of the InnoDB Cluster operator

    A shallow embedding of
    [mysqloperator/controller/innodbcluster/operator_cluster.py]: the kopf
    handlers for cluster creation and deletion, for the watched spec fields
    and for the member pods, together with the properties of them that the
    specification states.

    The handlers are sequential Python code whose only effects are calls to
    collaborators defined in other modules (the Kubernetes API wrappers of
    [cluster_api], the manifest builders of [cluster_objects],
    [router_objects] and [backup_objects], the [ClusterController], the
    [ClusterMutex], the group monitor) and writes to the process-wide
    [g_ephemeral_pod_state].  They are embedded in a state-and-error monad
    that also returns the list of effects performed, in order.  What a
    collaborator answers is given by an environment [Env]; nothing is
    assumed about it beyond what a theorem states as a hypothesis. *)

From Stdlib Require Import ZArith Lia.
From stdpp Require Import base option list strings gmap.

Local Open Scope string_scope.
Local Open Scope list_scope.
Local Open Scope Z_scope.

(** ** Data *)

(** The exceptions the handlers raise, catch or let through. *)
Inductive Exn :=
| ApiException (status : Z)                        (* kubernetes.client.rest *)
| ApiSpecError (msg : string)                      (* controller.api_utils *)
| TemporaryError (msg : string) (delay : option Z) (* kopf *)
| AssertionError
| AttributeError (msg : string)
| ValueError (msg : string)
| OtherError (msg : string).

(** The dependent objects of a cluster that [on_innodbcluster_create]
    looks up and creates, named after the lookup method of the cluster. *)
Inductive ObjKind :=
| InitConf            (* get_initconf *)
| PrivateSecrets      (* get_private_secrets *)
| RouterAccount       (* get_router_account *)
| Service             (* get_service *)
| StatefulSet         (* get_stateful_set *)
| DisruptionBudget    (* get_disruption_budget *)
| RouterService       (* get_router_service *)
| RouterDeployment    (* get_router_deployment *)
| BackupAccount.      (* get_backup_account *)

(** [diagnose.ClusterDiagStatus].
    Modelled from the spec: the enumeration is declared in [diagnose.py],
    which is not among the sources; the handlers name PENDING and UNKNOWN,
    the specification adds ONLINE and "other degraded/offline variants". *)
Inductive ClusterDiagStatus :=
| PENDING | ONLINE | UNKNOWN | DEGRADED (variant : string).

(** [InnoDBClusterSpec], as far as the handlers read it: the router
    instance count, and what [validate] does on it ([None]: it returns). *)
Record InnoDBClusterSpec := mkSpec {
  router_instances : Z;
  validate_raises : option Exn;
}.

Inductive Res (A : Type) :=
| Ok (a : A)
| Raise (e : Exn).
Arguments Ok {A} a.
Arguments Raise {A} e.

(** [InnoDBCluster(body)]: the view of the cluster resource a handler
    builds from the event body. [ready] and [get_create_time()] are both
    read by the handlers and are kept apart; [parse_spec] is the outcome of
    [cluster.parse_spec()] on this body. *)
Record InnoDBCluster := mkCluster {
  name : string;
  namespace : string;
  ready : bool;
  get_create_time : option string;
  deleting : bool;
  parse_spec : Res InnoDBClusterSpec;
}.

(** [MySQLPod.from_json(body)]. The pod contract has a container named
    [mysql], so [get_container_restarts("mysql")] is an integer. *)
Record MySQLPod := mkPod {
  pod_name : string;
  pod_namespace : string;
  index : Z;
  pod_deleting : bool;
  phase : string;
  configured : bool;            (* get_member_readiness_gate("configured") *)
  containers_ready : bool;      (* check_containers_ready() *)
  membership_info : option string;   (* get_membership_info() *)
  mysql_restarts : Z;           (* get_container_restarts("mysql") *)
}.

(** The calls to collaborators that act on the platform, the database or
    the process. Each may raise. *)
Inductive Call :=
(* cluster_objects / router_objects / backup_objects: prepare_* *)
| Prepare (k : ObjKind)
(* kopf.adopt *)
| Adopt (k : ObjKind)
(* api_core / api_apps / api_policy: create_namespaced_* *)
| Create (k : ObjKind)
(* cluster.set_operator_version, cluster.set_status *)
| SetOperatorVersion (tag : string)
| SetStatus (status : ClusterDiagStatus) (onlineInstances : Z)
            (lastProbeTime : string)
(* ClusterMutex.__enter__ *)
| MutexEnter (cluster : string) (pod : option string)
(* ClusterController methods *)
| CtlGroupViewChange (cluster : string) (members : list string)
                     (view_id_changed : bool)
| CtlServerVersionChange (new : option string)
| CtlServerImageChange (new : option string)
| CtlPodCreated (pod : MySQLPod)
| CtlPodRestarted (pod : MySQLPod)
| CtlPodDeleted (pod : MySQLPod)
(* cluster_objects *)
| UpdateStatefulSetReplicas (replicas : option Z)
| UpdateMysqlImage
| UpdateOperatorImage
| UpdatePullPolicy
| FirstClusterPodCreated (cluster : string)
| LastClusterPodRemoved (cluster : string)
(* router_objects *)
| RouterUpdateSize (size : option Z)
| RouterUpdateImage
| RouterUpdatePullPolicy
(* backup_objects.update_schedules *)
| UpdateSchedules (old new : option string)
(* g_group_monitor *)
| MonitorCluster (cluster : string)
| RemoveCluster (cluster : string)
(* pod.remove_member_finalizer *)
| RemoveMemberFinalizer (pod : string).

Inductive Level := DEBUG | INFO | WARNING | ERROR.

(** What a handler does, in the order it does it. A log or console line is
    recorded by the text of its format string, the interpolated values left
    as written in the source. *)
Inductive Event :=
| Log (lvl : Level) (line : string)          (* logger.debug/info/error *)
| Printed (line : string)                    (* print *)
| Diag (lvl : Level) (action reason message : string)
                                             (* cluster.info/warn/error *)
| Got (k : ObjKind) (r : Res bool)           (* cluster.get_<k>() *)
| GotCluster (pod : string) (found : bool)   (* pod.get_cluster() *)
| Probed (pod : string) (r : Res (option ClusterDiagStatus))
                                             (* probe_status_if_needed *)
| Called (c : Call) (raised : option Exn)
| MutexExit (cluster : string)               (* ClusterMutex.__exit__ *)
| EphemeralSet (pod_namespace pod_name key : string) (value : Z)
| Sleep (seconds : Z).                       (* time.sleep *)

(** [status.cluster] of the cluster resource, as [set_status] writes it. *)
Record StatusCluster := mkStatus {
  status : ClusterDiagStatus;
  onlineInstances : Z;
  lastProbeTime : string;
}.

(** The state the handlers read and write: which dependent objects were
    submitted to the platform (oldest first; a patch changes what an object
    holds, not that it is there, and shows as a call), the cluster
    resource's operator-version tag and [status.cluster], and
    [g_ephemeral_pod_state], keyed by the pod's namespace, the pod's name
    and the key. *)
Record State := mkState {
  objects : list ObjKind;
  operator_version : option string;
  cluster_status : option StatusCluster;
  ephemeral : gmap (string * string * string) Z;
}.

(** The collaborators. An oracle indexed by a [nat] is asked once per
    attempt of the retry loop of [on_pod_event], with the number of the
    attempt; the other handlers ask it at 0. *)
Record Env := mkEnv {
  (* config.DEFAULT_OPERATOR_VERSION_TAG *)
  DEFAULT_OPERATOR_VERSION_TAG : string;
  (* kopf's delay of a TemporaryError raised without one *)
  default_retry_delay : option Z;
  (* utils.isotime() *)
  isotime : string;
  (* cluster.get_<k>() with these objects on the platform: the object
     (truthy), None, or an exception *)
  api_get : list ObjKind -> ObjKind -> Res bool;
  (* pod.get_cluster() *)
  get_cluster : nat -> MySQLPod -> option InnoDBCluster;
  (* cluster_ctl.probe_status_if_needed(pod, logger) *)
  probe_status_if_needed : nat -> MySQLPod -> Res (option ClusterDiagStatus);
  (* what a call raises, if it does *)
  call_raises : nat -> Call -> option Exn;
  (* [status.cluster] of the cluster resource after a method of the
     ClusterController, or one of the first-pod and last-pod actions of
     cluster_objects, returned: these report on the cluster *)
  status_after : nat -> Call -> option StatusCluster -> option StatusCluster;
  (* [status.cluster] after probe_status_if_needed returned *)
  status_probed : nat -> MySQLPod -> option StatusCluster
                  -> option StatusCluster;
}.

#[global] Instance Exn_eq_dec : EqDecision Exn.
Proof. solve_decision. Defined.
#[global] Instance ObjKind_eq_dec : EqDecision ObjKind.
Proof. solve_decision. Defined.
#[global] Instance ClusterDiagStatus_eq_dec : EqDecision ClusterDiagStatus.
Proof. solve_decision. Defined.

(** ** The handler monad *)

(** A computation takes the state and gives its result (a value or a raised
    exception), the new state and the effects it performed. *)
Definition M (A : Type) : Type := State -> Res A * State * list Event.

Definition ret {A} (a : A) : M A := fun st => (Ok a, st, []).

Definition raise {A} (e : Exn) : M A := fun st => (Raise e, st, []).

Definition bind {A B} (m : M A) (f : A -> M B) : M B :=
  fun st =>
    match m st with
    | (Ok a, st1, evs1) =>
        match f a st1 with
        | (r, st2, evs2) => (r, st2, evs1 ++ evs2)
        end
    | (Raise e, st1, evs1) => (Raise e, st1, evs1)
    end.

Declare Scope handler_scope.
Delimit Scope handler_scope with handler.
Notation "x <- m ;; k" := (bind m (fun x => k))
  (at level 100, m at next level, right associativity) : handler_scope.
Notation "m ;; k" := (bind m (fun _ => k))
  (at level 100, right associativity) : handler_scope.
Local Open Scope handler_scope.

Definition emit (ev : Event) : M unit := fun st => (Ok tt, st, [ev]).

Definition lift {A} (r : Res A) : M A := fun st => (r, st, []).

Definition when (b : bool) (m : M unit) : M unit := if b then m else ret tt.

(** [try: m  except <clause> as e: h e]. [h e] is [None] when the except
    clause does not match [e], which then propagates. *)
Definition try_except {A} (m : M A) (h : Exn -> option (M A)) : M A :=
  fun st =>
    match m st with
    | (Ok a, st1, evs1) => (Ok a, st1, evs1)
    | (Raise e, st1, evs1) =>
        match h e with
        | Some handler =>
            match handler st1 with
            | (r, st2, evs2) => (r, st2, evs1 ++ evs2)
            end
        | None => (Raise e, st1, evs1)
        end
    end.

(** [m] followed by [cleanup] on every exit of [m], as [__exit__] of a
    context manager that does not swallow the exception. *)
Definition finally {A} (m : M A) (cleanup : M unit) : M A :=
  fun st =>
    match m st with
    | (r, st1, evs1) =>
        match cleanup st1 with
        | (Ok _, st2, evs2) => (r, st2, evs1 ++ evs2)
        | (Raise e, st2, evs2) => (Raise e, st2, evs1 ++ evs2)
        end
    end.

Section Handlers.

Context (env : Env).

(** What a call that returned at attempt [i] leaves in the state: a
    creation adds its object, the two writes of the cluster resource write
    it, and a method of the controller or a first-pod or last-pod action
    leaves the status the collaborators say. The other calls act on what
    the state does not hold (the spec of an object, a pod, the mutex, the
    monitor). *)
Definition apply_call (i : nat) (c : Call) (st : State) : State :=
  match c with
  | Create k =>
      mkState (objects st ++ [k]) (operator_version st) (cluster_status st)
              (ephemeral st)
  | SetOperatorVersion tag =>
      mkState (objects st) (Some tag) (cluster_status st) (ephemeral st)
  | SetStatus s n t =>
      mkState (objects st) (operator_version st) (Some (mkStatus s n t))
              (ephemeral st)
  | CtlGroupViewChange _ _ _ | CtlServerVersionChange _
  | CtlServerImageChange _ | CtlPodCreated _ | CtlPodRestarted _
  | CtlPodDeleted _ | FirstClusterPodCreated _ | LastClusterPodRemoved _ =>
      mkState (objects st) (operator_version st)
              (status_after env i c (cluster_status st)) (ephemeral st)
  | _ => st
  end.

(** A call to a collaborator, at attempt [i]. A call that raises is taken
    to have raised before it wrote anything. *)
Definition invoke (i : nat) (c : Call) : M unit :=
  fun st =>
    match call_raises env i c with
    | None => (Ok tt, apply_call i c st, [Called c None])
    | Some e => (Raise e, st, [Called c (Some e)])
    end.

Definition logger (lvl : Level) (line : string) : M unit :=
  emit (Log lvl line).

Definition print (line : string) : M unit := emit (Printed line).

(** [cluster.get_<k>()]. *)
Definition cluster_get (k : ObjKind) : M bool :=
  fun st => let r := api_get env (objects st) k in (r, st, [Got k r]).

(** [cluster.parsed_spec]: the parsed spec of the body, parsing it when it
    has not been parsed. *)
Definition parsed_spec (cluster : InnoDBCluster) : M InnoDBClusterSpec :=
  lift (parse_spec cluster).

(** [spec.validate(logger)]. *)
Definition validate (spec : InnoDBClusterSpec) : M unit :=
  match validate_raises spec with
  | None => ret tt
  | Some e => raise e
  end.

(** [with ClusterMutex(cluster, pod): body]. *)
Definition with_ClusterMutex {A} (i : nat) (cluster : InnoDBCluster)
    (pod : option MySQLPod) (body : M A) : M A :=
  invoke i (MutexEnter (name cluster) (pod_name <$> pod)) ;;
  finally body (emit (MutexExit (name cluster))).

(** [g_ephemeral_pod_state.get(pod, key)] and [.set(pod, key, value)]. *)
Definition ephemeral_get (pod : MySQLPod) (key : string) : M (option Z) :=
  fun st => (Ok (ephemeral st !! (pod_namespace pod, pod_name pod, key)),
             st, []).

Definition ephemeral_set (pod : MySQLPod) (key : string) (value : Z)
    : M unit :=
  fun st =>
    (Ok tt,
     mkState (objects st) (operator_version st) (cluster_status st)
             (<[(pod_namespace pod, pod_name pod, key) := value]>
                (ephemeral st)),
     [EphemeralSet (pod_namespace pod) (pod_name pod) key value]).

(** ** Cluster handlers *)

(** [on_group_view_change(cluster, members, view_id_changed)]. *)
Definition on_group_view_change (cluster : InnoDBCluster)
    (members : list string) (view_id_changed : bool) : M unit :=
  invoke 0 (CtlGroupViewChange (name cluster) members view_id_changed).

(** [monitor_existing_clusters(logger)], over the clusters that
    [cluster_api.get_all_clusters()] returns. *)
Fixpoint monitor_existing_clusters (clusters : list InnoDBCluster) : M unit :=
  match clusters with
  | [] => ret tt
  | cluster :: rest =>
      when (bool_decide (is_Some (get_create_time cluster)))
        (invoke 0 (MonitorCluster (name cluster))) ;;
      monitor_existing_clusters rest
  end.

(** [ignore_404(f)], local to [on_innodbcluster_create]. *)
Definition ignore_404 (f : M bool) : M bool :=
  try_except f
    (fun e =>
       match e with
       | ApiException status =>
           Some (if bool_decide (status = 404) then ret false else raise e)
       | _ => None
       end).

(** The nine numbered blocks of the [try] of [on_innodbcluster_create]
    differ in the object, in two of the lines printed, and in the condition
    on the router instance count of block 8. *)
Definition step_title (k : ObjKind) : string :=
  match k with
  | InitConf => "1. Initial Configuration ConfigMap and Container Probes"
  | PrivateSecrets => "2. Cluster Accounts"
  | RouterAccount => "3. Router Accounts"
  | Service => "4. Cluster Service"
  | StatefulSet => "5. Cluster StatefulSet"
  | DisruptionBudget => "6. Cluster PodDisruptionBudget"
  | RouterService => "7. Router Service"
  | RouterDeployment => "8. Router Deployment"
  | BackupAccount => "9. Backup Secrets"
  end.

Definition step_announce (k : ObjKind) : string :=
  match k with
  | Service => "\tCreating..."
  | _ => "\tPreparing..."
  end.

Definition step_guard (icspec : InnoDBClusterSpec) (k : ObjKind) : bool :=
  match k with
  | RouterDeployment => bool_decide (router_instances icspec > 0)
  | _ => true
  end.

Definition ensure (icspec : InnoDBClusterSpec) (k : ObjKind) : M unit :=
  print (step_title k) ;;
  found <- ignore_404 (cluster_get k) ;;
  when (negb found)
    (print (step_announce k) ;;
     when (step_guard icspec k)
       (invoke 0 (Prepare k) ;;
        invoke 0 (Adopt k) ;;
        print "\tCreating..." ;;
        invoke 0 (Create k))).

Definition create_dependents (icspec : InnoDBClusterSpec) : M unit :=
  ensure icspec InitConf ;;
  ensure icspec PrivateSecrets ;;
  ensure icspec RouterAccount ;;
  ensure icspec Service ;;
  ensure icspec StatefulSet ;;
  ensure icspec DisruptionBudget ;;
  ensure icspec RouterService ;;
  ensure icspec RouterDeployment ;;
  ensure icspec BackupAccount.

(** [on_innodbcluster_create(name, namespace, body, logger)]. *)
Definition on_innodbcluster_create (cluster : InnoDBCluster) : M unit :=
  logger INFO "Initializing InnoDB Cluster name={name} namespace={namespace}" ;;
  try_except
    (parsed <- lift (parse_spec cluster) ;;
     validate parsed)
    (fun e =>
       match e with
       | ApiSpecError msg =>
           Some (emit (Diag ERROR "CreateCluster" "InvalidArgument" msg) ;;
                 raise (TemporaryError ("Error in InnoDBCluster spec: " +:+ msg)
                          (default_retry_delay env)))
       | _ => None
       end) ;;
  icspec <- parsed_spec cluster ;;
  print "InnoDB Cluster {namespace}/{name} {cluster.parsed_spec.edition} Edition" ;;
  print "\tServer Image:\t{cluster.parsed_spec.mysql_image} / {cluster.parsed_spec.mysql_image_pull_policy}" ;;
  print "\tRouter Image:\t{cluster.parsed_spec.router_image} / {cluster.parsed_spec.router_image_pull_policy}" ;;
  print "\tSidecar Image:\t{cluster.parsed_spec.operator_image} / {cluster.parsed_spec.operator_image_pull_policy}" ;;
  print "\tBase ServerId:\t{cluster.parsed_spec.baseServerId}" ;;
  print "\tBackup profiles:\t{len(cluster.parsed_spec.backupProfiles)}" ;;
  print "\tBackup schedules:\t{len(cluster.parsed_spec.backupSchedules)}" ;;
  when (negb (ready cluster))
    (try_except (create_dependents icspec)
       (fun exc =>
          Some (emit (Diag WARNING "CreateCluster" "CreateResourceFailed" "{exc}") ;;
                raise exc)) ;;
     print "10. Setting operator version for the IC to {DEFAULT_OPERATOR_VERSION_TAG}" ;;
     invoke 0 (SetOperatorVersion (DEFAULT_OPERATOR_VERSION_TAG env)) ;;
     emit (Diag INFO "CreateCluster" "ResourcesCreated"
             "Dependency resources created, switching status to PENDING") ;;
     invoke 0 (SetStatus PENDING 0 (isotime env))).

(** [on_innodbcluster_delete(name, namespace, body, logger)]. *)
Definition on_innodbcluster_delete (cluster : InnoDBCluster) : M unit :=
  logger INFO "Deleting cluster {name}" ;;
  invoke 0 (RemoveCluster (name cluster)) ;;
  logger INFO "Updating Router Deployment.replicas to 0" ;;
  invoke 0 (RouterUpdateSize (Some 0)) ;;
  sts <- cluster_get StatefulSet ;;
  when sts
    (logger INFO "Updating InnoDB Cluster StatefulSet.instances to 0" ;;
     invoke 0 (UpdateStatefulSetReplicas (Some 0))).

(** ** Spec field handlers *)

(** [on_innodbcluster_field_instances(old, new, body, logger)]. *)
Definition on_innodbcluster_field_instances (old new : option Z)
    (cluster : InnoDBCluster) : M unit :=
  if negb (ready cluster) then
    logger DEBUG "Ignoring spec.instances change for unready cluster"
  else
    sts <- cluster_get StatefulSet ;;
    when (sts && bool_decide (old <> new))
      (logger INFO "Updating InnoDB Cluster StatefulSet.replicas from {old} to {new}" ;;
       icspec <- parsed_spec cluster ;;
       validate icspec ;;
       invoke 0 (UpdateStatefulSetReplicas new)).

(** [on_innodbcluster_field_version(old, new, body, logger)]. *)
Definition on_innodbcluster_field_version (old new : option string)
    (cluster : InnoDBCluster) : M unit :=
  if negb (ready cluster) then
    logger DEBUG "Ignoring spec.version change for unready cluster"
  else
    sts <- cluster_get StatefulSet ;;
    when (sts && bool_decide (old <> new))
      (logger INFO "Propagating spec.version={new} for {cluster.namespace}/{cluster.name} (was {old})" ;;
       lift (parse_spec cluster) ;;
       try_except (invoke 0 (CtlServerVersionChange new))
         (fun e => Some (raise e)) ;;
       invoke 0 UpdateMysqlImage ;;
       router_deploy <- cluster_get RouterDeployment ;;
       when router_deploy (invoke 0 RouterUpdateImage)).

(** [on_innodbcluster_field_image_repository(old, new, body, logger)]. *)
Definition on_innodbcluster_field_image_repository (old new : option string)
    (cluster : InnoDBCluster) : M unit :=
  if negb (ready cluster) then
    logger DEBUG "Ignoring spec.imageRepository change for unready cluster"
  else
    sts <- cluster_get StatefulSet ;;
    when (sts && bool_decide (old <> new))
      (logger INFO "Propagating spec.imageRepository={new} for {cluster.namespace}/{cluster.name} (was {old})" ;;
       lift (parse_spec cluster) ;;
       invoke 0 UpdateMysqlImage ;;
       invoke 0 UpdateOperatorImage ;;
       router_deploy <- cluster_get RouterDeployment ;;
       when router_deploy (invoke 0 RouterUpdateImage)).

(** [on_innodbcluster_field_image_pull_policy(old, new, body, logger)]. *)
Definition on_innodbcluster_field_image_pull_policy (old new : option string)
    (cluster : InnoDBCluster) : M unit :=
  if negb (ready cluster) then
    logger DEBUG "Ignoring spec.imagePullPolicy change for unready cluster"
  else
    sts <- cluster_get StatefulSet ;;
    when (sts && bool_decide (old <> new))
      (logger INFO "Propagating spec.imagePullPolicy={new} for {cluster.namespace}/{cluster.name} (was {old})" ;;
       lift (parse_spec cluster) ;;
       invoke 0 UpdatePullPolicy ;;
       router_deploy <- cluster_get RouterDeployment ;;
       when router_deploy (invoke 0 RouterUpdatePullPolicy)).

(** [on_innodbcluster_field_image(old, new, body, logger)]. *)
Definition on_innodbcluster_field_image (old new : option string)
    (cluster : InnoDBCluster) : M unit :=
  if negb (ready cluster) then
    logger DEBUG "Ignoring spec.image change for unready cluster"
  else
    sts <- cluster_get StatefulSet ;;
    when (sts && bool_decide (old <> new))
      (logger INFO "Updating MySQL image for InnoDB Cluster StatefulSet pod template from {old} to {new}" ;;
       icspec <- parsed_spec cluster ;;
       validate icspec ;;
       try_except (invoke 0 (CtlServerImageChange new))
         (fun e => Some (raise e)) ;;
       invoke 0 UpdateMysqlImage).

(** [on_innodbcluster_field_router_instances(old, new, body, logger)]. *)
Definition on_innodbcluster_field_router_instances (old new : option Z)
    (cluster : InnoDBCluster) : M unit :=
  if negb (bool_decide (is_Some (get_create_time cluster))) then
    logger DEBUG "Ignoring spec.router.instances change for unready cluster"
  else
    with_ClusterMutex 0 cluster None
      (logger INFO "Updating Router Deployment.replicas from {old} to {new}" ;;
       icspec <- parsed_spec cluster ;;
       validate icspec ;;
       invoke 0 (RouterUpdateSize new)).

(** [on_innodbcluster_field_router_version(old, new, body, logger)]. *)
Definition on_innodbcluster_field_router_version (old new : option string)
    (cluster : InnoDBCluster) : M unit :=
  if bool_decide (old = new) then ret tt
  else if negb (bool_decide (is_Some (get_create_time cluster))) then
    logger DEBUG "Ignoring spec.router.version change for unready cluster"
  else
    icspec <- parsed_spec cluster ;;
    validate icspec ;;
    with_ClusterMutex 0 cluster None
      (router_deploy <- cluster_get RouterDeployment ;;
       when router_deploy (invoke 0 RouterUpdateImage)).

(** [on_innodbcluster_field_backup_schedules(old, new, body, logger)]. *)
Definition on_innodbcluster_field_backup_schedules (old new : option string)
    (cluster : InnoDBCluster) : M unit :=
  if bool_decide (old = new) then ret tt
  else
    logger INFO "on_innodbcluster_field_backup_schedules" ;;
    if negb (bool_decide (is_Some (get_create_time cluster))) then
      raise (TemporaryError
               "The cluster is not ready. Will create the schedules once the first instance is up and running"
               (Some 10))
    else
      icspec <- parsed_spec cluster ;;
      validate icspec ;;
      with_ClusterMutex 0 cluster None
        (invoke 0 (UpdateSchedules old new)).

(** ** Pod handlers *)

(** [pod.get_cluster()] at attempt [i]. *)
Definition pod_get_cluster (i : nat) (pod : MySQLPod)
    : M (option InnoDBCluster) :=
  fun st =>
    let c := get_cluster env i pod in
    (Ok c, st, [GotCluster (pod_name pod) (bool_decide (is_Some c))]).

(** [cluster_ctl.probe_status_if_needed(pod, logger)] at attempt [i]; when
    it returns, the status of the cluster resource is what the probe left. *)
Definition probe (i : nat) (pod : MySQLPod) : M (option ClusterDiagStatus) :=
  fun st =>
    let r := probe_status_if_needed env i pod in
    (r,
     match r with
     | Ok _ =>
         mkState (objects st) (operator_version st)
                 (status_probed env i pod (cluster_status st)) (ephemeral st)
     | Raise _ => st
     end,
     [Probed (pod_name pod) r]).

(** [on_pod_create(body, logger)]. *)
Definition on_pod_create (pod : MySQLPod) : M unit :=
  if pod_deleting pod then raise AssertionError
  else
    logger INFO "POD CREATED: pod={pod.name} ContainersReady={pod.check_condition('ContainersReady')} Ready={pod.check_condition('Ready')} gate[configured]={pod.get_member_readiness_gate('configured')}" ;;
    if negb (configured pod) then
      raise (TemporaryError
               ("Sidecar of " +:+ pod_name pod +:+ " is not yet configured")
               (Some 10))
    else
      found <- pod_get_cluster 0 pod ;;
      match found with
      | None =>
          (* cluster.deleting of None *)
          raise (AttributeError "'NoneType' object has no attribute 'deleting'")
      | Some cluster =>
          logger INFO "CLUSTER DELETING={cluster.deleting}" ;;
          with_ClusterMutex 0 cluster (Some pod)
            (let first_pod :=
               bool_decide (index pod = 0)
               && negb (bool_decide (is_Some (get_create_time cluster))) in
             when first_pod
               (invoke 0 (FirstClusterPodCreated (name cluster)) ;;
                invoke 0 (MonitorCluster (name cluster))) ;;
             invoke 0 (CtlPodCreated pod) ;;
             ephemeral_set pod "mysql-restarts" (mysql_restarts pod))
      end.

(** One pass through the body of the [while True] of [on_pod_event], the
    [i]-th of the invocation. It ends by [return] or [break] ([Ok]) or by
    an exception. *)
Definition pod_event_attempt (i : nat) (pod : MySQLPod) : M unit :=
  let member_info := membership_info pod in
  let ready := containers_ready pod in
  if bool_decide (phase pod <> "Running") || pod_deleting pod
     || negb (bool_decide (is_Some member_info)) then
    logger DEBUG "ignored pod event: pod={pod.name} containers_ready={ready} deleting={pod.deleting} phase={pod.phase} member_info={member_info}"
  else
    let mysql_restarts := mysql_restarts pod in
    stored <- ephemeral_get pod "mysql-restarts" ;;
    let event :=
      if bool_decide (stored <> Some mysql_restarts)
      then "mysql-restarted" else "" in
    logger INFO "POD EVENT {event}: pod={pod.name} containers_ready={ready} deleting={pod.deleting} phase={pod.phase} member_info={member_info} restarts={mysql_restarts} containers={containers} conditions={conditions}" ;;
    found <- pod_get_cluster i pod ;;
    match found with
    | None =>
        logger INFO "Ignoring event for pod {pod.name} belonging to a deleted cluster"
    | Some cluster =>
        with_ClusterMutex i cluster (Some pod)
          (when (ready && bool_decide (event = "mysql-restarted"))
             (invoke i (CtlPodRestarted pod) ;;
              ephemeral_set pod "mysql-restarts" mysql_restarts) ;;
           status <- probe i pod ;;
           if bool_decide (status = Some UNKNOWN) then
             raise (TemporaryError
                      "Cluster has unreachable members. status=ClusterDiagStatus.UNKNOWN"
                      (Some 15))
           else ret tt)
    end.

(** [time.sleep(secs)]: a negative length is refused with [ValueError]. *)
Definition time_sleep (secs : Z) : M unit :=
  if bool_decide (secs < 0)
  then raise (ValueError "sleep length must be non-negative")
  else emit (Sleep secs).

(** [if e.delay: time.sleep(e.delay)]. *)
Definition sleep_for (delay : option Z) : M unit :=
  match delay with
  | Some d => if bool_decide (d = 0) then ret tt else time_sleep d
  | None => ret tt
  end.

(** [on_pod_event(event, body, logger)]: the [while True] loop, from
    attempt [i] on. The loop has no exit of its own, so the embedding
    counts passes down from [fuel]; the result is [None] when [fuel]
    passes did not end the loop. What the [except] clause raises is not
    caught: it ends the handler. *)
Fixpoint on_pod_event_from (fuel : nat) (i : nat) (pod : MySQLPod)
    (st : State) : option (Res unit) * State * list Event :=
  match fuel with
  | O => (None, st, [])
  | S fuel' =>
      match pod_event_attempt i pod st with
      | (Raise (TemporaryError msg delay), st1, evs1) =>
          match (logger INFO "{e}: retrying after {e.delay} seconds" ;;
                 sleep_for delay) st1 with
          | (Ok _, st2, evs2) =>
              match on_pod_event_from fuel' (S i) pod st2 with
              | (r, st3, evs3) => (r, st3, evs1 ++ evs2 ++ evs3)
              end
          | (Raise e, st2, evs2) => (Some (Raise e), st2, evs1 ++ evs2)
          end
      | (r, st1, evs1) => (Some r, st1, evs1)
      end
  end.

Definition on_pod_event (fuel : nat) (pod : MySQLPod) (st : State)
    : option (Res unit) * State * list Event :=
  on_pod_event_from fuel 0 pod st.

(** [on_pod_delete(body, logger)]. *)
Definition on_pod_delete (pod : MySQLPod) : M unit :=
  if negb (pod_deleting pod) then raise AssertionError
  else
    found <- pod_get_cluster 0 pod ;;
    match found with
    | Some cluster =>
        with_ClusterMutex 0 cluster (Some pod)
          (invoke 0 (CtlPodDeleted pod) ;;
           when (bool_decide (index pod = 0) && deleting cluster)
             (invoke 0 (LastClusterPodRemoved (name cluster))))
    | None =>
        invoke 0 (RemoveMemberFinalizer (pod_name pod)) ;;
        logger ERROR "Owner cluster for {pod.name} does not exist anymore"
    end.

End Handlers.


(** ** Invocations *)

(** The events kopf and the group monitor deliver, with the arguments of
    the handler registered for each. *)
Inductive Invocation :=
| ClusterCreated (cluster : InnoDBCluster)
| ClusterDeleted (cluster : InnoDBCluster)
| InstancesChanged (old new : option Z) (cluster : InnoDBCluster)
| VersionChanged (old new : option string) (cluster : InnoDBCluster)
| ImageRepositoryChanged (old new : option string) (cluster : InnoDBCluster)
| ImagePullPolicyChanged (old new : option string) (cluster : InnoDBCluster)
| ImageChanged (old new : option string) (cluster : InnoDBCluster)
| RouterInstancesChanged (old new : option Z) (cluster : InnoDBCluster)
| RouterVersionChanged (old new : option string) (cluster : InnoDBCluster)
| BackupSchedulesChanged (old new : option string) (cluster : InnoDBCluster)
| PodCreated (pod : MySQLPod)
| PodEvent (fuel : nat) (pod : MySQLPod)
| PodDeleted (pod : MySQLPod)
| GroupViewChanged (cluster : InnoDBCluster) (members : list string)
                   (view_id_changed : bool).

Definition ended {A} (run : Res A * State * list Event)
    : option (Res A) * State * list Event :=
  (Some run.1.1, run.1.2, run.2).

Definition handle (env : Env) (inv : Invocation) (st : State)
    : option (Res unit) * State * list Event :=
  match inv with
  | ClusterCreated c => ended (on_innodbcluster_create env c st)
  | ClusterDeleted c => ended (on_innodbcluster_delete env c st)
  | InstancesChanged old new c =>
      ended (on_innodbcluster_field_instances env old new c st)
  | VersionChanged old new c =>
      ended (on_innodbcluster_field_version env old new c st)
  | ImageRepositoryChanged old new c =>
      ended (on_innodbcluster_field_image_repository env old new c st)
  | ImagePullPolicyChanged old new c =>
      ended (on_innodbcluster_field_image_pull_policy env old new c st)
  | ImageChanged old new c =>
      ended (on_innodbcluster_field_image env old new c st)
  | RouterInstancesChanged old new c =>
      ended (on_innodbcluster_field_router_instances env old new c st)
  | RouterVersionChanged old new c =>
      ended (on_innodbcluster_field_router_version env old new c st)
  | BackupSchedulesChanged old new c =>
      ended (on_innodbcluster_field_backup_schedules env old new c st)
  | PodCreated pod => ended (on_pod_create env pod st)
  | PodEvent fuel pod => on_pod_event env fuel pod st
  | PodDeleted pod => ended (on_pod_delete env pod st)
  | GroupViewChanged c members changed =>
      ended (on_group_view_change env c members changed st)
  end.
(** ** Reading a run *)

(** The three components of a run. *)
Definition result {A} (run : A * State * list Event) : A := run.1.1.
Definition final {A} (run : A * State * list Event) : State := run.1.2.
Definition events {A} (run : A * State * list Event) : list Event := run.2.

Definition is_log (ev : Event) : bool :=
  match ev with
  | Log _ _ => true
  | _ => false
  end.

(** The calls made, whatever came of them. *)
Definition calls (evs : list Event) : list Call :=
  omap (fun ev => match ev with Called c _ => Some c | _ => None end) evs.

(** The objects whose creation went through. *)
Definition created (evs : list Event) : list ObjKind :=
  omap (fun ev => match ev with Called (Create k) None => Some k | _ => None end)
       evs.

(** ** Invalid spec on creation *)

Definition spec_error (cluster : InnoDBCluster) (msg : string) : Prop :=
  parse_spec cluster = Raise (ApiSpecError msg)
  \/ exists icspec, parse_spec cluster = Ok icspec
                    /\ validate_raises icspec = Some (ApiSpecError msg).

(** ** Readiness *)

(** A cluster that has not reached its ready/created state: [ready] is
    false and there is no create time. *)
Definition unready (cluster : InnoDBCluster) : Prop :=
  ready cluster = false /\ get_create_time cluster = None.

(** A run that returns, leaves the state alone, calls no collaborator and
    only logs. *)
Definition only_logs (st : State) (run : Res unit * State * list Event)
    : Prop :=
  result run = Ok tt /\ final run = st
  /\ calls (events run) = [] /\ forallb is_log (events run) = true.

(** ** Scenarios *)

(** A platform that answers a lookup from the objects it holds, and
    collaborators that never raise. *)
Definition platform_get (store : list ObjKind) (k : ObjKind) : Res bool :=
  if bool_decide (k ∈ store) then Ok true else Raise (ApiException 404).

Definition spec_3_1 : InnoDBClusterSpec := mkSpec 1 None.

Definition cluster_new : InnoDBCluster :=
  mkCluster "mycluster" "default" false None false (Ok spec_3_1).

Definition cluster_up : InnoDBCluster :=
  mkCluster "mycluster" "default" true (Some "2021-06-01T10:00:00Z") false
            (Ok spec_3_1).

Definition env_calm : Env :=
  mkEnv "8.0.25-2.0.1" (Some 60) "2021-06-01T10:00:00Z" platform_get
        (fun _ _ => Some cluster_up)
        (fun _ _ => Ok (Some ONLINE))
        (fun _ _ => None)
        (fun _ _ status => status)
        (fun _ _ status => status).

Definition st_empty : State := mkState [] None None ∅.

(** A pod created but not yet configured by its sidecar, and collaborators
    for which no cluster owns a pod. *)
Definition pod_0 : MySQLPod :=
  mkPod "mycluster-0" "default" 0 false "Running" true true
        (Some "ONLINE") 0.

Definition pod_unconfigured : MySQLPod :=
  mkPod "mycluster-0" "default" 0 false "Pending" false false None 0.

Definition pod_going : MySQLPod :=
  mkPod "mycluster-0" "default" 0 true "Running" true true
        (Some "ONLINE") 0.

Definition env_orphan : Env :=
  mkEnv "8.0.25-2.0.1" (Some 60) "2021-06-01T10:00:00Z" platform_get
        (fun _ _ => None)
        (fun _ _ => Ok (Some ONLINE))
        (fun _ _ => None)
        (fun _ _ status => status)
        (fun _ _ status => status).

(** ** Platform mutations and the pre-change hooks *)

(** Calls that change an object on the platform. *)
Definition mutates_platform (c : Call) : bool :=
  match c with
  | Create _ | UpdateStatefulSetReplicas _ | UpdateMysqlImage
  | UpdateOperatorImage | UpdatePullPolicy | RouterUpdateSize _
  | RouterUpdateImage | RouterUpdatePullPolicy | UpdateSchedules _ _ => true
  | _ => false
  end.

Definition mutations (evs : list Event) : list Call :=
  filter (fun c => mutates_platform c = true) (calls evs).

Definition is_pre_change_hook (c : Call) : bool :=
  match c with
  | CtlServerVersionChange _ | CtlServerImageChange _ => true
  | _ => false
  end.

(** No platform object is touched until a pre-change hook has returned. *)
Fixpoint hook_before_mutation (evs : list Event) : bool :=
  match evs with
  | [] => true
  | Called c r :: rest =>
      if is_pre_change_hook c && bool_decide (r = None) then true
      else negb (mutates_platform c) && hook_before_mutation rest
  | _ :: rest => hook_before_mutation rest
  end.

(** A running cluster with all its dependent objects, and a controller
    that refuses a server version change. *)
Definition st_running : State :=
  mkState [InitConf; PrivateSecrets; RouterAccount; Service; StatefulSet;
           DisruptionBudget; RouterService; RouterDeployment; BackupAccount]
          (Some "8.0.25-2.0.1")
          (Some (mkStatus ONLINE 3 "2021-06-01T10:05:00Z")) ∅.

Definition env_hook_fails : Env :=
  mkEnv "8.0.25-2.0.1" (Some 60) "2021-06-01T10:00:00Z" platform_get
        (fun _ _ => Some cluster_up)
        (fun _ _ => Ok (Some ONLINE))
        (fun _ c =>
           match c with
           | CtlServerVersionChange _ => Some (OtherError "downgrade refused")
           | _ => None
           end)
        (fun _ _ status => status)
        (fun _ _ status => status).

(** ** Restart notifications *)

(** The key of a pod's restart count in [g_ephemeral_pod_state]. *)
Definition restarts_key (pod : MySQLPod) : string * string * string :=
  (pod_namespace pod, pod_name pod, "mysql-restarts").

(** The pods for which the pod-restarted hook was invoked. *)
Definition notifications (evs : list Event) : list MySQLPod :=
  omap (fun ev =>
          match ev with
          | Called (CtlPodRestarted p) _ => Some p
          | _ => None
          end) evs.

(** The delays slept. *)
Definition sleeps (evs : list Event) : list Z :=
  omap (fun ev => match ev with Sleep d => Some d | _ => None end) evs.

(** A pod that passes the filter at the head of [on_pod_event]. *)
Definition observed (pod : MySQLPod) : Prop :=
  phase pod = "Running" /\ pod_deleting pod = false
  /\ is_Some (membership_info pod).

(** [g_ephemeral_pod_state] with the restart count of [pod] set. *)
Definition remember_restarts (pod : MySQLPod) (st : State) : State :=
  mkState (objects st) (operator_version st) (cluster_status st)
          (<[restarts_key pod := mysql_restarts pod]> (ephemeral st)).

(** The restart counts at the last delivery: a pod-created or pod-restarted
    hook that returned delivers the count the pod had then. *)
Definition record_delivery (m : gmap (string * string * string) Z)
    (ev : Event) : gmap (string * string * string) Z :=
  match ev with
  | Called (CtlPodCreated p) None
  | Called (CtlPodRestarted p) None => <[restarts_key p := mysql_restarts p]> m
  | _ => m
  end.

Definition delivered (m : gmap (string * string * string) Z)
    (evs : list Event) : gmap (string * string * string) Z :=
  foldl record_delivery m evs.

(** ** The retry loop *)

(** A result that is a raised [kopf.TemporaryError], and its delay. *)
Definition temporary {A} (r : Res A) : bool :=
  match r with
  | Raise (TemporaryError _ _) => true
  | _ => false
  end.

Definition delay_of {A} (r : Res A) : option Z :=
  match r with
  | Raise (TemporaryError _ delay) => delay
  | _ => None
  end.


(** A delay that [time.sleep] accepts, and a result that the loop of
    [on_pod_event] retries: a [TemporaryError] with such a delay. *)
Definition delay_ok (delay : option Z) : bool :=
  match delay with
  | Some d => bool_decide (0 <= d)
  | None => true
  end.

Definition retryable {A} (r : Res A) : bool :=
  match r with
  | Raise (TemporaryError _ delay) => delay_ok delay
  | _ => false
  end.

(** What the [except] clause of the loop does for a delay that
    [time.sleep] accepts: it logs, and sleeps unless the delay is zero or
    absent. *)
Definition retry_events (delay : option Z) : list Event :=
  Log INFO "{e}: retrying after {e.delay} seconds"
  :: match delay with
     | Some d => if bool_decide (d = 0) then [] else [Sleep d]
     | None => []
     end.



(** The state but for the status of the cluster resource, which the
    controller and the probe write. *)
Definition status_aside (st : State)
    : list ObjKind * option string * gmap (string * string * string) Z :=
  (objects st, operator_version st, ephemeral st).

(** A probe that finds the cluster status UNKNOWN at first, or always. *)
Definition env_unknown_twice : Env :=
  mkEnv "8.0.25-2.0.1" (Some 60) "2021-06-01T10:00:00Z" platform_get
        (fun _ _ => Some cluster_up)
        (fun i _ => if bool_decide (i < 2)%nat then Ok (Some UNKNOWN)
                    else Ok (Some ONLINE))
        (fun _ _ => None)
        (fun _ _ status => status)
        (fun _ _ status => status).


(** Collaborators whose mutex is taken. *)
Definition env_busy : Env :=
  mkEnv "8.0.25-2.0.1" (Some 60) "2021-06-01T10:00:00Z" platform_get
        (fun _ _ => Some cluster_up)
        (fun _ _ => Ok (Some ONLINE))
        (fun _ c =>
           match c with
           | MutexEnter _ _ =>
               Some (TemporaryError "mycluster busy" (Some 10))
           | _ => None
           end)
        (fun _ _ status => status)
        (fun _ _ status => status).


(** A call that is refused for now: it raises a [TemporaryError] whose
    delay [time.sleep] accepts. *)
Definition refused_for_now (env : Env) (i : nat) (c : Call) : bool :=
  match call_raises env i c with
  | Some (TemporaryError _ delay) => delay_ok delay
  | _ => false
  end.



(** A controller and a probe that report what they find in the status of
    the cluster resource. *)
Definition env_reporting : Env :=
  mkEnv "8.0.25-2.0.1" (Some 60) "2021-06-01T10:00:00Z" platform_get
        (fun _ _ => Some cluster_up)
        (fun _ _ => Ok (Some ONLINE))
        (fun _ _ => None)
        (fun _ _ _ => Some (mkStatus ONLINE 1 "2021-06-01T10:05:00Z"))
        (fun _ _ _ => Some (mkStatus ONLINE 1 "2021-06-01T10:05:00Z")).

(** The pod after one restart of its mysql container, and a state in which
    the count stored for it is still 0. *)
Definition pod_restarted : MySQLPod :=
  mkPod "mycluster-0" "default" 0 false "Running" true true
        (Some "ONLINE") 1.

Definition st_seen : State :=
  mkState (objects st_running) (operator_version st_running)
          (cluster_status st_running) {[restarts_key pod_0 := 0]}.

(** A computation keeps the restart counts in step with the deliveries. *)
Definition tracks {A} (m : M A) : Prop :=
  forall st,
    ephemeral (final (m st)) = delivered (ephemeral st) (events (m st)).

(** Calls that are not a delivery and leave the restart counts alone. *)
Definition no_delivery (c : Call) : Prop :=
  match c with
  | CtlPodCreated _ | CtlPodRestarted _ => False
  | _ => True
  end.

(** The invariant: the stored restart counts are those of the last
    deliveries in the history of the process. *)
Definition counts_as_delivered (history : list Event) (st : State) : Prop :=
  ephemeral st = delivered ∅ history.

(** The same pod with a container that is not ready. *)
Definition pod_restarting : MySQLPod :=
  mkPod "mycluster-0" "default" 0 false "Running" true false
        (Some "ONLINE") 1.

(** ** Creation of the dependent objects *)

(** The order of the numbered blocks of [on_innodbcluster_create]. *)
Definition create_order : list ObjKind :=
  [InitConf; PrivateSecrets; RouterAccount; Service; StatefulSet;
   DisruptionBudget; RouterService; RouterDeployment; BackupAccount].

(** The blocks as a loop over the objects. *)
Fixpoint ensure_all (env : Env) (icspec : InnoDBClusterSpec)
    (ks : list ObjKind) : M unit :=
  match ks with
  | [] => ret tt
  | k :: ks' =>
      match ks' with
      | [] => ensure env icspec k
      | _ => bind (ensure env icspec k) (fun _ => ensure_all env icspec ks')
      end
  end.

(** A lookup that [ignore_404] turns into "not there": [None], or the API's
    404. *)
Definition not_found (r : Res bool) : bool :=
  match r with
  | Ok found => negb found
  | Raise (ApiException status) => bool_decide (status = 404)
  | Raise _ => false
  end.

(** The objects looked up, and those of them not found. *)
Definition looked_up (evs : list Event) : list ObjKind :=
  omap (fun ev => match ev with Got k _ => Some k | _ => None end) evs.

Definition missed (evs : list Event) : list ObjKind :=
  omap (fun ev =>
          match ev with
          | Got k r => if not_found r then Some k else None
          | _ => None
          end) evs.

(** Every creation submitted is of the object whose lookup, the last
    lookup before it, did not find it; [pending] is that object. *)
Fixpoint check_then_create (pending : option ObjKind) (evs : list Event)
    : bool :=
  match evs with
  | [] => true
  | Got k r :: rest =>
      check_then_create (if not_found r then Some k else None) rest
  | Called (Create k) _ :: rest =>
      bool_decide (pending = Some k) && check_then_create None rest
  | _ :: rest => check_then_create pending rest
  end.

(** A spec without routers. *)
Definition spec_3_0 : InnoDBClusterSpec := mkSpec 0 None.

Definition cluster_new_no_router : InnoDBCluster :=
  mkCluster "mycluster" "default" false None false (Ok spec_3_0).

(** The operator-version tag and [status.cluster] that
    [on_innodbcluster_create] leaves when it returns. *)
Definition stamped_pending (tag : string) (st : State) : Prop :=
  operator_version st = Some tag
  /\ status <$> cluster_status st = Some PENDING
  /\ onlineInstances <$> cluster_status st = Some 0.

(** ** The cluster mutex *)

(** Calls with which a handler itself writes the cluster resource's status
    or one of the cluster's dependent objects. (What a method of the
    [ClusterController] writes is behind the call.) *)
Definition mutates_cluster (c : Call) : bool :=
  mutates_platform c
  || match c with
     | SetOperatorVersion _ | SetStatus _ _ _
     | FirstClusterPodCreated _ | LastClusterPodRemoved _ => true
     | _ => false
     end.

(** Every such call is made between a [ClusterMutex.__enter__] that
    returned and the [__exit__] after it; [held] says whether the mutex is
    held at the start of [evs]. *)
Fixpoint serialized (held : bool) (evs : list Event) : bool :=
  match evs with
  | [] => true
  | Called (MutexEnter _ _) None :: rest => serialized true rest
  | MutexExit _ :: rest => serialized false rest
  | Called c _ :: rest =>
      (held || negb (mutates_cluster c)) && serialized held rest
  | _ :: rest => serialized held rest
  end.

(** A run whose platform mutations wait for the pre-change hook [hook], and
    that raises what the hook raises, having touched nothing. *)
Definition hook_guards (hook : Call) (st : State)
    (run : Res unit * State * list Event) : Prop :=
  hook_before_mutation (events run) = true
  /\ forall e, In (Called hook (Some e)) (events run) ->
       result run = Raise e /\ mutations (events run) = [] /\ final run = st.

(** What one block does. *)
Definition step_ok (icspec : InnoDBClusterSpec) (k : ObjKind) (st : State)
    (run : Res unit * State * list Event) : Prop :=
  looked_up (events run) = [k]
  /\ created (events run) `sublist_of` [k]
  /\ (forall p, check_then_create p (events run) = true)
  /\ (forall k', In (Create k') (calls (events run)) ->
                 k' = k /\ step_guard icspec k = true)
  /\ objects (final run) = objects st ++ created (events run)
  /\ (result run = Ok tt ->
      created (events run) = List.filter (step_guard icspec) (missed (events run))).

(** What the blocks for the objects [ks] do, one after the other. *)
Definition steps_ok (icspec : InnoDBClusterSpec) (ks : list ObjKind)
    (st : State) (run : Res unit * State * list Event) : Prop :=
  created (events run) `sublist_of` ks
  /\ (forall p, check_then_create p (events run) = true)
  /\ (forall k', In (Create k') (calls (events run)) ->
                 step_guard icspec k' = true)
  /\ objects (final run) = objects st ++ created (events run)
  /\ (result run = Ok tt ->
      looked_up (events run) = ks
      /\ created (events run)
         = List.filter (step_guard icspec) (missed (events run))).

(** A cluster resource whose spec does not parse. *)
Definition cluster_bad_spec : InnoDBCluster :=
  mkCluster "mycluster" "default" false None false
            (Raise (ApiSpecError "spec.instances must be between 1 and 9")).

(** ** Further observations *)

(** The spec field handlers other than the two for the replica counts take
    string values; [field_runs] lists the runs of the five handlers that
    patch the stateful set, [gated_runs] those of all eight handlers. *)
Definition statefulset_runs (env : Env) (oz nz : option Z)
    (os ns : option string) (cluster : InnoDBCluster) (st : State)
    : list (bool * (Res unit * State * list Event)) :=
  [ (bool_decide (oz <> nz),
     on_innodbcluster_field_instances env oz nz cluster st);
    (bool_decide (os <> ns),
     on_innodbcluster_field_version env os ns cluster st);
    (bool_decide (os <> ns),
     on_innodbcluster_field_image_repository env os ns cluster st);
    (bool_decide (os <> ns),
     on_innodbcluster_field_image_pull_policy env os ns cluster st);
    (bool_decide (os <> ns),
     on_innodbcluster_field_image env os ns cluster st) ].

Definition field_runs (env : Env) (oz nz : option Z) (os ns : option string)
    (cluster : InnoDBCluster) (st : State)
    : list (Res unit * State * list Event) :=
  [ on_innodbcluster_field_instances env oz nz cluster st;
    on_innodbcluster_field_version env os ns cluster st;
    on_innodbcluster_field_image_repository env os ns cluster st;
    on_innodbcluster_field_image_pull_policy env os ns cluster st;
    on_innodbcluster_field_image env os ns cluster st;
    on_innodbcluster_field_router_instances env oz nz cluster st;
    on_innodbcluster_field_router_version env os ns cluster st;
    on_innodbcluster_field_backup_schedules env os ns cluster st ].

(** The handlers that call [validate]. *)
Definition validating_runs (env : Env) (oz nz : option Z)
    (os ns : option string) (cluster : InnoDBCluster) (st : State)
    : list (Res unit * State * list Event) :=
  [ on_innodbcluster_field_instances env oz nz cluster st;
    on_innodbcluster_field_image env os ns cluster st;
    on_innodbcluster_field_router_instances env oz nz cluster st;
    on_innodbcluster_field_router_version env os ns cluster st;
    on_innodbcluster_field_backup_schedules env os ns cluster st ].

(** The handlers that patch the router deployment when there is one. *)
Definition router_patching_runs (env : Env) (os ns : option string)
    (cluster : InnoDBCluster) (st : State)
    : list (Res unit * State * list Event) :=
  [ on_innodbcluster_field_version env os ns cluster st;
    on_innodbcluster_field_image_repository env os ns cluster st;
    on_innodbcluster_field_image_pull_policy env os ns cluster st;
    on_innodbcluster_field_router_version env os ns cluster st ].

Definition patches_router_deployment (c : Call) : bool :=
  match c with
  | RouterUpdateImage | RouterUpdatePullPolicy => true
  | _ => false
  end.

(** A run that touched nothing: no platform mutation, no pre-change hook,
    and the state it started from. *)
Definition untouched (st : State) (run : Res unit * State * list Event)
    : Prop :=
  mutations (events run) = []
  /\ filter (fun c => is_pre_change_hook c = true) (calls (events run)) = []
  /\ final run = st.

(** A cluster whose spec parses but does not validate. *)
Definition spec_invalid : InnoDBClusterSpec :=
  mkSpec 1 (Some (ApiSpecError "spec.instances must be between 1 and 9")).

Definition cluster_up_invalid : InnoDBCluster :=
  mkCluster "mycluster" "default" true (Some "2021-06-01T10:00:00Z") false
            (Ok spec_invalid).

Definition cluster_up_bad_spec : InnoDBCluster :=
  mkCluster "mycluster" "default" true (Some "2021-06-01T10:00:00Z") false
            (Raise (ApiSpecError "spec.version is not a version")).

(** The runs of the handlers that enter the cluster mutex once. *)
Definition mutex_runs (env : Env) (oz nz : option Z) (os ns : option string)
    (cluster : InnoDBCluster) (pod : MySQLPod) (st : State)
    : list (Res unit * State * list Event) :=
  [ on_innodbcluster_field_router_instances env oz nz cluster st;
    on_innodbcluster_field_router_version env os ns cluster st;
    on_innodbcluster_field_backup_schedules env os ns cluster st;
    on_pod_create env pod st;
    on_pod_delete env pod st ].

(** The calls of a handler that changes an image or a pull policy, in the
    order the handler makes them when each one returns. *)
Definition version_calls (new : option string) : list Call :=
  [CtlServerVersionChange new; UpdateMysqlImage; RouterUpdateImage].

Definition image_calls (new : option string) : list Call :=
  [CtlServerImageChange new; UpdateMysqlImage].

Definition image_repository_calls : list Call :=
  [UpdateMysqlImage; UpdateOperatorImage; RouterUpdateImage].

Definition image_pull_policy_calls : list Call :=
  [UpdatePullPolicy; RouterUpdatePullPolicy].

(** The calls of [on_innodbcluster_delete]. *)
Definition delete_calls (cluster : InnoDBCluster) : list Call :=
  [RemoveCluster (name cluster); RouterUpdateSize (Some 0);
   UpdateStatefulSetReplicas (Some 0)].

(** A pod whose events [on_pod_event] ignores. *)
Definition ignored (pod : MySQLPod) : Prop :=
  phase pod <> "Running" \/ pod_deleting pod = true
  \/ membership_info pod = None.

(** Collaborators that cooperate at attempt [i]: the owning cluster of the
    pod resolves and no call raises. *)
Definition cooperative (env : Env) (pod : MySQLPod) (i : nat) : Prop :=
  is_Some (get_cluster env i pod) /\ forall c, call_raises env i c = None.

(** A pod that is the second of its cluster, and a pod that is not
    running yet. *)
Definition pod_1 : MySQLPod :=
  mkPod "mycluster-1" "default" 1 false "Running" true true
        (Some "ONLINE") 0.

Definition pod_pending : MySQLPod :=
  mkPod "mycluster-0" "default" 0 false "Pending" true false None 0.

(** Collaborators for a cluster that is being created: it has no create
    time yet. *)
Definition env_bootstrapping : Env :=
  mkEnv "8.0.25-2.0.1" (Some 60) "2021-06-01T10:00:00Z" platform_get
        (fun _ _ => Some cluster_new)
        (fun _ _ => Ok (Some PENDING))
        (fun _ _ => None)
        (fun _ _ status => status)
        (fun _ _ status => status).

(** ** Frames *)

(** Every event of a computation satisfies [p]; a computation leaves the
    part [f] of the state as it is. *)
Definition every {A} (p : Event -> bool) (m : M A) : Prop :=
  forall st, forallb p (events (m st)) = true.

Definition preserves {A X} (f : State -> X) (m : M A) : Prop :=
  forall st, f (final (m st)) = f st.

(** The cluster resource as the handlers write it: operator version and
    status. *)
Definition resource (st : State) : option string * option StatusCluster :=
  (operator_version st, cluster_status st).

Definition is_mutex_event (ev : Event) : bool :=
  match ev with
  | Called (MutexEnter _ _) _ | MutexExit _ => true
  | _ => false
  end.

(** Whether the mutex is held after [evs] when [held] says whether it was
    before; [None] when [evs] enters a mutex that is held or leaves one that
    is not. *)
Fixpoint mutex_after (held : bool) (evs : list Event) : option bool :=
  match evs with
  | [] => Some held
  | Called (MutexEnter _ _) None :: rest =>
      if held then None else mutex_after true rest
  | MutexExit _ :: rest =>
      if held then mutex_after false rest else None
  | _ :: rest => mutex_after held rest
  end.

(** The calls with which [on_innodbcluster_create] builds the cluster:
    manifests, adoption, creation, and the two writes of the resource. *)
Definition builds_cluster (c : Call) : bool :=
  match c with
  | Prepare _ | Adopt _ | Create _ | SetOperatorVersion _ | SetStatus _ _ _ =>
      true
  | _ => false
  end.

Definition writes_resource (c : Call) : bool :=
  match c with
  | SetOperatorVersion _ | SetStatus _ _ _ => true
  | _ => false
  end.

Definition not_call (p : Call -> bool) (ev : Event) : bool :=
  match ev with
  | Called c _ => negb (p c)
  | _ => true
  end.

Definition is_cluster_created (inv : Invocation) : bool :=
  match inv with
  | ClusterCreated _ => true
  | _ => false
  end.

(** Collaborators that fail to create the stateful set. *)
Definition env_no_quota : Env :=
  mkEnv "8.0.25-2.0.1" (Some 60) "2021-06-01T10:00:00Z" platform_get
        (fun _ _ => Some cluster_up)
        (fun _ _ => Ok (Some ONLINE))
        (fun _ c =>
           match c with
           | Create StatefulSet => Some (ApiException 403)
           | _ => None
           end)
        (fun _ _ status => status)
        (fun _ _ status => status).

(** The clusters [monitor_existing_clusters] hands to the group monitor. *)
Definition initialized (clusters : list InnoDBCluster) : list InnoDBCluster :=
  List.filter (fun c => bool_decide (is_Some (get_create_time c))) clusters.

(** The runs of the three handlers that test the create time. *)
Definition created_gated_runs (env : Env) (oz nz : option Z)
    (os ns : option string) (cluster : InnoDBCluster) (st : State)
    : list (Res unit * State * list Event) :=
  [ on_innodbcluster_field_router_instances env oz nz cluster st;
    on_innodbcluster_field_router_version env os ns cluster st;
    on_innodbcluster_field_backup_schedules env os ns cluster st ].

(** A cluster whose spec parses but would not validate, and collaborators
    for it. *)
Definition env_calm_invalid : Env :=
  mkEnv "8.0.25-2.0.1" (Some 60) "2021-06-01T10:00:00Z" platform_get
        (fun _ _ => Some cluster_up_invalid)
        (fun _ _ => Ok (Some ONLINE))
        (fun _ _ => None)
        (fun _ _ status => status)
        (fun _ _ status => status).

(** Lookups that find every object the platform holds. *)
Definition sees_objects (env : Env) : Prop :=
  forall store k, k ∈ store -> api_get env store k = Ok true.

(** A platform on which the secrets and the service are there already. *)
Definition st_half : State :=
  mkState [PrivateSecrets; RouterAccount; Service] None None ∅.


(** ** Runs that stop at the first exception *)

(** The exception an event records: that of a call, a lookup or a probe
    that raised. *)
Definition failure (ev : Event) : option Exn :=
  match ev with
  | Called _ (Some e) => Some e
  | Got _ (Raise e) => Some e
  | Probed _ (Raise e) => Some e
  | _ => None
  end.

(** The same for the blocks of [on_innodbcluster_create], where
    [ignore_404] turns the 404 of a lookup into an answer. *)
Definition block_failure (ev : Event) : option Exn :=
  match ev with
  | Got _ (Raise (ApiException status)) =>
      if bool_decide (status = 404) then None else Some (ApiException status)
  | _ => failure ev
  end.

(** The first exception recorded, with the events after it. *)
Fixpoint first_failure (fail : Event -> option Exn) (evs : list Event)
    : option (Exn * list Event) :=
  match evs with
  | [] => None
  | ev :: rest =>
      match fail ev with
      | Some e => Some (e, rest)
      | None => first_failure fail rest
      end
  end.

(** A run that does nothing more once a call or a lookup raised, and
    raises what that raised. *)
Definition stops_at_failure {A} (run : Res A * State * list Event) : Prop :=
  match first_failure failure (events run) with
  | Some (e, rest) => rest = [] /\ result run = Raise e
  | None => True
  end.

(** The calls of [on_innodbcluster_delete] when none raises, by what the
    lookup of the stateful set answers. *)
Definition delete_calls_made (cluster : InnoDBCluster) (sts : Res bool)
    : list Call :=
  [RemoveCluster (name cluster); RouterUpdateSize (Some 0)]
  ++ match sts with
     | Ok true => [UpdateStatefulSetReplicas (Some 0)]
     | _ => []
     end.
(** * Properties *)

(** C8. When parsing or validating the spec raises [ApiSpecError],
    [on_innodbcluster_create] reports an InvalidArgument error on the
    cluster resource and raises [kopf.TemporaryError]; it does nothing
    else: no lookup, no creation, and the state (objects, operator version,
    status) is the one it started from. *)
Theorem create_invalid_spec (env : Env) (cluster : InnoDBCluster)
    (st : State) (msg : string) :
  spec_error cluster msg ->
  on_innodbcluster_create env cluster st =
    (Raise (TemporaryError ("Error in InnoDBCluster spec: " +:+ msg)
              (default_retry_delay env)),
     st,
     [Log INFO "Initializing InnoDB Cluster name={name} namespace={namespace}";
      Diag ERROR "CreateCluster" "InvalidArgument" msg]).
Proof.
  intros [Hparse | (icspec & Hparse & Hval)];
    unfold on_innodbcluster_create, bind, try_except, lift, validate, logger,
      emit, raise; rewrite Hparse; [reflexivity |].
  rewrite Hval. reflexivity.
Qed.

Lemma create_invalid_spec_witness :
  on_innodbcluster_create env_calm cluster_bad_spec st_empty =
    (Raise (TemporaryError
              "Error in InnoDBCluster spec: spec.instances must be between 1 and 9"
              (Some 60)),
     st_empty,
     [Log INFO "Initializing InnoDB Cluster name={name} namespace={namespace}";
      Diag ERROR "CreateCluster" "InvalidArgument"
           "spec.instances must be between 1 and 9"]).
Proof.
  apply (create_invalid_spec env_calm cluster_bad_spec st_empty
           "spec.instances must be between 1 and 9").
  left. reflexivity.
Defined.

(** ** Readiness gating of the spec field handlers *)

(** C2. On a cluster that is not ready and has no create time, the
    handlers of spec.instances, spec.version, spec.image,
    spec.imageRepository, spec.imagePullPolicy, spec.router.instances and
    spec.router.version return without calling any collaborator and without
    raising, at most logging. The handler of spec.backupSchedules raises
    [TemporaryError] with delay 10 when old and new differ, and returns at
    once, doing nothing, when they are equal. *)
Theorem field_handlers_gated (env : Env) (cluster : InnoDBCluster)
    (st : State) (oz nz : option Z) (os ns : option string) :
  unready cluster ->
  only_logs st (on_innodbcluster_field_instances env oz nz cluster st)
  /\ only_logs st (on_innodbcluster_field_version env os ns cluster st)
  /\ only_logs st (on_innodbcluster_field_image env os ns cluster st)
  /\ only_logs st
       (on_innodbcluster_field_image_repository env os ns cluster st)
  /\ only_logs st
       (on_innodbcluster_field_image_pull_policy env os ns cluster st)
  /\ only_logs st
       (on_innodbcluster_field_router_instances env oz nz cluster st)
  /\ only_logs st
       (on_innodbcluster_field_router_version env os ns cluster st)
  /\ (os <> ns ->
      on_innodbcluster_field_backup_schedules env os ns cluster st =
        (Raise (TemporaryError
                  "The cluster is not ready. Will create the schedules once the first instance is up and running"
                  (Some 10)),
         st, [Log INFO "on_innodbcluster_field_backup_schedules"]))
  /\ (os = ns ->
      on_innodbcluster_field_backup_schedules env os ns cluster st =
        (Ok tt, st, [])).
Proof.
  intros [Hready Htime].
  unfold on_innodbcluster_field_instances, on_innodbcluster_field_version,
    on_innodbcluster_field_image, on_innodbcluster_field_image_repository,
    on_innodbcluster_field_image_pull_policy,
    on_innodbcluster_field_router_instances,
    on_innodbcluster_field_router_version,
    on_innodbcluster_field_backup_schedules.
  rewrite Hready, Htime. simpl.
  repeat split; try reflexivity.
  - destruct (bool_decide (os = ns)); reflexivity.
  - destruct (bool_decide (os = ns)); reflexivity.
  - destruct (bool_decide (os = ns)); reflexivity.
  - destruct (bool_decide (os = ns)); reflexivity.
  - intros Hne. rewrite bool_decide_eq_false_2 by assumption. reflexivity.
  - intros Heq. rewrite bool_decide_eq_true_2 by assumption. reflexivity.
Qed.

Lemma field_handlers_gated_witness :
  only_logs st_empty
    (on_innodbcluster_field_instances env_calm (Some 3) (Some 5) cluster_new
       st_empty)
  /\ on_innodbcluster_field_backup_schedules env_calm None (Some "daily")
       cluster_new st_empty =
     (Raise (TemporaryError
               "The cluster is not ready. Will create the schedules once the first instance is up and running"
               (Some 10)),
      st_empty, [Log INFO "on_innodbcluster_field_backup_schedules"]).
Proof.
  pose proof (field_handlers_gated env_calm cluster_new st_empty
                (Some 3) (Some 5) None (Some "daily")
                (conj eq_refl eq_refl)) as H.
  split; [apply H | apply H; discriminate].
Defined.

(** A cluster without a create time whose spec.backupSchedules handler is
    invoked with equal old and new values: no retryable condition is
    raised. *)
Lemma backup_schedules_unchanged_no_retry :
  get_create_time cluster_new = None
  /\ ~ exists msg delay,
       result (on_innodbcluster_field_backup_schedules env_calm
                 (Some "daily") (Some "daily") cluster_new st_empty)
       = Raise (TemporaryError msg delay).
Proof.
  split; [reflexivity |].
  intros (msg & delay & H). vm_compute in H. discriminate H.
Qed.

(** ** Preconditions of the pod handlers *)

(** C9. [on_pod_create] fails with an assertion error on a pod that is
    being deleted, and with an attribute error on a pod that is not being
    deleted, has its [configured] gate set and has no owning cluster; in
    both cases nothing is cleaned up and the state is unchanged. A pod that
    is not being deleted and is not configured gets the retryable
    [TemporaryError] with delay 10 before its cluster is looked up.
    [on_pod_delete] on a pod being deleted without owning cluster removes
    the member finalizer of the pod and logs an error. *)
Theorem pod_create_preconditions (env : Env) (pod : MySQLPod) (st : State) :
  (pod_deleting pod = true ->
   on_pod_create env pod st = (Raise AssertionError, st, []))
  /\ (pod_deleting pod = false -> configured pod = true ->
      get_cluster env 0 pod = None ->
      on_pod_create env pod st =
        (Raise (AttributeError "'NoneType' object has no attribute 'deleting'"),
         st,
         [Log INFO "POD CREATED: pod={pod.name} ContainersReady={pod.check_condition('ContainersReady')} Ready={pod.check_condition('Ready')} gate[configured]={pod.get_member_readiness_gate('configured')}";
          GotCluster (pod_name pod) false]))
  /\ (pod_deleting pod = false -> configured pod = false ->
      on_pod_create env pod st =
        (Raise (TemporaryError
                  ("Sidecar of " +:+ pod_name pod +:+ " is not yet configured")
                  (Some 10)),
         st,
         [Log INFO "POD CREATED: pod={pod.name} ContainersReady={pod.check_condition('ContainersReady')} Ready={pod.check_condition('Ready')} gate[configured]={pod.get_member_readiness_gate('configured')}"]))
  /\ (pod_deleting pod = true -> get_cluster env 0 pod = None ->
      call_raises env 0 (RemoveMemberFinalizer (pod_name pod)) = None ->
      on_pod_delete env pod st =
        (Ok tt, st,
         [GotCluster (pod_name pod) false;
          Called (RemoveMemberFinalizer (pod_name pod)) None;
          Log ERROR "Owner cluster for {pod.name} does not exist anymore"])).
Proof.
  repeat split.
  - intros Hdel. unfold on_pod_create. rewrite Hdel. reflexivity.
  - intros Hdel Hconf Hnone. unfold on_pod_create, bind, pod_get_cluster.
    rewrite Hdel, Hconf, Hnone. reflexivity.
  - intros Hdel Hconf. unfold on_pod_create, bind. rewrite Hdel, Hconf.
    reflexivity.
  - intros Hdel Hnone Hfin.
    unfold on_pod_delete, bind, pod_get_cluster, invoke.
    rewrite Hdel, Hnone. simpl. rewrite Hfin. reflexivity.
Qed.

Lemma pod_create_preconditions_witness :
  on_pod_create env_orphan pod_going st_empty
    = (Raise AssertionError, st_empty, [])
  /\ result (on_pod_create env_orphan pod_0 st_empty)
     = Raise (AttributeError "'NoneType' object has no attribute 'deleting'")
  /\ result (on_pod_delete env_orphan pod_going st_empty) = Ok tt.
Proof.
  destruct (pod_create_preconditions env_orphan pod_going st_empty)
    as (Hdel & _ & _ & Horphan).
  destruct (pod_create_preconditions env_orphan pod_0 st_empty)
    as (_ & Hattr & _).
  split; [apply Hdel; reflexivity |].
  split; [rewrite Hattr; reflexivity |].
  rewrite Horphan; reflexivity.
Defined.

(** A pod-create event for a pod whose owning cluster cannot be found and
    whose sidecar has not configured it: the handler raises the retryable
    condition. *)
Lemma pod_create_orphan_unconfigured_retries :
  get_cluster env_orphan 0 pod_unconfigured = None
  /\ result (on_pod_create env_orphan pod_unconfigured st_empty)
     = Raise (TemporaryError "Sidecar of mycluster-0 is not yet configured"
                (Some 10)).
Proof. split; reflexivity. Qed.

(** ** Version and image changes *)

(** C5. On a ready cluster with a stateful set and old different from
    new, the handlers of spec.version and spec.image touch no platform
    object before the controller's pre-change hook has returned; when
    parsing (and, for spec.image, validation) succeeds the hook is the
    first call they make; and when the hook raises, the handler raises that
    same exception, no platform object has been touched and the state is
    unchanged. *)
Theorem pre_change_hook_first (env : Env) (old new : option string)
    (cluster : InnoDBCluster) (st : State) :
  ready cluster = true ->
  api_get env (objects st) StatefulSet = Ok true ->
  old <> new ->
  let run_version := on_innodbcluster_field_version env old new cluster st in
  let run_image := on_innodbcluster_field_image env old new cluster st in
  hook_guards (CtlServerVersionChange new) st run_version
  /\ hook_guards (CtlServerImageChange new) st run_image
  /\ (forall icspec, parse_spec cluster = Ok icspec ->
      head (calls (events run_version)) = Some (CtlServerVersionChange new))
  /\ (forall icspec, parse_spec cluster = Ok icspec ->
      validate_raises icspec = None ->
      head (calls (events run_image)) = Some (CtlServerImageChange new)).
Proof.
  intros Hready Hsts Hne run_version run_image.
  subst run_version run_image.
  unfold hook_guards, on_innodbcluster_field_version,
    on_innodbcluster_field_image, bind, try_except, lift, parsed_spec,
    validate, cluster_get, invoke, logger, emit, when, raise, ret,
    result, final, events.
  rewrite Hready. simpl. rewrite Hsts. simpl.
  rewrite (bool_decide_eq_true_2 _ Hne). simpl.
  destruct (parse_spec cluster) as [icspec | eparse]; simpl.
  2: { repeat split; try reflexivity; try discriminate;
       cbn; intros; intuition (try discriminate; try congruence). }
  destruct (call_raises env 0 (CtlServerVersionChange new)) as [ev |] eqn:Hv;
    destruct (validate_raises icspec) as [eval |] eqn:Hval;
    destruct (call_raises env 0 (CtlServerImageChange new)) as [ei |] eqn:Hi;
    destruct (call_raises env 0 UpdateMysqlImage) as [eu |]; simpl;
    try (destruct (api_get env (objects st) RouterDeployment)
           as [[|] | eg]; simpl);
    try (destruct (call_raises env 0 RouterUpdateImage) as [er |]; simpl);
    repeat split; try reflexivity; try discriminate;
    try (intros icspec' Hp; inversion Hp; subst; reflexivity);
    cbn; intros; intuition (try discriminate; try congruence).
Qed.

Lemma pre_change_hook_first_witness :
  hook_guards (CtlServerVersionChange (Some "8.0.25")) st_running
    (on_innodbcluster_field_version env_hook_fails (Some "8.0.24")
       (Some "8.0.25") cluster_up st_running)
  /\ result (on_innodbcluster_field_version env_hook_fails (Some "8.0.24")
               (Some "8.0.25") cluster_up st_running)
     = Raise (OtherError "downgrade refused").
Proof.
  assert (hook_guards (CtlServerVersionChange (Some "8.0.25")) st_running
            (on_innodbcluster_field_version env_hook_fails (Some "8.0.24")
               (Some "8.0.25") cluster_up st_running)) as H.
  { apply (pre_change_hook_first env_hook_fails (Some "8.0.24")
             (Some "8.0.25") cluster_up st_running);
      [reflexivity | reflexivity | discriminate]. }
  split; [exact H |].
  apply H. vm_compute. tauto.
Defined.

(** ** The pod event handler, one attempt at a time *)

Ltac unfold_attempt :=
  unfold pod_event_attempt, with_ClusterMutex, bind, finally, invoke, probe,
    pod_get_cluster, ephemeral_get, ephemeral_set, logger, emit, when, raise,
    ret, result, final, events, restarts_key.

Ltac attempt_cases :=
  repeat (simpl in *;
          match goal with
          | |- context [match ?x with _ => _ end] =>
              lazymatch x with
              | context [match _ with _ => _ end] => fail
              | _ => destruct x eqn:?
              end
          end);
  simpl in *.

(** An attempt sleeps nowhere: sleeping is the loop's. *)
Lemma attempt_no_sleep (env : Env) (i : nat) (pod : MySQLPod) (st : State) :
  sleeps (events (pod_event_attempt env i pod st)) = [].
Proof. unfold_attempt. attempt_cases; reflexivity. Qed.

(** An attempt on a pod whose restart count is the stored one notifies
    nothing and leaves the state as it is, but for the status. *)
Lemma attempt_seen (env : Env) (i : nat) (pod : MySQLPod) (st : State) :
  ephemeral st !! restarts_key pod = Some (mysql_restarts pod) ->
  status_aside (final (pod_event_attempt env i pod st)) = status_aside st
  /\ notifications (events (pod_event_attempt env i pod st)) = [].
Proof.
  intros Hseen. unfold restarts_key in Hseen. unfold pod_event_attempt.
  destruct (bool_decide (phase pod <> "Running") || pod_deleting pod
            || negb (bool_decide (is_Some (membership_info pod))));
    [split; reflexivity |].
  unfold_attempt. rewrite Hseen.
  rewrite (bool_decide_eq_false_2 (Some (mysql_restarts pod)
                                   <> Some (mysql_restarts pod)))
    by (intros Hc; apply Hc; reflexivity).
  rewrite andb_false_r.
  attempt_cases; split; reflexivity.
Qed.

(** So does an attempt on a pod with a container that is not ready. *)
Lemma attempt_unready (env : Env) (i : nat) (pod : MySQLPod) (st : State) :
  containers_ready pod = false ->
  status_aside (final (pod_event_attempt env i pod st)) = status_aside st
  /\ notifications (events (pod_event_attempt env i pod st)) = [].
Proof.
  intros Hnot. unfold_attempt. rewrite Hnot.
  attempt_cases; split; reflexivity.
Qed.

(** An attempt that finds a restart count other than the stored one on a
    pod with all containers ready, resolves the cluster, enters the mutex
    and whose hook returns: one notification, and the count is stored. *)
Lemma attempt_restarted (env : Env) (i : nat) (pod : MySQLPod) (st : State)
    (cluster : InnoDBCluster) :
  observed pod ->
  containers_ready pod = true ->
  ephemeral st !! restarts_key pod <> Some (mysql_restarts pod) ->
  get_cluster env i pod = Some cluster ->
  call_raises env i (MutexEnter (name cluster) (Some (pod_name pod))) = None ->
  call_raises env i (CtlPodRestarted pod) = None ->
  status_aside (final (pod_event_attempt env i pod st))
  = status_aside (remember_restarts pod st)
  /\ notifications (events (pod_event_attempt env i pod st)) = [pod].
Proof.
  intros (Hphase & Hdel & Hinfo) Hready Hnew Hcluster Hmutex Hhook.
  unfold_attempt. unfold restarts_key in Hnew.
  rewrite Hphase, Hdel, Hready, Hcluster.
  rewrite (bool_decide_eq_false_2 ("Running" <> "Running"))
    by (intros Hc; apply Hc; reflexivity).
  rewrite (bool_decide_eq_true_2 _ Hinfo).
  simpl.
  rewrite (bool_decide_eq_true_2 _ Hnew).
  simpl. rewrite Hmutex. simpl. rewrite Hhook. simpl.
  unfold remember_restarts, restarts_key.
  attempt_cases; split; reflexivity.
Qed.

(** An attempt whose mutex is refused raises what the mutex raised, having
    notified nothing and changed nothing. *)
Lemma attempt_refused (env : Env) (i : nat) (pod : MySQLPod) (st : State)
    (cluster : InnoDBCluster) (e : Exn) :
  observed pod ->
  get_cluster env i pod = Some cluster ->
  call_raises env i (MutexEnter (name cluster) (Some (pod_name pod)))
    = Some e ->
  result (pod_event_attempt env i pod st) = Raise e
  /\ final (pod_event_attempt env i pod st) = st
  /\ notifications (events (pod_event_attempt env i pod st)) = [].
Proof.
  intros (Hphase & Hdel & Hinfo) Hcluster Hmutex.
  unfold_attempt.
  rewrite Hphase, Hdel, Hcluster.
  rewrite (bool_decide_eq_false_2 ("Running" <> "Running"))
    by (intros Hc; apply Hc; reflexivity).
  rewrite (bool_decide_eq_true_2 _ Hinfo).
  simpl. rewrite Hmutex. repeat split.
Qed.

(** Whatever an attempt does, the restart counts it leaves are those it
    found, updated by the deliveries it made. *)
Lemma attempt_tracks (env : Env) (i : nat) (pod : MySQLPod) (st : State) :
  ephemeral (final (pod_event_attempt env i pod st))
  = delivered (ephemeral st) (events (pod_event_attempt env i pod st)).
Proof. unfold_attempt. unfold delivered. attempt_cases; reflexivity. Qed.

(** ** The pod event handler, the whole loop *)

Lemma notifications_app (evs1 evs2 : list Event) :
  notifications (evs1 ++ evs2) = notifications evs1 ++ notifications evs2.
Proof. apply omap_app. Qed.

Lemma sleeps_app (evs1 evs2 : list Event) :
  sleeps (evs1 ++ evs2) = sleeps evs1 ++ sleeps evs2.
Proof. apply omap_app. Qed.

Lemma delivered_app (m : gmap (string * string * string) Z)
    (evs1 evs2 : list Event) :
  delivered m (evs1 ++ evs2) = delivered (delivered m evs1) evs2.
Proof. apply foldl_app. Qed.

Lemma notifications_retry (delay : option Z) :
  notifications (retry_events delay) = [].
Proof. destruct delay as [d |]; simpl; [case_bool_decide |]; reflexivity. Qed.


Lemma delivered_retry (m : gmap (string * string * string) Z)
    (delay : option Z) :
  delivered m (retry_events delay) = m.
Proof. destruct delay as [d |]; simpl; [case_bool_decide |]; reflexivity. Qed.

(** What [time.sleep] does with the delay of a [TemporaryError]. *)
Lemma sleep_for_accepted (delay : option Z) (st : State) :
  delay_ok delay = true ->
  (logger INFO "{e}: retrying after {e.delay} seconds" ;; sleep_for delay)%handler
    st
  = (Ok tt, st, retry_events delay).
Proof.
  intros Hok. unfold bind, logger, emit, sleep_for, time_sleep, retry_events.
  destruct delay as [d |]; simpl in *; [| reflexivity].
  apply bool_decide_eq_true in Hok.
  destruct (bool_decide (d = 0)); [reflexivity |].
  rewrite bool_decide_eq_false_2 by lia. reflexivity.
Qed.

Lemma sleep_for_refused (delay : option Z) (st : State) :
  delay_ok delay = false ->
  (logger INFO "{e}: retrying after {e.delay} seconds" ;; sleep_for delay)%handler
    st
  = (Raise (ValueError "sleep length must be non-negative"), st,
     [Log INFO "{e}: retrying after {e.delay} seconds"]).
Proof.
  intros Hbad. unfold bind, logger, emit, sleep_for, time_sleep.
  destruct delay as [d |]; simpl in *; [| discriminate].
  apply bool_decide_eq_false in Hbad.
  rewrite (bool_decide_eq_false_2 (d = 0)) by lia.
  rewrite bool_decide_eq_true_2 by lia. reflexivity.
Qed.

(** The three ways a pass of the loop goes. *)
Lemma outcome_cases {A} (r : Res A) :
  temporary r = false
  \/ retryable r = true
  \/ (temporary r = true /\ retryable r = false).
Proof.
  destruct r as [a | []]; simpl; auto.
  destruct (delay_ok delay); auto.
Qed.

Lemma on_pod_event_from_settle (env : Env) (fuel i : nat) (pod : MySQLPod)
    (st : State) :
  temporary (result (pod_event_attempt env i pod st)) = false ->
  on_pod_event_from env (S fuel) i pod st =
    let first := pod_event_attempt env i pod st in
    (Some (result first), final first, events first).
Proof.
  simpl. destruct (pod_event_attempt env i pod st) as [[r st1] evs1].
  unfold result, final, events. simpl.
  destruct r as [[] | []]; try discriminate; reflexivity.
Qed.

Lemma on_pod_event_from_retry (env : Env) (fuel i : nat) (pod : MySQLPod)
    (st : State) :
  retryable (result (pod_event_attempt env i pod st)) = true ->
  on_pod_event_from env (S fuel) i pod st =
    let first := pod_event_attempt env i pod st in
    let rest := on_pod_event_from env fuel (S i) pod (final first) in
    (result rest, final rest,
     events first ++ retry_events (delay_of (result first)) ++ events rest).
Proof.
  simpl. destruct (pod_event_attempt env i pod st) as [[r st1] evs1].
  unfold result, final, events. simpl.
  destruct r as [[] | []]; try discriminate. simpl. intros Hok.
  rewrite (sleep_for_accepted delay st1 Hok).
  destruct (on_pod_event_from env fuel (S i) pod st1) as [[r2 st2] evs2].
  reflexivity.
Qed.

Lemma on_pod_event_from_refused (env : Env) (fuel i : nat) (pod : MySQLPod)
    (st : State) :
  temporary (result (pod_event_attempt env i pod st)) = true ->
  retryable (result (pod_event_attempt env i pod st)) = false ->
  on_pod_event_from env (S fuel) i pod st =
    let first := pod_event_attempt env i pod st in
    (Some (Raise (ValueError "sleep length must be non-negative")),
     final first,
     events first ++ [Log INFO "{e}: retrying after {e.delay} seconds"]).
Proof.
  simpl. destruct (pod_event_attempt env i pod st) as [[r st1] evs1].
  unfold result, final, events. simpl.
  destruct r as [[] | []]; try discriminate. simpl. intros _ Hbad.
  rewrite (sleep_for_refused delay st1 Hbad). reflexivity.
Qed.

(** When no attempt from a state in [Q] notifies or changes the state
    beyond the status, no number of passes from such a state does. *)
Lemma loop_quiet (env : Env) (pod : MySQLPod) (Q : State -> Prop) :
  (forall st st', status_aside st' = status_aside st -> Q st -> Q st') ->
  (forall i st,
     Q st ->
     status_aside (final (pod_event_attempt env i pod st)) = status_aside st
     /\ notifications (events (pod_event_attempt env i pod st)) = []) ->
  forall fuel i st,
    Q st ->
    status_aside (final (on_pod_event_from env fuel i pod st))
    = status_aside st
    /\ notifications (events (on_pod_event_from env fuel i pod st)) = [].
Proof.
  intros Hstable Hquiet fuel.
  induction fuel as [| fuel IH]; intros i st HQ; [split; reflexivity |].
  destruct (Hquiet i st HQ) as [Hst Hnone].
  destruct (outcome_cases (result (pod_event_attempt env i pod st)))
    as [Hsettle | [Hretry | [Htmp Hbad]]].
  - rewrite on_pod_event_from_settle by assumption. cbn zeta.
    split; assumption.
  - rewrite on_pod_event_from_retry by assumption.
    cbn [final events fst snd].
    destruct (IH (S i) (final (pod_event_attempt env i pod st)))
      as [IHst IHnone]; [apply (Hstable st); assumption |].
    split; [rewrite IHst; exact Hst |].
    rewrite !notifications_app, Hnone, IHnone, notifications_retry.
    reflexivity.
  - rewrite on_pod_event_from_refused by assumption.
    cbn [final events fst snd]. split; [exact Hst |].
    rewrite notifications_app, Hnone. reflexivity.
Qed.

(** Once the stored count is the pod's, no pass notifies or changes the
    state beyond the status. *)
Lemma loop_seen (env : Env) (fuel : nat) (pod : MySQLPod) (st : State) :
  ephemeral st !! restarts_key pod = Some (mysql_restarts pod) ->
  forall i,
    status_aside (final (on_pod_event_from env fuel i pod st))
    = status_aside st
    /\ notifications (events (on_pod_event_from env fuel i pod st)) = [].
Proof.
  intros Hseen i.
  apply (loop_quiet env pod
           (fun st => ephemeral st !! restarts_key pod
                      = Some (mysql_restarts pod))).
  - intros st1 st2 [= _ _ Heq] H. rewrite Heq. exact H.
  - intros j st1 H. apply attempt_seen, H.
  - exact Hseen.
Qed.

(** Nor does any pass while a container of the pod is not ready. *)
Lemma loop_unready (env : Env) (fuel : nat) (pod : MySQLPod) (st : State) :
  containers_ready pod = false ->
  forall i,
    status_aside (final (on_pod_event_from env fuel i pod st))
    = status_aside st
    /\ notifications (events (on_pod_event_from env fuel i pod st)) = [].
Proof.
  intros Hnot i. apply (loop_quiet env pod (fun _ => True)).
  - intros; exact I.
  - intros j st1 _. apply attempt_unready, Hnot.
  - exact I.
Qed.

(** Passes whose mutex is refused for now, followed by a pass that delivers
    the notification: one notification in all, and the count is stored. *)
Lemma loop_restarted_after (env : Env) (pod : MySQLPod)
    (owner : nat -> InnoDBCluster) (k : nat) :
  observed pod ->
  containers_ready pod = true ->
  forall i st fuel,
    ephemeral st !! restarts_key pod <> Some (mysql_restarts pod) ->
    (forall j, (j <= k)%nat ->
               get_cluster env (i + j) pod = Some (owner (i + j)%nat)) ->
    (forall j, (j < k)%nat ->
               refused_for_now env (i + j)
                 (MutexEnter (name (owner (i + j)%nat)) (Some (pod_name pod)))
               = true) ->
    call_raises env (i + k)
      (MutexEnter (name (owner (i + k)%nat)) (Some (pod_name pod))) = None ->
    call_raises env (i + k) (CtlPodRestarted pod) = None ->
    (k < fuel)%nat ->
    status_aside (final (on_pod_event_from env fuel i pod st))
    = status_aside (remember_restarts pod st)
    /\ notifications (events (on_pod_event_from env fuel i pod st)) = [pod].
Proof.
  intros Hobs Hready. induction k as [| k IH];
    intros i st fuel Hnew Hcluster Hbusy Henter Hhook Hfuel;
    (destruct fuel as [| fuel]; [lia |]).
  - pose proof (Hcluster 0%nat ltac:(lia)) as Hc.
    rewrite Nat.add_0_r in Henter, Hhook, Hc.
    destruct (attempt_restarted env i pod st (owner i) Hobs Hready Hnew Hc
                Henter Hhook) as [Hst Hone].
    assert (ephemeral (final (pod_event_attempt env i pod st))
              !! restarts_key pod = Some (mysql_restarts pod)) as Hseen.
    { injection Hst as _ _ ->. unfold remember_restarts. simpl.
      apply lookup_insert_eq. }
    destruct (outcome_cases (result (pod_event_attempt env i pod st)))
      as [Hsettle | [Hretry | [Htmp Hbad]]].
    + rewrite on_pod_event_from_settle by assumption.
      cbn [final events fst snd]. split; assumption.
    + rewrite on_pod_event_from_retry by assumption.
      cbn [final events fst snd].
      destruct (loop_seen env fuel pod _ Hseen (S i)) as [Hst2 Hnone].
      split; [rewrite Hst2; exact Hst |].
      rewrite !notifications_app, Hone, Hnone, notifications_retry.
      reflexivity.
    + rewrite on_pod_event_from_refused by assumption.
      cbn [final events fst snd]. split; [exact Hst |].
      rewrite notifications_app, Hone. reflexivity.
  - pose proof (Hcluster 0%nat ltac:(lia)) as Hc.
    pose proof (Hbusy 0%nat ltac:(lia)) as Hrefused.
    rewrite Nat.add_0_r in Hc, Hrefused. unfold refused_for_now in Hrefused.
    destruct (call_raises env i
                (MutexEnter (name (owner i)) (Some (pod_name pod))))
      as [e |] eqn:Hmutex; [| discriminate Hrefused].
    destruct (attempt_refused env i pod st (owner i) e Hobs Hc Hmutex)
      as (Hres & Hst & Hnone).
    rewrite on_pod_event_from_retry
      by (rewrite Hres; destruct e; try discriminate Hrefused;
          exact Hrefused).
    cbn [final events fst snd]. rewrite Hst.
    destruct (IH (S i) st fuel Hnew) as [IHst IHone].
    + intros j Hj. replace (S i + j)%nat with (i + S j)%nat by lia.
      apply Hcluster. lia.
    + intros j Hj. replace (S i + j)%nat with (i + S j)%nat by lia.
      apply Hbusy. lia.
    + replace (S i + k)%nat with (i + S k)%nat by lia. exact Henter.
    + replace (S i + k)%nat with (i + S k)%nat by lia. exact Hhook.
    + lia.
    + split; [exact IHst |].
      rewrite !notifications_app, Hnone, IHone, notifications_retry.
      reflexivity.
Qed.

(** A first attempt that delivers the notification settles the count for
    the rest of the invocation. *)
Lemma loop_restarted (env : Env) (fuel : nat) (pod : MySQLPod) (st : State)
    (cluster : InnoDBCluster) :
  observed pod ->
  containers_ready pod = true ->
  ephemeral st !! restarts_key pod <> Some (mysql_restarts pod) ->
  get_cluster env 0 pod = Some cluster ->
  call_raises env 0 (MutexEnter (name cluster) (Some (pod_name pod))) = None ->
  call_raises env 0 (CtlPodRestarted pod) = None ->
  (0 < fuel)%nat ->
  status_aside (final (on_pod_event env fuel pod st))
  = status_aside (remember_restarts pod st)
  /\ notifications (events (on_pod_event env fuel pod st)) = [pod].
Proof.
  intros Hobs Hready Hnew Hcluster Hmutex Hhook Hfuel.
  apply (loop_restarted_after env pod (fun _ => cluster) 0 Hobs Hready 0 st
           fuel Hnew).
  - intros j Hj. replace j with 0%nat by lia. exact Hcluster.
  - intros j Hj. lia.
  - exact Hmutex.
  - exact Hhook.
  - exact Hfuel.
Qed.


(** The restart counts after any number of passes are those before,
    updated by the deliveries made. *)
Lemma loop_tracks (env : Env) (fuel : nat) (pod : MySQLPod) :
  forall i st,
    ephemeral (final (on_pod_event_from env fuel i pod st))
    = delivered (ephemeral st) (events (on_pod_event_from env fuel i pod st)).
Proof.
  induction fuel as [| fuel IH]; intros i st; [reflexivity |].
  destruct (outcome_cases (result (pod_event_attempt env i pod st)))
    as [Hsettle | [Hretry | [Htmp Hbad]]].
  - rewrite on_pod_event_from_settle by assumption. cbn zeta.
    apply attempt_tracks.
  - rewrite on_pod_event_from_retry by assumption.
    cbn [final events fst snd].
    rewrite !delivered_app, <- attempt_tracks, delivered_retry. apply IH.
  - rewrite on_pod_event_from_refused by assumption.
    cbn [final events fst snd].
    rewrite delivered_app, <- attempt_tracks. reflexivity.
Qed.

(** ** Restart detection *)




(** ** The retry loop *)








(** ** The stored restart count *)

Lemma tracks_ret {A} (a : A) : tracks (ret a).
Proof. intros st. reflexivity. Qed.

Lemma tracks_raise {A} (e : Exn) : tracks (@raise A e).
Proof. intros st. reflexivity. Qed.

Lemma tracks_lift {A} (r : Res A) : tracks (lift r).
Proof. intros st. reflexivity. Qed.

Lemma tracks_bind {A B} (m : M A) (f : A -> M B) :
  tracks m -> (forall a, tracks (f a)) -> tracks (bind m f).
Proof.
  intros Hm Hf st. specialize (Hm st). unfold bind.
  destruct (m st) as [[[a | e] st1] evs1]; [| exact Hm].
  specialize (Hf a st1). destruct (f a st1) as [[r st2] evs2].
  unfold final, events in *. simpl in *.
  rewrite delivered_app, <- Hm. exact Hf.
Qed.

Lemma tracks_try_except {A} (m : M A) (h : Exn -> option (M A)) :
  tracks m -> (forall e m', h e = Some m' -> tracks m') ->
  tracks (try_except m h).
Proof.
  intros Hm Hh st. specialize (Hm st). unfold try_except.
  destruct (m st) as [[[a | e] st1] evs1]; [exact Hm |].
  destruct (h e) as [m' |] eqn:He; [| exact Hm].
  specialize (Hh e m' He st1). destruct (m' st1) as [[r st2] evs2].
  unfold final, events in *. simpl in *.
  rewrite delivered_app, <- Hm. exact Hh.
Qed.

Lemma tracks_finally {A} (m : M A) (cleanup : M unit) :
  tracks m -> tracks cleanup -> tracks (finally m cleanup).
Proof.
  intros Hm Hc st. specialize (Hm st). unfold finally.
  destruct (m st) as [[r st1] evs1].
  specialize (Hc st1). destruct (cleanup st1) as [[[[] | e] st2] evs2];
    unfold final, events in *; simpl in *;
    rewrite delivered_app, <- Hm; exact Hc.
Qed.

Lemma tracks_when (b : bool) (m : M unit) : tracks m -> tracks (when b m).
Proof. intros Hm. destruct b; [exact Hm | apply tracks_ret]. Qed.

Lemma tracks_emit (ev : Event) :
  (forall c r, ev <> Called c r) -> tracks (emit ev).
Proof.
  intros Hev st. unfold emit, final, events, delivered. simpl.
  destruct ev; try reflexivity. exfalso. eapply Hev. reflexivity.
Qed.

Lemma tracks_invoke (env : Env) (i : nat) (c : Call) :
  no_delivery c -> tracks (invoke env i c).
Proof.
  intros Hc st. unfold invoke.
  destruct (call_raises env i c); destruct c; try destruct Hc; reflexivity.
Qed.

Lemma tracks_cluster_get (env : Env) (k : ObjKind) : tracks (cluster_get env k).
Proof. intros st. reflexivity. Qed.

Lemma tracks_pod_get_cluster (env : Env) (i : nat) (pod : MySQLPod) :
  tracks (pod_get_cluster env i pod).
Proof. intros st. reflexivity. Qed.

Ltac tracks_step :=
  first
    [ apply tracks_ret | apply tracks_raise | apply tracks_lift
    | apply tracks_cluster_get | apply tracks_pod_get_cluster
    | apply tracks_invoke; exact I
    | apply tracks_emit; discriminate
    | apply tracks_when
    | apply tracks_finally
    | apply tracks_bind; [| intros ?]
    | apply tracks_try_except;
      [| let e := fresh "e" in intros e ? ?; destruct e; simplify_eq/=]
    | match goal with
      | |- tracks (if ?b then _ else _) => destruct b
      | |- tracks (match ?x with _ => _ end) => destruct x
      end ].

Ltac tracks_all :=
  unfold logger, print, parsed_spec, validate, with_ClusterMutex, ignore_404;
  repeat tracks_step.

Lemma tracks_ensure (env : Env) (icspec : InnoDBClusterSpec) (k : ObjKind) :
  tracks (ensure env icspec k).
Proof. unfold ensure. tracks_all. Qed.

(** A hook followed by the write of the pod's restart count is a delivery
    when the hook returns, and nothing when it raises. *)
Lemma tracks_created_then_set (env : Env) (i : nat) (pod : MySQLPod) :
  tracks (invoke env i (CtlPodCreated pod) ;;
          ephemeral_set pod "mysql-restarts" (mysql_restarts pod)).
Proof.
  intros st. unfold bind, invoke, ephemeral_set.
  destruct (call_raises env i (CtlPodCreated pod)); reflexivity.
Qed.

Lemma tracks_on_pod_create (env : Env) (pod : MySQLPod) :
  tracks (on_pod_create env pod).
Proof.
  unfold on_pod_create. unfold logger, with_ClusterMutex.
  repeat first [apply tracks_created_then_set | tracks_step].
Qed.

Lemma tracks_on_pod_delete (env : Env) (pod : MySQLPod) :
  tracks (on_pod_delete env pod).
Proof. unfold on_pod_delete. tracks_all. Qed.

Lemma tracks_on_innodbcluster_create (env : Env) (cluster : InnoDBCluster) :
  tracks (on_innodbcluster_create env cluster).
Proof.
  unfold on_innodbcluster_create, create_dependents.
  unfold logger, print, parsed_spec, validate.
  repeat first [apply tracks_ensure | tracks_step].
Qed.

Lemma tracks_on_innodbcluster_delete (env : Env) (cluster : InnoDBCluster) :
  tracks (on_innodbcluster_delete env cluster).
Proof. unfold on_innodbcluster_delete. tracks_all. Qed.

Lemma tracks_field_handlers (env : Env) (cluster : InnoDBCluster)
    (oz nz : option Z) (os ns : option string) :
  tracks (on_innodbcluster_field_instances env oz nz cluster)
  /\ tracks (on_innodbcluster_field_version env os ns cluster)
  /\ tracks (on_innodbcluster_field_image_repository env os ns cluster)
  /\ tracks (on_innodbcluster_field_image_pull_policy env os ns cluster)
  /\ tracks (on_innodbcluster_field_image env os ns cluster)
  /\ tracks (on_innodbcluster_field_router_instances env oz nz cluster)
  /\ tracks (on_innodbcluster_field_router_version env os ns cluster)
  /\ tracks (on_innodbcluster_field_backup_schedules env os ns cluster).
Proof.
  unfold on_innodbcluster_field_instances, on_innodbcluster_field_version,
    on_innodbcluster_field_image_repository,
    on_innodbcluster_field_image_pull_policy, on_innodbcluster_field_image,
    on_innodbcluster_field_router_instances,
    on_innodbcluster_field_router_version,
    on_innodbcluster_field_backup_schedules.
  repeat split; tracks_all.
Qed.

Lemma handle_tracks (env : Env) (inv : Invocation) (st : State) :
  ephemeral (final (handle env inv st))
  = delivered (ephemeral st) (events (handle env inv st)).
Proof.
  pose proof tracks_field_handlers as Hfields.
  destruct inv as [c | c | o n c | o n c | o n c | o n c | o n c | o n c
                  | o n c | o n c | pod | fuel pod | pod | c members changed];
    simpl; unfold ended; cbn [final events fst snd];
    try (first
           [ apply tracks_on_innodbcluster_create
           | apply tracks_on_innodbcluster_delete
           | apply tracks_on_pod_create
           | apply tracks_on_pod_delete
           | apply (Hfields env c o n None None)
           | apply (Hfields env c None None o n) ]).
  - apply loop_tracks.
  - unfold on_group_view_change. apply tracks_invoke. exact I.
Qed.

(** C10. [on_pod_event] leaves the stored restart count and the rest of
    the state as they are, but for the status of the cluster resource that
    the probe writes, and notifies nothing, when a container of the pod is
    not ready or when the pod's count is the stored one: a count that
    changes while a container is not ready stays unreported and the stored
    value stale. A later event for a pod with all containers ready
    whose count still differs from the stored one delivers the notification
    (the cluster resolving, the mutex entered, the hook returning) and
    stores the count. And every handler invocation preserves the
    invariant that the stored counts are the counts at the last deliveries:
    at the last pod-restarted hook that returned for the pod or, failing
    one, at the pod-created hook that returned. *)
Theorem restart_count_invariant (env : Env) :
  (forall fuel pod st,
     containers_ready pod = false
     \/ ephemeral st !! restarts_key pod = Some (mysql_restarts pod) ->
     status_aside (final (on_pod_event env fuel pod st)) = status_aside st
     /\ notifications (events (on_pod_event env fuel pod st)) = [])
  /\ (forall fuel pod st cluster,
        observed pod ->
        containers_ready pod = true ->
        ephemeral st !! restarts_key pod <> Some (mysql_restarts pod) ->
        get_cluster env 0 pod = Some cluster ->
        call_raises env 0 (MutexEnter (name cluster) (Some (pod_name pod)))
          = None ->
        call_raises env 0 (CtlPodRestarted pod) = None ->
        (0 < fuel)%nat ->
        notifications (events (on_pod_event env fuel pod st)) = [pod]
        /\ ephemeral (final (on_pod_event env fuel pod st)) !! restarts_key pod
           = Some (mysql_restarts pod))
  /\ (forall inv history st,
        counts_as_delivered history st ->
        counts_as_delivered (history ++ events (handle env inv st))
                            (final (handle env inv st))).
Proof.
  split; [| split].
  - intros fuel pod st [Hnot | Hseen]; unfold on_pod_event.
    + apply loop_unready, Hnot.
    + apply loop_seen, Hseen.
  - intros fuel pod st cluster Hobs Hready Hnew Hcluster Hmutex Hhook Hfuel.
    destruct (loop_restarted env fuel pod st cluster Hobs Hready Hnew
                Hcluster Hmutex Hhook Hfuel) as [Hfinal Hone].
    split; [exact Hone |]. injection Hfinal as _ _ ->.
    unfold remember_restarts. simpl. apply lookup_insert_eq.
  - intros inv history st Hinv. unfold counts_as_delivered in *.
    rewrite delivered_app, <- Hinv. apply handle_tracks.
Qed.

Lemma restart_count_invariant_witness :
  (status_aside (final (on_pod_event env_reporting 3 pod_restarting st_seen))
   = status_aside st_seen
   /\ notifications
        (events (on_pod_event env_reporting 3 pod_restarting st_seen)) = [])
  /\ (notifications
        (events (on_pod_event env_reporting 3 pod_restarted st_seen))
      = [pod_restarted]
      /\ ephemeral (final (on_pod_event env_reporting 3 pod_restarted st_seen))
           !! restarts_key pod_restarted = Some 1)
  /\ counts_as_delivered
       ([Called (CtlPodCreated pod_0) None]
        ++ events (handle env_reporting (PodEvent 3 pod_restarted) st_seen))
       (final (handle env_reporting (PodEvent 3 pod_restarted) st_seen)).
Proof.
  destruct (restart_count_invariant env_reporting)
    as (Hstale & Hlater & Hinv).
  split; [apply Hstale; left; reflexivity |].
  split.
  - apply (Hlater 3%nat pod_restarted st_seen cluster_up).
    + repeat split. exists "ONLINE". reflexivity.
    + reflexivity.
    + vm_compute. discriminate.
    + reflexivity.
    + reflexivity.
    + reflexivity.
    + lia.
  - apply Hinv. reflexivity.
Defined.

(** ** The order of creation *)

Lemma created_app (evs1 evs2 : list Event) :
  created (evs1 ++ evs2) = created evs1 ++ created evs2.
Proof. apply omap_app. Qed.

Lemma calls_app (evs1 evs2 : list Event) :
  calls (evs1 ++ evs2) = calls evs1 ++ calls evs2.
Proof. apply omap_app. Qed.

Lemma looked_up_app (evs1 evs2 : list Event) :
  looked_up (evs1 ++ evs2) = looked_up evs1 ++ looked_up evs2.
Proof. apply omap_app. Qed.

Lemma missed_app (evs1 evs2 : list Event) :
  missed (evs1 ++ evs2) = missed evs1 ++ missed evs2.
Proof. apply omap_app. Qed.

Lemma check_then_create_app (evs1 evs2 : list Event) :
  (forall p, check_then_create p evs2 = true) ->
  forall p, check_then_create p evs1 = true ->
            check_then_create p (evs1 ++ evs2) = true.
Proof.
  intros H2. induction evs1 as [| ev evs1 IH]; intros p H1; simpl.
  - apply H2.
  - destruct ev as [| | | | | | c r | | |]; simpl in *; try (apply IH, H1).
    destruct c; try (apply IH, H1).
    apply andb_true_iff in H1 as [Hp H1]. rewrite Hp. simpl. apply IH, H1.
Qed.

Ltac step_done :=
  simpl in *;
  first
    [ reflexivity | discriminate | contradiction | apply sublist_nil_l
    | rewrite bool_decide_eq_true_2 by reflexivity; reflexivity
    | rewrite app_nil_r; reflexivity
    | intuition congruence ].

Lemma ensure_step (env : Env) (icspec : InnoDBClusterSpec) (k : ObjKind)
    (st : State) :
  step_ok icspec k st (ensure env icspec k st).
Proof.
  unfold step_ok, ensure, ignore_404, bind, try_except, cluster_get, when,
    invoke, print, emit, ret, raise, result, final, events.
  destruct (api_get env (objects st) k) as [[|] | e] eqn:Hget; simpl.
  - rewrite app_nil_r. repeat split; step_done.
  - destruct (step_guard icspec k) eqn:Hguard; simpl;
      destruct (call_raises env 0 (Prepare k)); simpl;
      try destruct (call_raises env 0 (Adopt k)); simpl;
      try destruct (call_raises env 0 (Create k)); simpl;
      rewrite ?Hguard, ?app_nil_r; simpl;
      repeat split; step_done.
  - destruct e as [status | | | | | |]; simpl.
    2-7: repeat split; step_done.
    destruct (decide (status = 404)) as [-> | H404];
      [| rewrite !(bool_decide_eq_false_2 _ H404)]; simpl.
    + destruct (step_guard icspec k) eqn:Hguard; simpl;
        destruct (call_raises env 0 (Prepare k)); simpl;
        try destruct (call_raises env 0 (Adopt k)); simpl;
        try destruct (call_raises env 0 (Create k)); simpl;
        rewrite ?Hguard, ?app_nil_r; simpl;
        repeat split; step_done.
    + rewrite ?app_nil_r. simpl. repeat split; step_done.
Qed.

(** A computation followed by another, by the run of each. *)
Lemma bind_run {A B} (m : M A) (f : A -> M B) (st : State) :
  bind m f st =
    match result (m st) with
    | Ok a =>
        let rest := f a (final (m st)) in
        (result rest, final rest, events (m st) ++ events rest)
    | Raise e => (Raise e, final (m st), events (m st))
    end.
Proof.
  unfold bind, result, final, events.
  destruct (m st) as [[[a | e] st1] evs1]; simpl; [| reflexivity].
  destruct (f a st1) as [[r st2] evs2]. reflexivity.
Qed.

Lemma ensure_all_steps (env : Env) (icspec : InnoDBClusterSpec)
    (ks : list ObjKind) :
  forall st, steps_ok icspec ks st (ensure_all env icspec ks st).
Proof.
  induction ks as [| k ks IH]; intros st.
  - repeat split; step_done.
  - destruct (ensure_step env icspec k st)
      as (Hlook & Hsub & Hcheck & Hguard & Hobjs & Hdone).
    destruct ks as [| k2 ks].
    + simpl. repeat split; try assumption.
      * intros k' Hin. destruct (Hguard k' Hin) as [-> Hg]. exact Hg.
      * apply Hdone. assumption.
    + change (ensure_all env icspec (k :: k2 :: ks) st)
        with (bind (ensure env icspec k)
                   (fun _ => ensure_all env icspec (k2 :: ks)) st).
      rewrite bind_run.
      destruct (result (ensure env icspec k st)) as [[] | e] eqn:Hres.
      * destruct (IH (final (ensure env icspec k st)))
          as (Hsub2 & Hcheck2 & Hguard2 & Hobjs2 & Hdone2).
        unfold steps_ok. cbn [result final events fst snd].
        rewrite created_app, calls_app, looked_up_app, missed_app,
          List.filter_app.
        repeat split.
        -- apply (sublist_app _ [k] _ (k2 :: ks)); assumption.
        -- intros p. apply check_then_create_app; [exact Hcheck2 |].
           apply Hcheck.
        -- intros k' Hin. apply in_app_or in Hin as [Hin | Hin].
           ++ destruct (Hguard k' Hin) as [-> Hg]. exact Hg.
           ++ apply Hguard2, Hin.
        -- rewrite Hobjs2, Hobjs. symmetry. apply app_assoc.
        -- destruct (Hdone2 H) as [-> _]. rewrite Hlook. reflexivity.
        -- destruct (Hdone2 H) as [_ ->]. rewrite (Hdone eq_refl).
           reflexivity.
      * unfold steps_ok. cbn [result final events fst snd].
        repeat split; try assumption.
        -- apply (sublist_inserts_r [k2] _ [k]) in Hsub.
           etransitivity; [exact Hsub |].
           apply (sublist_app [k] [k] [k2] (k2 :: ks)); [reflexivity |].
           apply sublist_skip, sublist_nil_l.
        -- intros k' Hin. destruct (Hguard k' Hin) as [-> Hg]. exact Hg.
        -- discriminate.
        -- discriminate.
Qed.

Ltac checked_by Hcheck :=
  first
    [ apply Hcheck
    | apply check_then_create_app; [intros ?; reflexivity | apply Hcheck] ].

Ltac guarded_by Hguard :=
  let Hin := fresh "Hin" in
  intros Hin;
  try (apply in_app_or in Hin as [Hin | Hin];
       [| simpl in Hin; intuition discriminate]);
  apply Hguard in Hin; simpl in Hin;
  apply bool_decide_eq_true in Hin; exact Hin.

(** C3. On a valid spec, [on_innodbcluster_create] creates dependent
    objects only in the order init config map, cluster account secret,
    router account secret, cluster service, stateful set,
    pod-disruption-budget, router service, router deployment, backup account
    secret: the objects created are a subsequence of that list, and they are
    appended to the platform's objects in that order. Every creation is
    submitted right after the lookup of the same object did not find it.
    The router deployment is created only when the router instance count of
    the spec is greater than 0. When the handler returns on a cluster that
    is not ready, it has looked up all nine objects in that order and
    created those it did not find, but for the router deployment of a spec
    without router instances. *)
Theorem create_in_fixed_order (env : Env) (cluster : InnoDBCluster)
    (icspec : InnoDBClusterSpec) (st : State) :
  parse_spec cluster = Ok icspec ->
  validate_raises icspec = None ->
  let run := on_innodbcluster_create env cluster st in
  created (events run) `sublist_of` create_order
  /\ check_then_create None (events run) = true
  /\ (In (Create RouterDeployment) (calls (events run)) ->
      router_instances icspec > 0)
  /\ objects (final run) = objects st ++ created (events run)
  /\ (ready cluster = false -> result run = Ok tt ->
      looked_up (events run) = create_order
      /\ created (events run)
         = List.filter (step_guard icspec) (missed (events run))).
Proof.
  intros Hparse Hvalid run. subst run.
  unfold on_innodbcluster_create.
  change (create_dependents env icspec)
    with (ensure_all env icspec create_order).
  unfold bind, try_except, lift, parsed_spec, validate, logger, print, emit,
    when, raise, ret, invoke, result, final, events.
  rewrite Hparse. simpl. rewrite Hvalid. simpl.
  destruct (ready cluster); simpl.
  { repeat split; step_done. }
  change (create_dependents env icspec)
    with (ensure_all env icspec create_order).
  destruct (ensure_all_steps env icspec create_order st)
    as (Hsub & Hcheck & Hguard & Hobjs & Hdone).
  unfold result, final, events in *.
  destruct (ensure_all env icspec create_order st) as [[[[] | e] st1] evs].
  - simpl in *. destruct (Hdone eq_refl) as [Hlook Hcreated].
    destruct (call_raises env 0
                (SetOperatorVersion (DEFAULT_OPERATOR_VERSION_TAG env)));
      simpl;
      [| destruct (call_raises env 0 (SetStatus PENDING 0 (isotime env)));
         simpl ];
      rewrite ?created_app, ?calls_app, ?looked_up_app, ?missed_app;
      simpl; rewrite ?app_nil_r;
      (repeat split;
       [ exact Hsub
       | checked_by Hcheck
       | guarded_by Hguard
       | exact Hobjs
       | try discriminate; intros; assumption .. ]).
  - simpl in *.
    rewrite ?created_app, ?calls_app, ?looked_up_app, ?missed_app;
      simpl; rewrite ?app_nil_r.
    repeat split;
      [ exact Hsub
      | checked_by Hcheck
      | guarded_by Hguard
      | exact Hobjs
      | discriminate .. ].
Qed.

Lemma create_in_fixed_order_witness :
  created (events (on_innodbcluster_create env_calm cluster_new st_empty))
    `sublist_of` create_order
  /\ objects (final (on_innodbcluster_create env_calm cluster_new st_empty))
     = create_order
  /\ objects (final (on_innodbcluster_create env_calm cluster_new_no_router
                       st_empty))
     = [InitConf; PrivateSecrets; RouterAccount; Service; StatefulSet;
        DisruptionBudget; RouterService; BackupAccount].
Proof.
  destruct (create_in_fixed_order env_calm cluster_new spec_3_1 st_empty
              eq_refl eq_refl) as (Hsub & _ & _ & Hobjs & _).
  destruct (create_in_fixed_order env_calm cluster_new_no_router spec_3_0
              st_empty eq_refl eq_refl) as (_ & _ & _ & Hobjs0 & _).
  split; [exact Hsub |].
  split; [rewrite Hobjs | rewrite Hobjs0]; reflexivity.
Defined.

(** ** Creating twice *)

Lemma ensure_found (env : Env) (icspec : InnoDBClusterSpec) (k : ObjKind)
    (st : State) :
  api_get env (objects st) k = Ok true ->
  ensure env icspec k st
  = (Ok tt, st, [Printed (step_title k); Got k (Ok true)]).
Proof.
  intros Hget.
  unfold ensure, ignore_404, bind, try_except, cluster_get, print, emit, when,
    ret.
  rewrite Hget. reflexivity.
Qed.

Lemma create_dependents_found (env : Env) (icspec : InnoDBClusterSpec)
    (st : State) :
  (forall k, api_get env (objects st) k = Ok true) ->
  create_dependents env icspec st
  = (Ok tt, st,
     flat_map (fun k => [Printed (step_title k); Got k (Ok true)])
              create_order).
Proof.
  intros Hall. unfold create_dependents, bind.
  rewrite !ensure_found by apply Hall. reflexivity.
Qed.

(** A creation that returns on a cluster that is not ready has stamped the
    operator version and set the status to PENDING with no instance
    online. *)
Lemma create_returns_pending (env : Env) (cluster : InnoDBCluster)
    (icspec : InnoDBClusterSpec) (st : State) :
  parse_spec cluster = Ok icspec ->
  validate_raises icspec = None ->
  ready cluster = false ->
  result (on_innodbcluster_create env cluster st) = Ok tt ->
  stamped_pending (DEFAULT_OPERATOR_VERSION_TAG env)
                  (final (on_innodbcluster_create env cluster st)).
Proof.
  intros Hparse Hvalid Hready.
  unfold on_innodbcluster_create, stamped_pending.
  unfold bind, try_except, lift, parsed_spec, validate, logger, print, emit,
    when, raise, ret, invoke, result, final, events.
  rewrite Hparse. simpl. rewrite Hvalid, Hready. simpl.
  destruct (create_dependents env icspec st) as [[[[] | e] st1] evs]; simpl;
    [| discriminate].
  destruct (call_raises env 0
              (SetOperatorVersion (DEFAULT_OPERATOR_VERSION_TAG env)));
    simpl; [discriminate |].
  destruct (call_raises env 0 (SetStatus PENDING 0 (isotime env)));
    simpl; [discriminate |].
  intros _. repeat split.
Qed.

(** C4. Let [on_innodbcluster_create] return on a valid spec of a cluster
    that is not ready, and be invoked again on that spec when every lookup
    finds its object. The second invocation submits no creation, leaves the
    platform's objects as they are, and ends, as the first did, with the
    operator-version tag stamped and the status PENDING with
    onlineInstances 0; it returns when the two writes of the tag and of the
    status go through. In a lookup, [None] and the API's 404 count as "not
    there" and the block goes on to create; any other exception of the
    lookup is raised by [ignore_404] as it is. *)
Theorem create_twice (env1 env2 : Env) (cluster : InnoDBCluster)
    (icspec : InnoDBClusterSpec) (st : State) :
  parse_spec cluster = Ok icspec ->
  validate_raises icspec = None ->
  ready cluster = false ->
  DEFAULT_OPERATOR_VERSION_TAG env2 = DEFAULT_OPERATOR_VERSION_TAG env1 ->
  let first := on_innodbcluster_create env1 cluster st in
  let second := on_innodbcluster_create env2 cluster (final first) in
  result first = Ok tt ->
  (forall k, api_get env2 (objects (final first)) k = Ok true) ->
  (forall k r, ~ In (Called (Create k) r) (events second))
  /\ objects (final second) = objects (final first)
  /\ stamped_pending (DEFAULT_OPERATOR_VERSION_TAG env1) (final first)
  /\ stamped_pending (DEFAULT_OPERATOR_VERSION_TAG env1) (final second)
  /\ (call_raises env2 0
        (SetOperatorVersion (DEFAULT_OPERATOR_VERSION_TAG env2)) = None ->
      call_raises env2 0 (SetStatus PENDING 0 (isotime env2)) = None ->
      result second = Ok tt)
  /\ (forall k st' e,
        api_get env2 (objects st') k = Raise e ->
        ignore_404 (cluster_get env2 k) st'
        = (if not_found (Raise e) then Ok false else Raise e,
           st', [Got k (Raise e)])).
Proof.
  intros Hparse Hvalid Hready Htag first second Hfirst Hfound.
  subst first second.
  pose proof (create_returns_pending env1 cluster icspec st Hparse Hvalid
                Hready Hfirst) as Hstamped.
  assert (forall k st' e,
            api_get env2 (objects st') k = Raise e ->
            ignore_404 (cluster_get env2 k) st'
            = (if not_found (Raise e) then Ok false else Raise e,
               st', [Got k (Raise e)])) as Hignore.
  { intros k st' e Hget. unfold ignore_404, try_except, cluster_get.
    rewrite Hget. destruct e as [status | | | | | |]; try reflexivity.
    simpl. destruct (decide (status = 404)) as [-> | Hne]; [reflexivity |].
    rewrite !(bool_decide_eq_false_2 _ Hne). reflexivity. }
  destruct Hstamped as (Hversion & Hstatus & Honline).
  clear Hfirst.
  remember (final (on_innodbcluster_create env1 cluster st)) as st1 eqn:Hst1.
  clear Hst1.
  unfold on_innodbcluster_create, stamped_pending.
  unfold bind, try_except, lift, parsed_spec, validate, logger, print, emit,
    when, raise, ret, invoke, result, final, events.
  rewrite Hparse. simpl. rewrite Hvalid, Hready. simpl.
  rewrite (create_dependents_found env2 icspec st1 Hfound). simpl.
  rewrite Htag.
  destruct (call_raises env2 0
              (SetOperatorVersion (DEFAULT_OPERATOR_VERSION_TAG env1)));
    simpl;
    [| destruct (call_raises env2 0 (SetStatus PENDING 0 (isotime env2)));
       simpl ];
    (repeat split;
     [ intros k r Hin; simpl in Hin; intuition discriminate
     | assumption || reflexivity .. | | exact Hignore ];
     try (intros; solve [discriminate | reflexivity | assumption])).
Qed.

Lemma create_twice_witness :
  objects (final (on_innodbcluster_create env_calm cluster_new
                    (final (on_innodbcluster_create env_calm cluster_new
                              st_empty))))
  = create_order
  /\ result (on_innodbcluster_create env_calm cluster_new
               (final (on_innodbcluster_create env_calm cluster_new
                         st_empty)))
     = Ok tt.
Proof.
  destruct (create_twice env_calm env_calm cluster_new spec_3_1 st_empty
              eq_refl eq_refl eq_refl eq_refl)
    as (_ & Hobjs & _ & _ & Hreturns & _).
  - reflexivity.
  - intros k. destruct k; reflexivity.
  - split; [rewrite Hobjs; reflexivity | apply Hreturns; reflexivity].
Defined.

(** ** The mutex and the spec field handlers *)

(** The handlers of spec.router.instances, spec.router.version and
    spec.backupSchedules write under the mutex, whatever the collaborators
    answer. *)
Lemma router_and_backup_handlers_serialized (env : Env)
    (cluster : InnoDBCluster) (st : State) (oz nz : option Z)
    (os ns : option string) :
  serialized false
    (events (on_innodbcluster_field_router_instances env oz nz cluster st))
  = true
  /\ serialized false
       (events (on_innodbcluster_field_router_version env os ns cluster st))
     = true
  /\ serialized false
       (events (on_innodbcluster_field_backup_schedules env os ns cluster st))
     = true.
Proof.
  unfold on_innodbcluster_field_router_instances,
    on_innodbcluster_field_router_version,
    on_innodbcluster_field_backup_schedules, with_ClusterMutex, bind, finally,
    parsed_spec, validate, lift, cluster_get, invoke, logger, emit, when,
    raise, ret, events.
  repeat split.
  - destruct (get_create_time cluster); simpl; [| reflexivity].
    destruct (call_raises env 0 (MutexEnter (name cluster) None)); simpl;
      [reflexivity |].
    destruct (parse_spec cluster) as [icspec | e]; simpl; [| reflexivity].
    destruct (validate_raises icspec); simpl; [reflexivity |].
    destruct (call_raises env 0 (RouterUpdateSize nz)); reflexivity.
  - destruct (bool_decide (os = ns)); [reflexivity |].
    destruct (get_create_time cluster); simpl; [| reflexivity].
    destruct (parse_spec cluster) as [icspec | e]; simpl; [| reflexivity].
    destruct (validate_raises icspec); simpl; [reflexivity |].
    destruct (call_raises env 0 (MutexEnter (name cluster) None)); simpl;
      [reflexivity |].
    destruct (api_get env (objects st) RouterDeployment) as [[|] | e]; simpl;
      try reflexivity.
    destruct (call_raises env 0 RouterUpdateImage); reflexivity.
  - destruct (bool_decide (os = ns)); [reflexivity |].
    destruct (get_create_time cluster); simpl; [| reflexivity].
    destruct (parse_spec cluster) as [icspec | e]; simpl; [| reflexivity].
    destruct (validate_raises icspec); simpl; [reflexivity |].
    destruct (call_raises env 0 (MutexEnter (name cluster) None)); simpl;
      [reflexivity |].
    destruct (call_raises env 0 (UpdateSchedules os ns)); reflexivity.
Qed.

(** So do the pod handlers. *)
Lemma pod_handlers_serialized (env : Env) (pod : MySQLPod) (st : State)
    (i : nat) :
  serialized false (events (on_pod_create env pod st)) = true
  /\ serialized false (events (pod_event_attempt env i pod st)) = true
  /\ serialized false (events (on_pod_delete env pod st)) = true.
Proof.
  unfold on_pod_create, on_pod_delete. unfold_attempt.
  repeat split; attempt_cases; reflexivity.
Qed.

(** The handler of spec.instances patches the stateful set without
    entering the mutex, whenever it gets to the patch. *)
Lemma instances_handler_no_mutex (env : Env) (cluster : InnoDBCluster)
    (st : State) (old new : option Z) (r : option Exn) :
  In (Called (UpdateStatefulSetReplicas new) r)
     (events (on_innodbcluster_field_instances env old new cluster st)) ->
  serialized false
    (events (on_innodbcluster_field_instances env old new cluster st))
  = false.
Proof.
  unfold on_innodbcluster_field_instances, bind, parsed_spec, validate, lift,
    cluster_get, invoke, logger, emit, when, raise, ret, events.
  destruct (ready cluster); simpl; [| intuition discriminate].
  destruct (api_get env (objects st) StatefulSet) as [[|] | e]; simpl;
    try (intuition discriminate).
  destruct (bool_decide (old <> new)); simpl; [| intuition discriminate].
  destruct (parse_spec cluster) as [icspec | e]; simpl;
    [| intuition discriminate].
  destruct (validate_raises icspec); simpl; [intuition discriminate |].
  destruct (call_raises env 0 (UpdateStatefulSetReplicas new)); reflexivity.
Qed.

(** C1. Scaling a ready cluster with a stateful set from 3 to 5
    instances: [on_innodbcluster_field_instances] patches the replica count
    of the stateful set and never enters the cluster mutex, so the patch is
    not serialized with the other handlers of the cluster. The handler of
    spec.router.instances, on the same cluster, makes its patch between
    entering and leaving the mutex. *)
Theorem instances_patch_outside_mutex :
  events (on_innodbcluster_field_instances env_calm (Some 3) (Some 5)
            cluster_up st_running)
  = [Got StatefulSet (Ok true);
     Log INFO "Updating InnoDB Cluster StatefulSet.replicas from {old} to {new}";
     Called (UpdateStatefulSetReplicas (Some 5)) None]
  /\ serialized false
       (events (on_innodbcluster_field_instances env_calm (Some 3) (Some 5)
                  cluster_up st_running))
     = false
  /\ events (on_innodbcluster_field_router_instances env_calm (Some 2)
               (Some 0) cluster_up st_running)
     = [Called (MutexEnter "mycluster" None) None;
        Log INFO "Updating Router Deployment.replicas from {old} to {new}";
        Called (RouterUpdateSize (Some 0)) None;
        MutexExit "mycluster"]
  /\ serialized false
       (events (on_innodbcluster_field_router_instances env_calm (Some 2)
                  (Some 0) cluster_up st_running))
     = true.
Proof. repeat split. Qed.

(** * Further properties *)

(** ** The spec field handlers *)

Ltac unfold_handlers :=
  unfold on_innodbcluster_field_instances, on_innodbcluster_field_version,
    on_innodbcluster_field_image_repository,
    on_innodbcluster_field_image_pull_policy, on_innodbcluster_field_image,
    on_innodbcluster_field_router_instances,
    on_innodbcluster_field_router_version,
    on_innodbcluster_field_backup_schedules, on_innodbcluster_delete,
    on_group_view_change, on_pod_create, on_pod_delete;
  unfold with_ClusterMutex, bind, try_except, finally, invoke, probe,
    pod_get_cluster, ephemeral_get, ephemeral_set, parsed_spec, validate,
    lift, cluster_get, logger, print, emit, when, raise, ret.

(** X1. [on_innodbcluster_field_instances] on a ready cluster with a
    valid spec: when the stateful set is there and old differs from new, the
    one call it makes is the patch of the replica count to new, and it ends
    as the patch does; when the stateful set is not there, or old equals
    new, it makes no call and returns. *)
Theorem instances_scaled_once (env : Env) (old new : option Z)
    (cluster : InnoDBCluster) (icspec : InnoDBClusterSpec) (st : State) :
  ready cluster = true ->
  parse_spec cluster = Ok icspec ->
  validate_raises icspec = None ->
  let run := on_innodbcluster_field_instances env old new cluster st in
  (api_get env (objects st) StatefulSet = Ok true -> old <> new ->
   calls (events run) = [UpdateStatefulSetReplicas new]
   /\ result run
      = match call_raises env 0 (UpdateStatefulSetReplicas new) with
        | None => Ok tt
        | Some e => Raise e
        end
   /\ final run = st)
  /\ (forall found,
        api_get env (objects st) StatefulSet = Ok found ->
        found = false \/ old = new ->
        run = (Ok tt, st, [Got StatefulSet (Ok found)])).
Proof.
  intros Hready Hparse Hvalid run. subst run.
  unfold_handlers. unfold result, final, events.
  rewrite Hready. simpl. split.
  - intros Hsts Hne. rewrite Hsts. simpl.
    rewrite (bool_decide_eq_true_2 _ Hne). simpl.
    rewrite Hparse. simpl. rewrite Hvalid. simpl.
    destruct (call_raises env 0 (UpdateStatefulSetReplicas new));
      repeat split.
  - intros found Hsts Hnone. rewrite Hsts. simpl.
    destruct Hnone as [-> | Heq]; [reflexivity |].
    rewrite bool_decide_eq_false_2 by (intros Hc; apply Hc, Heq).
    rewrite andb_false_r. reflexivity.
Qed.

Lemma instances_scaled_once_witness :
  calls (events (on_innodbcluster_field_instances env_calm (Some 3) (Some 5)
                   cluster_up st_running))
  = [UpdateStatefulSetReplicas (Some 5)]
  /\ on_innodbcluster_field_instances env_calm (Some 3) (Some 3) cluster_up
       st_running
     = (Ok tt, st_running, [Got StatefulSet (Ok true)]).
Proof.
  destruct (instances_scaled_once env_calm (Some 3) (Some 5) cluster_up
              spec_3_1 st_running eq_refl eq_refl eq_refl) as [Hpatch _].
  destruct (instances_scaled_once env_calm (Some 3) (Some 3) cluster_up
              spec_3_1 st_running eq_refl eq_refl eq_refl) as [_ Hsame].
  split.
  - apply Hpatch; [reflexivity | discriminate].
  - apply (Hsame true); [reflexivity | right; reflexivity].
Defined.

Ltac each_run :=
  repeat match goal with |- Forall _ _ => constructor end.

Ltac handler_cases :=
  repeat (simpl in *;
          match goal with
          | |- context [negb ?b] =>
              lazymatch b with
              | context [match _ with _ => _ end] => fail
              | _ => destruct b eqn:?
              end
          | |- context [match ?x with _ => _ end] =>
              lazymatch x with
              | context [match _ with _ => _ end] => fail
              | _ => destruct x eqn:?
              end
          end);
  simpl in *.

Ltac settle :=
  intros; simpl in *;
  repeat match goal with
         | H : _ && _ = true |- _ => apply andb_true_iff in H as [? ?]
         end;
  subst;
  try congruence;
  repeat split; simpl in *;
  first [ congruence | assumption | reflexivity | tauto
        | intuition congruence ].

(** X2. The handlers of spec.instances, spec.version,
    spec.imageRepository, spec.imagePullPolicy and spec.image call a
    collaborator (a hook of the controller or a patch) only on a ready
    cluster whose stateful set the lookup found and whose old and new values
    differ. *)
Theorem statefulset_handlers_guarded (env : Env) (oz nz : option Z)
    (os ns : option string) (cluster : InnoDBCluster) (st : State) :
  Forall (fun '(changed, run) =>
            calls (events run) <> [] ->
            ready cluster = true
            /\ api_get env (objects st) StatefulSet = Ok true
            /\ changed = true)
         (statefulset_runs env oz nz os ns cluster st).
Proof.
  unfold statefulset_runs. each_run;
    unfold_handlers; unfold events; handler_cases; settle.
Qed.

Lemma statefulset_handlers_guarded_witness :
  ready cluster_up = true
  /\ api_get env_calm (objects st_running) StatefulSet = Ok true
  /\ bool_decide (Some 3 <> Some 5) = true.
Proof.
  pose proof (statefulset_handlers_guarded env_calm (Some 3) (Some 5)
                (Some "8.0.24") (Some "8.0.25") cluster_up st_running) as H.
  apply Forall_cons in H as [Hinstances _].
  apply Hinstances. discriminate.
Defined.

(** X3. The handlers of spec.version, spec.imageRepository,
    spec.imagePullPolicy and spec.router.version patch the router
    deployment only when the lookup found one. *)
Theorem router_deployment_patched_if_found (env : Env) (os ns : option string)
    (cluster : InnoDBCluster) (st : State) :
  Forall (fun run =>
            filter (fun c => patches_router_deployment c = true)
                   (calls (events run)) <> [] ->
            api_get env (objects st) RouterDeployment = Ok true)
         (router_patching_runs env os ns cluster st).
Proof.
  unfold router_patching_runs. each_run;
    unfold_handlers; unfold events; handler_cases; settle.
Qed.

Lemma router_deployment_patched_if_found_witness :
  api_get env_calm (objects st_running) RouterDeployment = Ok true.
Proof.
  pose proof (router_deployment_patched_if_found env_calm (Some "8.0.24")
                (Some "8.0.25") cluster_up st_running) as H.
  apply Forall_cons in H as [Hversion _].
  apply Hversion. discriminate.
Defined.

(** X4. When the spec of the cluster does not parse, none of the eight
    spec field handlers touches anything: no platform mutation, no
    pre-change hook, the state unchanged. *)
Theorem unparsable_spec_blocks_changes (env : Env) (oz nz : option Z)
    (os ns : option string) (cluster : InnoDBCluster) (st : State)
    (e : Exn) :
  parse_spec cluster = Raise e ->
  Forall (untouched st) (field_runs env oz nz os ns cluster st).
Proof.
  intros Hparse. unfold field_runs, untouched. each_run;
    unfold_handlers; unfold final, events; rewrite ?Hparse;
    handler_cases; settle.
Qed.

Lemma unparsable_spec_blocks_changes_witness :
  Forall (untouched st_running)
         (field_runs env_calm (Some 3) (Some 5) (Some "8.0.24")
            (Some "8.0.25") cluster_up_bad_spec st_running).
Proof.
  apply (unparsable_spec_blocks_changes env_calm (Some 3) (Some 5)
           (Some "8.0.24") (Some "8.0.25") cluster_up_bad_spec st_running
           (ApiSpecError "spec.version is not a version")).
  reflexivity.
Defined.

(** X5. When the spec parses and [validate] raises, the handlers of
    spec.instances, spec.image, spec.router.instances, spec.router.version
    and spec.backupSchedules touch nothing. *)
Theorem invalid_spec_blocks_changes (env : Env) (oz nz : option Z)
    (os ns : option string) (cluster : InnoDBCluster)
    (icspec : InnoDBClusterSpec) (st : State) (e : Exn) :
  parse_spec cluster = Ok icspec ->
  validate_raises icspec = Some e ->
  Forall (untouched st) (validating_runs env oz nz os ns cluster st).
Proof.
  intros Hparse Hvalid. unfold validating_runs, untouched. each_run;
    unfold_handlers; unfold final, events; rewrite ?Hparse; simpl;
    rewrite ?Hvalid; handler_cases; settle.
Qed.

Lemma invalid_spec_blocks_changes_witness :
  Forall (untouched st_running)
         (validating_runs env_calm (Some 3) (Some 5) (Some "8.0.24")
            (Some "8.0.25") cluster_up_invalid st_running).
Proof.
  apply (invalid_spec_blocks_changes env_calm (Some 3) (Some 5)
           (Some "8.0.24") (Some "8.0.25") cluster_up_invalid spec_invalid
           st_running (ApiSpecError "spec.instances must be between 1 and 9"));
    reflexivity.
Defined.

(** X6. [on_innodbcluster_field_router_instances] on a cluster with a
    create time and a valid spec, the mutex entered: it patches the router
    deployment's size to new whatever old is (equal values are not skipped),
    ends as the patch does, and leaves the mutex also when the patch
    raises. *)
Theorem router_instances_always_patched (env : Env) (old new : option Z)
    (cluster : InnoDBCluster) (icspec : InnoDBClusterSpec) (st : State) :
  is_Some (get_create_time cluster) ->
  parse_spec cluster = Ok icspec ->
  validate_raises icspec = None ->
  call_raises env 0 (MutexEnter (name cluster) None) = None ->
  on_innodbcluster_field_router_instances env old new cluster st
  = (match call_raises env 0 (RouterUpdateSize new) with
     | None => Ok tt
     | Some e => Raise e
     end,
     st,
     [Called (MutexEnter (name cluster) None) None;
      Log INFO "Updating Router Deployment.replicas from {old} to {new}";
      Called (RouterUpdateSize new)
             (call_raises env 0 (RouterUpdateSize new));
      MutexExit (name cluster)]).
Proof.
  intros [t Htime] Hparse Hvalid Hmutex.
  unfold_handlers. rewrite Htime. simpl. rewrite Hmutex. simpl.
  rewrite Hparse. simpl. rewrite Hvalid. simpl.
  destruct (call_raises env 0 (RouterUpdateSize new)); reflexivity.
Qed.

Lemma router_instances_always_patched_witness :
  calls (events (on_innodbcluster_field_router_instances env_calm (Some 2)
                   (Some 2) cluster_up st_running))
  = [MutexEnter "mycluster" None; RouterUpdateSize (Some 2)].
Proof.
  rewrite (router_instances_always_patched env_calm (Some 2) (Some 2)
             cluster_up spec_3_1 st_running);
    [reflexivity | eexists; reflexivity | reflexivity ..].
Defined.

(** X7. When entering the cluster mutex raises, the handlers of
    spec.router.instances, spec.router.version and spec.backupSchedules and
    those of pod creation and pod deletion raise that exception and do
    nothing after the attempt: it is the last thing they did, the mutex is
    not left, and the state is unchanged. *)
Theorem refused_mutex_stops_handler (env : Env) (oz nz : option Z)
    (os ns : option string) (cluster : InnoDBCluster) (pod : MySQLPod)
    (st : State) :
  Forall (fun run =>
            forall c p e,
              In (Called (MutexEnter c p) (Some e)) (events run) ->
              result run = Raise e
              /\ last (events run) = Some (Called (MutexEnter c p) (Some e))
              /\ final run = st)
         (mutex_runs env oz nz os ns cluster pod st).
Proof.
  unfold mutex_runs. each_run;
    unfold_handlers; unfold result, final, events; handler_cases;
    intros c p e' Hin; simpl in Hin;
    repeat match goal with
           | H : _ \/ _ |- _ => destruct H
           | H : False |- _ => destruct H
           | H : _ = _ |- _ => discriminate H
           | H : Called _ _ = Called _ _ |- _ => inversion H; clear H; subst
           end;
    repeat split; congruence.
Qed.

Lemma refused_mutex_stops_handler_witness :
  result (on_innodbcluster_field_router_instances env_busy (Some 2) (Some 0)
            cluster_up st_running)
  = Raise (TemporaryError "mycluster busy" (Some 10)).
Proof.
  pose proof (refused_mutex_stops_handler env_busy (Some 2) (Some 0) None
                None cluster_up pod_0 st_running) as H.
  apply Forall_cons in H as [Hrouter _].
  apply (Hrouter "mycluster" None (TemporaryError "mycluster busy" (Some 10))).
  left. reflexivity.
Defined.

(** X8. [on_innodbcluster_delete] calls, in this order: the group monitor
    to drop the cluster, the router deployment's size to 0, and the
    stateful set's replicas to 0. It makes no other call and enters no
    mutex. A call or the lookup of the stateful set that raises is the last
    thing the handler does, and the handler raises what it raised: each
    call is made only if the one before returned, and the stateful set is
    looked up only after the first two calls returned. The stateful set is
    patched only when the lookup found it. When nothing raises, the handler
    returns, having made the first two calls and, with a stateful set
    found, the third. *)
Theorem delete_scales_to_zero (env : Env) (cluster : InnoDBCluster)
    (st : State) :
  let run := on_innodbcluster_delete env cluster st in
  calls (events run) `prefix_of` delete_calls cluster
  /\ stops_at_failure run
  /\ (forall g, In (Got StatefulSet g) (events run) ->
                In (Called (RemoveCluster (name cluster)) None) (events run)
                /\ In (Called (RouterUpdateSize (Some 0)) None) (events run))
  /\ (In (UpdateStatefulSetReplicas (Some 0)) (calls (events run)) ->
      api_get env (objects st) StatefulSet = Ok true)
  /\ (first_failure failure (events run) = None ->
      result run = Ok tt
      /\ looked_up (events run) = [StatefulSet]
      /\ calls (events run)
         = delete_calls_made cluster (api_get env (objects st) StatefulSet)).
Proof.
  intros run. subst run. unfold delete_calls, delete_calls_made.
  unfold stops_at_failure.
  unfold_handlers. unfold result, final, events.
  split; [| split; [| split; [| split]]].
  - handler_cases;
      first [ by eexists | by exists [] ].
  - handler_cases; settle.
  - intros g. handler_cases; intuition congruence.
  - handler_cases; settle.
  - handler_cases; try discriminate; intros _; repeat split.
Qed.

Lemma delete_scales_to_zero_witness :
  result (on_innodbcluster_delete env_calm cluster_up st_running) = Ok tt
  /\ calls (events (on_innodbcluster_delete env_calm cluster_up st_running))
     = delete_calls cluster_up.
Proof.
  destruct (delete_scales_to_zero env_calm cluster_up st_running)
    as (_ & _ & _ & _ & Hdone).
  destruct (Hdone eq_refl) as (Hres & _ & Hcalls).
  split; [exact Hres | exact Hcalls].
Defined.

(** X9. The handlers that change an image or a pull policy make their
    calls in a fixed order, each only when the one before returned:
    spec.version the pre-change hook, the server image of the stateful set,
    the router image; spec.image the pre-change hook and the server image;
    spec.imageRepository the server image, the sidecar image, the router
    image; spec.imagePullPolicy the stateful set's policy, then the
    router's. A call or a lookup that raises is the last thing the handler
    does, and the handler raises what it raised. A handler that made a call
    and in which nothing raised returns having made all its calls, or all
    but the router's when there is no router deployment. *)
Theorem image_calls_in_order (env : Env) (old new : option string)
    (cluster : InnoDBCluster) (st : State) :
  Forall (fun '(run, order) =>
            calls (events run) `prefix_of` order
            /\ stops_at_failure run
            /\ (first_failure failure (events run) = None ->
                calls (events run) <> [] ->
                result run = Ok tt
                /\ (calls (events run) = order
                    \/ (calls (events run) ++ [RouterUpdateImage] = order
                        \/ calls (events run) ++ [RouterUpdatePullPolicy]
                           = order)
                       /\ api_get env (objects st) RouterDeployment
                          = Ok false)))
    [(on_innodbcluster_field_version env old new cluster st,
      version_calls new);
     (on_innodbcluster_field_image env old new cluster st, image_calls new);
     (on_innodbcluster_field_image_repository env old new cluster st,
      image_repository_calls);
     (on_innodbcluster_field_image_pull_policy env old new cluster st,
      image_pull_policy_calls)].
Proof.
  unfold version_calls, image_calls, image_repository_calls,
    image_pull_policy_calls, stops_at_failure.
  unfold_handlers. unfold result, events.
  each_run; (split; [| split]).
  all: try (handler_cases;
            first [ by eexists | by exists [] | apply prefix_nil
                  | apply prefix_cons, prefix_nil
                  | apply prefix_cons, prefix_cons, prefix_nil ]).
  all: try (handler_cases; settle).
Qed.

Lemma image_calls_in_order_witness :
  result (on_innodbcluster_field_version env_calm (Some "8.0.24")
            (Some "8.0.25") cluster_up st_running) = Ok tt
  /\ calls (events (on_innodbcluster_field_version env_calm (Some "8.0.24")
                      (Some "8.0.25") cluster_up st_running))
     = version_calls (Some "8.0.25").
Proof.
  pose proof (image_calls_in_order env_calm (Some "8.0.24") (Some "8.0.25")
                cluster_up st_running) as H.
  apply Forall_cons in H as [(_ & _ & Hdone) _].
  destruct (Hdone eq_refl ltac:(discriminate)) as [Hres _].
  split; [exact Hres | reflexivity].
Defined.

(** X23. The handlers of spec.router.instances, spec.router.version and
    spec.backupSchedules change something on the platform only for a
    cluster that has a create time and whose spec parses and validates, and
    only after they entered the cluster mutex. *)
Theorem router_and_backup_changes_guarded (env : Env) (oz nz : option Z)
    (os ns : option string) (cluster : InnoDBCluster) (st : State) :
  Forall (fun run =>
            mutations (events run) <> [] ->
            is_Some (get_create_time cluster)
            /\ call_raises env 0 (MutexEnter (name cluster) None) = None
            /\ exists icspec,
                 parse_spec cluster = Ok icspec
                 /\ validate_raises icspec = None)
         (created_gated_runs env oz nz os ns cluster st).
Proof.
  unfold created_gated_runs.
  destruct (get_create_time cluster) as [t |] eqn:Htime;
    destruct (parse_spec cluster) as [icspec | eparse] eqn:Hparse;
    try destruct (validate_raises icspec) as [evalid |] eqn:Hvalid;
    destruct (call_raises env 0 (MutexEnter (name cluster) None)) eqn:Hmutex;
    each_run; unfold_handlers; unfold events;
    rewrite ?Htime, ?Hparse; simpl; rewrite ?Hmutex; simpl;
    rewrite ?Hparse; simpl; rewrite ?Hvalid; simpl;
    handler_cases;
    try (intros Hc; exfalso; apply Hc; reflexivity);
    intros _; (split; [eexists; reflexivity |]);
    (split; [reflexivity |]); exists icspec;
    split; first [reflexivity | assumption].
Qed.

Lemma router_and_backup_changes_guarded_witness :
  is_Some (get_create_time cluster_up)
  /\ call_raises env_calm 0 (MutexEnter (name cluster_up) None) = None
  /\ exists icspec,
       parse_spec cluster_up = Ok icspec /\ validate_raises icspec = None.
Proof.
  pose proof (router_and_backup_changes_guarded env_calm (Some 2) (Some 0)
                None None cluster_up st_running) as H.
  apply Forall_cons in H as [Hrouter _].
  apply Hrouter. discriminate.
Defined.

(** X24. On a ready cluster whose stateful set and router deployment the
    lookups find, with old different from new, a spec that parses and no
    call raising: the handlers of spec.version, spec.imageRepository and
    spec.imagePullPolicy make all their calls and return, whether or not
    the spec would validate (they do not call [validate]); the handler of
    spec.image does so when the spec validates. *)
Theorem image_changes_propagate (env : Env) (old new : option string)
    (cluster : InnoDBCluster) (icspec : InnoDBClusterSpec) (st : State) :
  ready cluster = true ->
  old <> new ->
  parse_spec cluster = Ok icspec ->
  api_get env (objects st) StatefulSet = Ok true ->
  api_get env (objects st) RouterDeployment = Ok true ->
  (forall c, call_raises env 0 c = None) ->
  (result (on_innodbcluster_field_version env old new cluster st) = Ok tt
   /\ calls (events (on_innodbcluster_field_version env old new cluster st))
      = version_calls new)
  /\ (result (on_innodbcluster_field_image_repository env old new cluster st)
      = Ok tt
      /\ calls (events (on_innodbcluster_field_image_repository env old new
                          cluster st))
         = image_repository_calls)
  /\ (result (on_innodbcluster_field_image_pull_policy env old new cluster
                st) = Ok tt
      /\ calls (events (on_innodbcluster_field_image_pull_policy env old new
                          cluster st))
         = image_pull_policy_calls)
  /\ (validate_raises icspec = None ->
      result (on_innodbcluster_field_image env old new cluster st) = Ok tt
      /\ calls (events (on_innodbcluster_field_image env old new cluster st))
         = image_calls new).
Proof.
  intros Hready Hne Hparse Hsts Hrouter Hcalm.
  unfold_handlers. unfold result, events.
  rewrite Hready. simpl. rewrite Hsts. simpl.
  rewrite (bool_decide_eq_true_2 _ Hne). simpl.
  repeat (first [rewrite Hparse | rewrite Hcalm | rewrite Hrouter]; simpl).
  split; [split; reflexivity |].
  split; [split; reflexivity |].
  split; [split; reflexivity |].
  intros Hvalid. rewrite Hvalid. simpl.
  repeat (rewrite Hcalm; simpl). split; reflexivity.
Qed.

Lemma image_changes_propagate_witness :
  calls (events (on_innodbcluster_field_version env_calm_invalid
                   (Some "8.0.24") (Some "8.0.25") cluster_up_invalid
                   st_running))
  = version_calls (Some "8.0.25").
Proof.
  apply (image_changes_propagate env_calm_invalid (Some "8.0.24")
           (Some "8.0.25") cluster_up_invalid spec_invalid st_running);
    try reflexivity.
  discriminate.
Defined.

(** ** The pod handlers *)

(** X10. When [on_pod_create] returns, the pod was not being deleted and
    was configured, the pod-created hook was called and returned, and the
    stored restart counts are those before with the pod's count recorded;
    when it raises, the stored restart counts are as before. The group
    monitor is started only for the pod of index 0 of a cluster without a
    create time, and only after the first-pod actions returned. *)
Theorem pod_create_records_restarts (env : Env) (pod : MySQLPod)
    (st : State) :
  let run := on_pod_create env pod st in
  (result run = Ok tt ->
   pod_deleting pod = false /\ configured pod = true
   /\ In (Called (CtlPodCreated pod) None) (events run)
   /\ ephemeral (final run)
      = <[restarts_key pod := mysql_restarts pod]> (ephemeral st))
  /\ (result run <> Ok tt -> ephemeral (final run) = ephemeral st)
  /\ (forall n r,
        In (Called (MonitorCluster n) r) (events run) ->
        index pod = 0
        /\ In (Called (FirstClusterPodCreated n) None) (events run)
        /\ exists cluster,
             get_cluster env 0 pod = Some cluster
             /\ name cluster = n /\ get_create_time cluster = None).
Proof.
  intros run. subst run.
  unfold_handlers. unfold result, final, events, restarts_key.
  destruct (get_cluster env 0 pod) as [cluster |] eqn:Hcluster.
  2: { handler_cases; settle. }
  destruct (get_create_time cluster) as [t |] eqn:Htime;
    destruct (bool_decide (index pod = 0)) eqn:Hindex;
    try apply bool_decide_eq_true in Hindex;
    handler_cases;
    (split; [| split]);
    try (intros n r Hin; simpl in Hin;
         repeat match goal with
                | H : _ \/ _ |- _ => destruct H
                | H : False |- _ => destruct H
                | H : _ = _ |- _ => discriminate H
                | H : Called _ _ = Called _ _ |- _ =>
                    inversion H; clear H; subst
                end;
         split; [assumption |];
         split; [simpl; tauto |];
         exists cluster; repeat split; assumption);
    settle.
Qed.

Lemma pod_create_records_restarts_witness :
  ephemeral (final (on_pod_create env_bootstrapping pod_0 st_empty))
    !! restarts_key pod_0 = Some 0
  /\ index pod_0 = 0.
Proof.
  destruct (pod_create_records_restarts env_bootstrapping pod_0 st_empty)
    as (Hreturns & _ & Hmonitor).
  split.
  - destruct Hreturns as (_ & _ & _ & ->); reflexivity.
  - apply (Hmonitor "mycluster" None). vm_compute. tauto.
Defined.

(** When [on_pod_create] returns, the restart count of the pod is
    stored. *)
Lemma pod_create_returns (env : Env) (pod : MySQLPod) (st : State) :
  result (on_pod_create env pod st) = Ok tt ->
  ephemeral (final (on_pod_create env pod st)) !! restarts_key pod
  = Some (mysql_restarts pod).
Proof.
  unfold_handlers. unfold result, final, restarts_key.
  handler_cases; intros; try congruence; simpl; apply lookup_insert_eq.
Qed.

(** X11. After [on_pod_create] returned for a pod, an event for that pod
    with the restart count it had then makes no pod-restarted notification,
    whatever the collaborators do and however long the handler retries. *)
Theorem created_pod_not_reported (env env' : Env) (pod pod' : MySQLPod)
    (st : State) (fuel : nat) :
  result (on_pod_create env pod st) = Ok tt ->
  restarts_key pod' = restarts_key pod ->
  mysql_restarts pod' = mysql_restarts pod ->
  notifications
    (events (on_pod_event env' fuel pod' (final (on_pod_create env pod st))))
  = [].
Proof.
  intros Hcreated Hkey Hcount.
  apply loop_seen. rewrite Hkey, Hcount.
  apply pod_create_returns, Hcreated.
Qed.

Lemma created_pod_not_reported_witness :
  notifications
    (events (on_pod_event env_calm 3 pod_0
               (final (on_pod_create env_calm pod_0 st_empty))))
  = [].
Proof.
  apply (created_pod_not_reported env_calm env_calm pod_0 pod_0 st_empty 3);
    reflexivity.
Defined.

(** X12. A pod of which no restart count is stored (the process has not
    seen it created) is reported as restarted by its first event with all
    containers ready, whatever its restart count, the collaborators
    cooperating; the count is stored then, and nothing else of the state
    changes but the status of the cluster resource. *)
Theorem unseen_pod_reported (env : Env) (pod : MySQLPod) (st : State)
    (cluster : InnoDBCluster) (fuel : nat) :
  observed pod ->
  containers_ready pod = true ->
  ephemeral st !! restarts_key pod = None ->
  get_cluster env 0 pod = Some cluster ->
  call_raises env 0 (MutexEnter (name cluster) (Some (pod_name pod))) = None ->
  call_raises env 0 (CtlPodRestarted pod) = None ->
  (0 < fuel)%nat ->
  notifications (events (on_pod_event env fuel pod st)) = [pod]
  /\ status_aside (final (on_pod_event env fuel pod st))
     = status_aside (remember_restarts pod st).
Proof.
  intros Hobs Hready Hnone Hcluster Hmutex Hhook Hfuel.
  destruct (loop_restarted env fuel pod st cluster Hobs Hready) as [Hst Hone];
    try assumption.
  - rewrite Hnone. discriminate.
  - split; assumption.
Qed.

Lemma unseen_pod_reported_witness :
  notifications (events (on_pod_event env_calm 1 pod_0 st_empty)) = [pod_0].
Proof.
  apply (unseen_pod_reported env_calm pod_0 st_empty cluster_up 1);
    try reflexivity; [| lia].
  repeat split. eexists. reflexivity.
Defined.

(** X13. [on_pod_delete] raises an assertion error, having done nothing,
    on a pod that is not being deleted. It removes the member finalizer only
    when no owning cluster resolves, and runs the last-pod actions only for
    the pod of index 0 of a cluster that is being deleted, after the
    pod-deleted hook returned. It stores no restart count. *)
Theorem pod_delete_cases (env : Env) (pod : MySQLPod) (st : State) :
  let run := on_pod_delete env pod st in
  (pod_deleting pod = false -> run = (Raise AssertionError, st, []))
  /\ (forall r,
        In (Called (RemoveMemberFinalizer (pod_name pod)) r) (events run) ->
        get_cluster env 0 pod = None)
  /\ (forall n r,
        In (Called (LastClusterPodRemoved n) r) (events run) ->
        index pod = 0
        /\ In (Called (CtlPodDeleted pod) None) (events run)
        /\ exists cluster,
             get_cluster env 0 pod = Some cluster
             /\ name cluster = n /\ deleting cluster = true)
  /\ ephemeral (final run) = ephemeral st.
Proof.
  intros run. subst run.
  unfold_handlers. unfold result, final, events.
  destruct (get_cluster env 0 pod) as [cluster |] eqn:Hcluster.
  2: { handler_cases; settle. }
  destruct (deleting cluster) eqn:Hdeleting;
    destruct (bool_decide (index pod = 0)) eqn:Hindex;
    try apply bool_decide_eq_true in Hindex;
    handler_cases;
    (split; [| split; [| split]]);
    try (intros n r Hin; simpl in Hin;
         repeat match goal with
                | H : _ \/ _ |- _ => destruct H
                | H : False |- _ => destruct H
                | H : _ = _ |- _ => discriminate H
                | H : Called _ _ = Called _ _ |- _ =>
                    inversion H; clear H; subst
                end;
         split; [assumption |];
         split; [simpl; tauto |];
         exists cluster; repeat split; assumption);
    settle.
Qed.

Lemma pod_delete_cases_witness :
  on_pod_delete env_calm pod_0 st_running
  = (Raise AssertionError, st_running, []).
Proof.
  apply (pod_delete_cases env_calm pod_0 st_running). reflexivity.
Defined.

(** X14. An event for a pod that is not running, is being deleted or has
    no membership information is ignored: the handler logs it at debug
    level and returns, without looking up the cluster, entering the mutex or
    probing. *)
Theorem ignored_pod_event (env : Env) (pod : MySQLPod) (st : State)
    (fuel : nat) :
  ignored pod ->
  on_pod_event env (S fuel) pod st
  = (Some (Ok tt), st,
     [Log DEBUG "ignored pod event: pod={pod.name} containers_ready={ready} deleting={pod.deleting} phase={pod.phase} member_info={member_info}"]).
Proof.
  intros Hignored. unfold on_pod_event. simpl. unfold pod_event_attempt.
  assert (bool_decide (phase pod <> "Running") || pod_deleting pod
          || negb (bool_decide (is_Some (membership_info pod))) = true)
    as ->; [| reflexivity].
  destruct Hignored as [Hphase | [Hdel | Hinfo]].
  - rewrite (bool_decide_eq_true_2 _ Hphase). reflexivity.
  - rewrite Hdel. apply orb_true_iff. left. apply orb_true_r.
  - rewrite Hinfo. apply orb_true_r.
Qed.

Lemma ignored_pod_event_witness :
  result (on_pod_event env_calm 1 pod_pending st_running) = Some (Ok tt).
Proof.
  rewrite (ignored_pod_event env_calm pod_pending st_running 0);
    [reflexivity | left; discriminate].
Defined.

(** ** The retry loop of the pod event handler *)

(** An attempt with cooperating collaborators ends by the probe: UNKNOWN
    raises the 15-second [TemporaryError], anything else ends the attempt. *)
Lemma attempt_by_probe (env : Env) (i : nat) (pod : MySQLPod) (st : State) :
  observed pod ->
  cooperative env pod i ->
  forall s,
    probe_status_if_needed env i pod = Ok s ->
    result (pod_event_attempt env i pod st)
    = if bool_decide (s = Some UNKNOWN)
      then Raise (TemporaryError
                    "Cluster has unreachable members. status=ClusterDiagStatus.UNKNOWN"
                    (Some 15))
      else Ok tt.
Proof.
  intros (Hphase & Hdel & Hinfo) [[cluster Hcluster] Hcalls] s Hprobe.
  unfold_attempt.
  rewrite Hphase, Hdel, Hcluster.
  rewrite (bool_decide_eq_false_2 ("Running" <> "Running"))
    by (intros Hc; apply Hc; reflexivity).
  rewrite (bool_decide_eq_true_2 _ Hinfo).
  simpl. rewrite !Hcalls. simpl.
  destruct (containers_ready pod
            && bool_decide
                 ((if bool_decide
                        (ephemeral st !! (pod_namespace pod, pod_name pod,
                                          "mysql-restarts")
                         <> Some (mysql_restarts pod))
                   then "mysql-restarted" else "") = "mysql-restarted"));
    simpl; rewrite ?Hcalls; simpl; rewrite Hprobe; simpl;
    destruct (bool_decide (s = Some UNKNOWN)); reflexivity.
Qed.

Lemma unknown_from (env : Env) (pod : MySQLPod) (k : nat) :
  observed pod ->
  forall i st fuel s,
    (forall j, (j <= k)%nat -> cooperative env pod (i + j)) ->
    (forall j, (j < k)%nat ->
               probe_status_if_needed env (i + j) pod = Ok (Some UNKNOWN)) ->
    probe_status_if_needed env (i + k) pod = Ok s ->
    s <> Some UNKNOWN ->
    (k < fuel)%nat ->
    result (on_pod_event_from env fuel i pod st) = Some (Ok tt)
    /\ sleeps (events (on_pod_event_from env fuel i pod st)) = replicate k 15.
Proof.
  intros Hobs. induction k as [| k IH];
    intros i st fuel s Hcoop Hunknown Hlast Hs Hfuel;
    (destruct fuel as [| fuel]; [lia |]).
  - rewrite Nat.add_0_r in Hlast.
    pose proof (attempt_by_probe env i pod st Hobs) as Hres.
    specialize (Hres ltac:(rewrite <- (Nat.add_0_r i); apply Hcoop; lia)
                     s Hlast).
    rewrite (bool_decide_eq_false_2 _ Hs) in Hres.
    rewrite on_pod_event_from_settle by (rewrite Hres; reflexivity).
    cbn [result events fst snd]. split; [rewrite Hres; reflexivity |].
    apply attempt_no_sleep.
  - pose proof (attempt_by_probe env i pod st Hobs) as Hres.
    specialize (Hres ltac:(rewrite <- (Nat.add_0_r i); apply Hcoop; lia)
                     (Some UNKNOWN)).
    rewrite <- (Nat.add_0_r i) in Hres at 1.
    specialize (Hres (Hunknown 0%nat ltac:(lia))).
    rewrite bool_decide_eq_true_2 in Hres by reflexivity.
    rewrite on_pod_event_from_retry by (rewrite Hres; reflexivity).
    cbn [result events fst snd].
    destruct (IH (S i) (final (pod_event_attempt env i pod st)) fuel s)
      as [Hdone Hsleeps].
    + intros j Hj. replace (S i + j)%nat with (i + S j)%nat by lia.
      apply Hcoop. lia.
    + intros j Hj. replace (S i + j)%nat with (i + S j)%nat by lia.
      apply Hunknown. lia.
    + replace (S i + k)%nat with (i + S k)%nat by lia. exact Hlast.
    + exact Hs.
    + lia.
    + split; [exact Hdone |].
      rewrite !sleeps_app, attempt_no_sleep, Hsleeps, Hres.
      reflexivity.
Qed.

(** X15. With a pod that passes the filter and collaborators that
    cooperate, a status probe that answers UNKNOWN on the first k attempts
    and something else on the next makes [on_pod_event] return after
    exactly k sleeps of 15 seconds. *)
Theorem unknown_probe_costs_15 (env : Env) (pod : MySQLPod) (st : State)
    (k fuel : nat) (s : option ClusterDiagStatus) :
  observed pod ->
  (forall j, (j <= k)%nat -> cooperative env pod j) ->
  (forall j, (j < k)%nat ->
             probe_status_if_needed env j pod = Ok (Some UNKNOWN)) ->
  probe_status_if_needed env k pod = Ok s ->
  s <> Some UNKNOWN ->
  (k < fuel)%nat ->
  result (on_pod_event env fuel pod st) = Some (Ok tt)
  /\ sleeps (events (on_pod_event env fuel pod st)) = replicate k 15.
Proof.
  intros Hobs Hcoop Hunknown Hlast Hs Hfuel.
  apply (unknown_from env pod k Hobs 0 st fuel s); assumption.
Qed.

Lemma unknown_probe_costs_15_witness :
  sleeps (events (on_pod_event env_unknown_twice 3 pod_0 st_seen)) = [15; 15].
Proof.
  apply (unknown_probe_costs_15 env_unknown_twice pod_0 st_seen 2 3
           (Some ONLINE)).
  - repeat split. eexists. reflexivity.
  - intros j _. split; [eexists; reflexivity | reflexivity].
  - intros j Hj. destruct j as [| [| j]]; [reflexivity | reflexivity | lia].
  - reflexivity.
  - discriminate.
  - lia.
Defined.

(** X16. [time.sleep] is never called with 0: a [TemporaryError] whose
    delay is zero or absent is retried at once. *)
Theorem never_sleeps_zero (env : Env) (fuel : nat) (pod : MySQLPod) :
  forall i st,
    Forall (fun d => d <> 0)
           (sleeps (events (on_pod_event_from env fuel i pod st))).
Proof.
  induction fuel as [| fuel IH]; intros i st; [constructor |].
  destruct (outcome_cases (result (pod_event_attempt env i pod st)))
    as [Hsettle | [Hretry | [Htmp Hbad]]].
  - rewrite on_pod_event_from_settle by assumption.
    cbn [events snd]. rewrite attempt_no_sleep. constructor.
  - rewrite on_pod_event_from_retry by assumption.
    cbn [events snd].
    rewrite !sleeps_app, attempt_no_sleep. simpl.
    apply Forall_app. split; [| apply IH].
    destruct (delay_of (result (pod_event_attempt env i pod st))) as [d |];
      simpl; [| constructor].
    case_bool_decide; simpl; repeat constructor. assumption.
  - rewrite on_pod_event_from_refused by assumption.
    cbn [events snd]. rewrite sleeps_app, attempt_no_sleep. constructor.
Qed.




(** X27. [on_pod_create] for a configured pod that is not being deleted,
    whose owning cluster resolves and with no call raising: for the pod of
    index 0 of a cluster without a create time it runs the first-pod
    actions, starts the group monitor once and calls the pod-created hook,
    all under the mutex; for any other pod it calls the hook only. *)
Theorem pod_create_bootstraps (env : Env) (pod : MySQLPod) (st : State)
    (cluster : InnoDBCluster) :
  pod_deleting pod = false ->
  configured pod = true ->
  get_cluster env 0 pod = Some cluster ->
  (forall c, call_raises env 0 c = None) ->
  let first_pod :=
    bool_decide (index pod = 0)
    && negb (bool_decide (is_Some (get_create_time cluster))) in
  result (on_pod_create env pod st) = Ok tt
  /\ calls (events (on_pod_create env pod st))
     = MutexEnter (name cluster) (Some (pod_name pod))
       :: (if first_pod
           then [FirstClusterPodCreated (name cluster);
                 MonitorCluster (name cluster)]
           else [])
       ++ [CtlPodCreated pod]
  /\ last (events (on_pod_create env pod st))
     = Some (MutexExit (name cluster)).
Proof.
  intros Hdel Hconf Hcluster Hcalm first_pod. subst first_pod.
  unfold_handlers. unfold result, events.
  rewrite Hdel, Hconf. simpl. rewrite Hcluster. simpl.
  rewrite Hcalm. simpl.
  destruct (bool_decide (index pod = 0)
            && negb (bool_decide (is_Some (get_create_time cluster))));
    simpl; repeat (rewrite Hcalm; simpl); repeat split.
Qed.

Lemma pod_create_bootstraps_witness :
  calls (events (on_pod_create env_bootstrapping pod_0 st_empty))
  = [MutexEnter "mycluster" (Some "mycluster-0");
     FirstClusterPodCreated "mycluster"; MonitorCluster "mycluster";
     CtlPodCreated pod_0]
  /\ calls (events (on_pod_create env_bootstrapping pod_1 st_empty))
     = [MutexEnter "mycluster" (Some "mycluster-1"); CtlPodCreated pod_1].
Proof.
  split.
  - apply (pod_create_bootstraps env_bootstrapping pod_0 st_empty
             cluster_new); reflexivity.
  - apply (pod_create_bootstraps env_bootstrapping pod_1 st_empty
             cluster_new); reflexivity.
Defined.

(** ** Frames of the handlers *)

Section Every.

Context (p : Event -> bool).

Lemma every_ret {A} (a : A) : every p (ret a).
Proof. intros st. reflexivity. Qed.

Lemma every_raise {A} (e : Exn) : every p (@raise A e).
Proof. intros st. reflexivity. Qed.

Lemma every_lift {A} (r : Res A) : every p (lift r).
Proof. intros st. reflexivity. Qed.

Lemma every_bind {A B} (m : M A) (f : A -> M B) :
  every p m -> (forall a, every p (f a)) -> every p (bind m f).
Proof.
  intros Hm Hf st. specialize (Hm st). rewrite bind_run.
  destruct (result (m st)) as [a | e]; [| exact Hm].
  cbn [events snd]. rewrite forallb_app, Hm. apply Hf.
Qed.

Lemma every_try_except {A} (m : M A) (h : Exn -> option (M A)) :
  every p m -> (forall e m', h e = Some m' -> every p m') ->
  every p (try_except m h).
Proof.
  intros Hm Hh st. specialize (Hm st). unfold try_except.
  destruct (m st) as [[[a | e] st1] evs1]; [exact Hm |].
  destruct (h e) as [m' |] eqn:He; [| exact Hm].
  specialize (Hh e m' He st1). destruct (m' st1) as [[r st2] evs2].
  unfold events in *. simpl in *. rewrite forallb_app, Hm. exact Hh.
Qed.

Lemma every_finally {A} (m : M A) (cleanup : M unit) :
  every p m -> every p cleanup -> every p (finally m cleanup).
Proof.
  intros Hm Hc st. specialize (Hm st). unfold finally.
  destruct (m st) as [[r st1] evs1].
  specialize (Hc st1). destruct (cleanup st1) as [[[[] | e] st2] evs2];
    unfold events in *; simpl in *; rewrite forallb_app, Hm; exact Hc.
Qed.

Lemma every_when (b : bool) (m : M unit) : every p m -> every p (when b m).
Proof. intros Hm. destruct b; [exact Hm | apply every_ret]. Qed.

Lemma every_emit (ev : Event) : p ev = true -> every p (emit ev).
Proof. intros Hev st. simpl. rewrite Hev. reflexivity. Qed.

Lemma every_invoke (env : Env) (i : nat) (c : Call) :
  (forall r, p (Called c r) = true) -> every p (invoke env i c).
Proof.
  intros Hc st. unfold invoke.
  destruct (call_raises env i c); simpl; rewrite Hc; reflexivity.
Qed.

Lemma every_cluster_get (env : Env) (k : ObjKind) :
  (forall r, p (Got k r) = true) -> every p (cluster_get env k).
Proof. intros Hk st. simpl. rewrite Hk. reflexivity. Qed.

End Every.

Section Preserves.

Context {X : Type} (f : State -> X).

Lemma preserves_ret {A} (a : A) : preserves f (ret a).
Proof. intros st. reflexivity. Qed.

Lemma preserves_raise {A} (e : Exn) : preserves f (@raise A e).
Proof. intros st. reflexivity. Qed.

Lemma preserves_lift {A} (r : Res A) : preserves f (lift r).
Proof. intros st. reflexivity. Qed.

Lemma preserves_bind {A B} (m : M A) (g : A -> M B) :
  preserves f m -> (forall a, preserves f (g a)) -> preserves f (bind m g).
Proof.
  intros Hm Hg st. specialize (Hm st). rewrite bind_run.
  destruct (result (m st)) as [a | e]; [| exact Hm].
  cbn [final fst snd]. rewrite <- Hm. apply Hg.
Qed.

Lemma preserves_try_except {A} (m : M A) (h : Exn -> option (M A)) :
  preserves f m -> (forall e m', h e = Some m' -> preserves f m') ->
  preserves f (try_except m h).
Proof.
  intros Hm Hh st. specialize (Hm st). unfold try_except.
  destruct (m st) as [[[a | e] st1] evs1]; [exact Hm |].
  destruct (h e) as [m' |] eqn:He; [| exact Hm].
  specialize (Hh e m' He st1). destruct (m' st1) as [[r st2] evs2].
  unfold final in *. simpl in *. rewrite <- Hm. exact Hh.
Qed.

Lemma preserves_finally {A} (m : M A) (cleanup : M unit) :
  preserves f m -> preserves f cleanup -> preserves f (finally m cleanup).
Proof.
  intros Hm Hc st. specialize (Hm st). unfold finally.
  destruct (m st) as [[r st1] evs1].
  specialize (Hc st1). destruct (cleanup st1) as [[[[] | e] st2] evs2];
    unfold final in *; simpl in *; rewrite <- Hm; exact Hc.
Qed.

Lemma preserves_when (b : bool) (m : M unit) :
  preserves f m -> preserves f (when b m).
Proof. intros Hm. destruct b; [exact Hm | apply preserves_ret]. Qed.

Lemma preserves_emit (ev : Event) : preserves f (emit ev).
Proof. intros st. reflexivity. Qed.

Lemma preserves_invoke (env : Env) (i : nat) (c : Call) :
  (forall st, f (apply_call env i c st) = f st) ->
  preserves f (invoke env i c).
Proof.
  intros Hc st. unfold invoke.
  destruct (call_raises env i c); [reflexivity | apply Hc].
Qed.

Lemma preserves_cluster_get (env : Env) (k : ObjKind) :
  preserves f (cluster_get env k).
Proof. intros st. reflexivity. Qed.

End Preserves.

Ltac frame_step :=
  first
    [ apply every_ret | apply every_raise | apply every_lift
    | apply preserves_ret | apply preserves_raise | apply preserves_lift
    | apply preserves_emit | apply preserves_cluster_get
    | apply every_emit; reflexivity
    | apply every_cluster_get; intros ?; reflexivity
    | apply every_invoke; intros ?; reflexivity
    | apply preserves_invoke; intros ?; reflexivity
    | apply every_when | apply preserves_when
    | apply every_finally | apply preserves_finally
    | apply every_bind; [| intros ?]
    | apply preserves_bind; [| intros ?]
    | apply every_try_except;
      [| let e := fresh "e" in intros e ? ?; destruct e; simplify_eq/=]
    | apply preserves_try_except;
      [| let e := fresh "e" in intros e ? ?; destruct e; simplify_eq/=]
    | match goal with
      | |- every _ (if ?b then _ else _) => destruct b
      | |- every _ (match ?x with _ => _ end) => destruct x
      | |- preserves _ (if ?b then _ else _) => destruct b
      | |- preserves _ (match ?x with _ => _ end) => destruct x
      end ].

Ltac frame_all :=
  unfold logger, print, parsed_spec, validate, with_ClusterMutex, ignore_404;
  repeat frame_step.

(** The creation blocks enter no mutex and do not write the resource. *)
Lemma create_dependents_no_mutex (env : Env) (icspec : InnoDBClusterSpec) :
  every (fun ev => negb (is_mutex_event ev)) (create_dependents env icspec).
Proof. unfold create_dependents, ensure. frame_all. Qed.

Lemma create_dependents_no_write (env : Env) (icspec : InnoDBClusterSpec) :
  every (not_call writes_resource) (create_dependents env icspec).
Proof. unfold create_dependents, ensure. frame_all. Qed.

Lemma create_dependents_resource (env : Env) (icspec : InnoDBClusterSpec) :
  preserves resource (create_dependents env icspec).
Proof. unfold create_dependents, ensure. frame_all. Qed.

(** ** Runs that stop at the first exception *)

Lemma first_failure_app (fail : Event -> option Exn) (evs1 evs2 : list Event) :
  first_failure fail (evs1 ++ evs2)
  = match first_failure fail evs1 with
    | Some (e, rest) => Some (e, rest ++ evs2)
    | None => first_failure fail evs2
    end.
Proof.
  induction evs1 as [| ev evs1 IH]; [reflexivity |].
  simpl. destruct (fail ev); [reflexivity | exact IH].
Qed.

Lemma no_call_among (p : Call -> bool) (evs : list Event) :
  forallb (not_call p) evs = true -> existsb p (calls evs) = false.
Proof.
  induction evs as [| ev evs IH]; [reflexivity |].
  simpl. intros H. apply andb_true_iff in H as [Hev H].
  destruct ev; simpl in *; try (apply IH, H).
  apply negb_true_iff in Hev. rewrite Hev. apply IH, H.
Qed.

(** ** The mutex, over all handlers *)

Lemma mutex_after_free (evs : list Event) :
  forallb (fun ev => negb (is_mutex_event ev)) evs = true ->
  forall held, mutex_after held evs = Some held.
Proof.
  induction evs as [| ev evs IH]; intros Hfree held; [reflexivity |].
  simpl in Hfree. apply andb_true_iff in Hfree as [Hev Hfree].
  destruct ev as [| | | | | | c r | | |]; simpl in *;
    try (apply IH, Hfree); try discriminate.
  destruct c; simpl in *; try discriminate; apply IH, Hfree.
Qed.

Lemma mutex_after_app (evs1 evs2 : list Event) :
  forall held,
    mutex_after held (evs1 ++ evs2)
    = mutex_after held evs1 ≫= fun held' => mutex_after held' evs2.
Proof.
  induction evs1 as [| ev evs1 IH]; intros held; [reflexivity |].
  destruct ev as [| | | | | | c r | | |]; simpl; try apply IH.
  - destruct c; try apply IH.
    destruct r; [apply IH |]. destruct held; [reflexivity | apply IH].
  - destruct held; [apply IH | reflexivity].
Qed.

Lemma create_no_mutex (env : Env) (cluster : InnoDBCluster) :
  every (fun ev => negb (is_mutex_event ev))
        (on_innodbcluster_create env cluster).
Proof.
  unfold on_innodbcluster_create.
  unfold logger, print, parsed_spec, validate.
  repeat first [apply create_dependents_no_mutex | frame_step].
Qed.

Lemma attempt_mutex_scoped (env : Env) (i : nat) (pod : MySQLPod)
    (st : State) :
  mutex_after false (events (pod_event_attempt env i pod st)) = Some false.
Proof. unfold_attempt. attempt_cases; reflexivity. Qed.

Lemma loop_mutex_scoped (env : Env) (fuel : nat) (pod : MySQLPod) :
  forall i st,
    mutex_after false (events (on_pod_event_from env fuel i pod st))
    = Some false.
Proof.
  induction fuel as [| fuel IH]; intros i st; [reflexivity |].
  destruct (outcome_cases (result (pod_event_attempt env i pod st)))
    as [Hsettle | [Hretry | [Htmp Hbad]]].
  - rewrite on_pod_event_from_settle by assumption. cbn [events snd].
    apply attempt_mutex_scoped.
  - rewrite on_pod_event_from_retry by assumption. cbn [events snd].
    rewrite mutex_after_app, attempt_mutex_scoped.
    cbn [mbind option_bind]. rewrite mutex_after_app.
    rewrite (mutex_after_free (retry_events _)); [apply IH |].
    destruct (delay_of _) as [d |]; simpl; [case_bool_decide |]; reflexivity.
  - rewrite on_pod_event_from_refused by assumption. cbn [events snd].
    rewrite mutex_after_app, attempt_mutex_scoped. reflexivity.
Qed.

(** X18. Whatever a handler is invoked with and however it ends (by
    returning, by raising, or still retrying), it has left every mutex it
    entered, and it never entered a mutex while holding one. *)
Theorem mutex_always_left (env : Env) (inv : Invocation) (st : State) :
  mutex_after false (events (handle env inv st)) = Some false.
Proof.
  destruct inv as [c | c | o n c | o n c | o n c | o n c | o n c | o n c
                  | o n c | o n c | pod | fuel pod | pod | c members changed];
    simpl; unfold ended; cbn [events snd].
  1: { apply mutex_after_free. apply (create_no_mutex env c st). }
  11: { apply loop_mutex_scoped. }
  all: unfold_handlers; handler_cases; reflexivity.
Qed.

(** ** What only creation does *)

Lemma attempt_builds_nothing (env : Env) (i : nat) (pod : MySQLPod)
    (st : State) :
  forallb (not_call builds_cluster) (events (pod_event_attempt env i pod st))
  = true.
Proof. unfold_attempt. attempt_cases; reflexivity. Qed.

Lemma loop_builds_nothing (env : Env) (fuel : nat) (pod : MySQLPod) :
  forall i st,
    forallb (not_call builds_cluster)
            (events (on_pod_event_from env fuel i pod st)) = true.
Proof.
  induction fuel as [| fuel IH]; intros i st; [reflexivity |].
  pose proof (attempt_builds_nothing env i pod st) as Hevs.
  destruct (outcome_cases (result (pod_event_attempt env i pod st)))
    as [Hsettle | [Hretry | [Htmp Hbad]]].
  - rewrite on_pod_event_from_settle by assumption.
    cbn [events snd]. exact Hevs.
  - rewrite on_pod_event_from_retry by assumption.
    cbn [events snd].
    rewrite forallb_app, Hevs. simpl. rewrite forallb_app, IH.
    destruct (delay_of _) as [d |]; simpl; [case_bool_decide |]; reflexivity.
  - rewrite on_pod_event_from_refused by assumption.
    cbn [events snd]. rewrite forallb_app, Hevs. reflexivity.
Qed.

(** X19. Only the handler of cluster creation prepares manifests, adopts
    and creates objects and writes the operator version and the status of
    the cluster resource with [set_operator_version] and [set_status]:
    every other handler makes none of these calls, however it ends. *)
Theorem only_creation_builds (env : Env) (inv : Invocation) (st : State) :
  is_cluster_created inv = false ->
  forallb (not_call builds_cluster) (events (handle env inv st)) = true.
Proof.
  destruct inv as [c | c | o n c | o n c | o n c | o n c | o n c | o n c
                  | o n c | o n c | pod | fuel pod | pod | c members changed];
    simpl; intros Hnot; try discriminate Hnot;
    unfold ended; cbn [final events fst snd].
  11: { apply loop_builds_nothing. }
  all: unfold_handlers; unfold events; handler_cases; reflexivity.
Qed.

Lemma only_creation_builds_witness :
  forallb (not_call builds_cluster)
          (events (handle env_calm (PodEvent 3 pod_restarted) st_seen))
  = true.
Proof.
  apply (only_creation_builds env_calm (PodEvent 3 pod_restarted) st_seen).
  reflexivity.
Defined.

(** ** The startup scan *)

Lemma monitor_existing_clusters_calm (env : Env)
    (clusters : list InnoDBCluster) :
  (forall c, call_raises env 0 c = None) ->
  forall st,
    monitor_existing_clusters env clusters st
    = (Ok tt, st,
       map (fun c => Called (MonitorCluster (name c)) None)
           (initialized clusters)).
Proof.
  intros Hcalm. induction clusters as [| c clusters IH]; intros st;
    [reflexivity |].
  simpl. rewrite bind_run. unfold when, invoke, initialized. simpl.
  destruct (bool_decide (is_Some (get_create_time c))); simpl.
  - rewrite Hcalm. cbn [result final events fst snd apply_call].
    rewrite IH. reflexivity.
  - unfold ret. cbn [result final events fst snd]. rewrite IH. reflexivity.
Qed.

(** The scan either goes through the whole list, or ends with the first
    call that raises. *)
Lemma monitor_existing_clusters_stops (env : Env)
    (clusters : list InnoDBCluster) :
  forall st,
    match first_failure failure
            (events (monitor_existing_clusters env clusters st)) with
    | Some (e, rest) =>
        rest = []
        /\ result (monitor_existing_clusters env clusters st) = Raise e
    | None =>
        result (monitor_existing_clusters env clusters st) = Ok tt
        /\ calls (events (monitor_existing_clusters env clusters st))
           = map (fun c => MonitorCluster (name c)) (initialized clusters)
    end.
Proof.
  induction clusters as [| c clusters IH]; intros st; [split; reflexivity |].
  simpl. rewrite bind_run. unfold when, invoke, initialized. simpl.
  destruct (bool_decide (is_Some (get_create_time c))); simpl.
  - destruct (call_raises env 0 (MonitorCluster (name c))) as [e |];
      cbn [result final events fst snd apply_call first_failure failure].
    + split; reflexivity.
    + specialize (IH st). simpl.
      destruct (first_failure failure
                  (events (monitor_existing_clusters env clusters st)))
        as [[e rest] |]; [exact IH |].
      destruct IH as [Hres Hcalls]. split; [exact Hres |].
      f_equal. exact Hcalls.
  - unfold ret. cbn [result final events fst snd]. simpl. apply IH.
Qed.

(** X20. [monitor_existing_clusters] hands to the group monitor the
    clusters that have a create time, and no other, in the order of the
    list: the calls it makes are the monitoring of a prefix of them. A call
    that raises is the last thing the scan does, and the scan raises the
    same: no cluster after it is handed over. When no call raised, the
    scan returns and has handed over all of them. *)
Theorem monitor_existing_clusters_scans (env : Env)
    (clusters : list InnoDBCluster) (st : State) :
  let run := monitor_existing_clusters env clusters st in
  calls (events run)
    `prefix_of` map (fun c => MonitorCluster (name c)) (initialized clusters)
  /\ stops_at_failure run
  /\ (first_failure failure (events run) = None ->
      result run = Ok tt
      /\ calls (events run)
         = map (fun c => MonitorCluster (name c)) (initialized clusters))
  /\ ((forall c, call_raises env 0 c = None) ->
      result run = Ok tt
      /\ calls (events run)
         = map (fun c => MonitorCluster (name c)) (initialized clusters)).
Proof.
  intros run. subst run. split; [| split; [| split]].
  - revert st. induction clusters as [| c clusters IH]; intros st;
      [apply prefix_nil |].
    simpl. rewrite bind_run. unfold when, invoke, initialized. simpl.
    destruct (bool_decide (is_Some (get_create_time c))); simpl.
    + destruct (call_raises env 0 (MonitorCluster (name c)));
        cbn [result final events fst snd apply_call calls omap].
      * apply prefix_cons, prefix_nil.
      * rewrite calls_app. simpl. apply prefix_cons, IH.
    + unfold ret. cbn [result final events fst snd]. apply IH.
  - unfold stops_at_failure.
    pose proof (monitor_existing_clusters_stops env clusters st) as H.
    destruct (first_failure failure
                (events (monitor_existing_clusters env clusters st)))
      as [[e rest] |]; [exact H | exact I].
  - intros Hnone.
    pose proof (monitor_existing_clusters_stops env clusters st) as H.
    rewrite Hnone in H. exact H.
  - intros Hcalm. rewrite monitor_existing_clusters_calm by assumption.
    cbn [result events fst snd]. split; [reflexivity |].
    unfold calls. induction (initialized clusters) as [| c l IHl];
      [reflexivity |]. simpl. f_equal. exact IHl.
Qed.

Lemma monitor_existing_clusters_scans_witness :
  calls (events (monitor_existing_clusters env_calm
                   [cluster_new; cluster_up; cluster_new_no_router]
                   st_empty))
  = [MonitorCluster "mycluster"]
  /\ result (monitor_existing_clusters env_calm
               [cluster_new; cluster_up; cluster_new_no_router] st_empty)
     = Ok tt.
Proof.
  destruct (monitor_existing_clusters_scans env_calm
              [cluster_new; cluster_up; cluster_new_no_router] st_empty)
    as (_ & _ & Hnone & Hcalm).
  split.
  - destruct Hcalm as [_ ->]; reflexivity.
  - apply Hnone. reflexivity.
Defined.

(** ** Failure and success of cluster creation *)

Lemma no_write_in (evs : list Event) (c : Call) (r : option Exn) :
  forallb (not_call writes_resource) evs = true ->
  writes_resource c = true ->
  ~ In (Called c r) evs.
Proof.
  intros Hall Hc Hin. rewrite forallb_forall in Hall.
  specialize (Hall _ Hin). simpl in Hall. rewrite Hc in Hall.
  discriminate Hall.
Qed.

(** X21. When a block of the creation raises (a lookup other than by 404,
    a manifest, an adoption, a creation), [on_innodbcluster_create] on a
    valid spec of a cluster that is not ready posts the
    CreateResourceFailed warning as the last thing it does and raises the
    same exception. It writes neither the operator version nor the status,
    and it undoes nothing: the objects created before the failure stay. *)
Theorem create_failure_reported (env : Env) (cluster : InnoDBCluster)
    (icspec : InnoDBClusterSpec) (st : State) (e : Exn) :
  parse_spec cluster = Ok icspec ->
  validate_raises icspec = None ->
  ready cluster = false ->
  result (create_dependents env icspec st) = Raise e ->
  let run := on_innodbcluster_create env cluster st in
  result run = Raise e
  /\ last (events run)
     = Some (Diag WARNING "CreateCluster" "CreateResourceFailed" "{exc}")
  /\ forallb (not_call writes_resource) (events run) = true
  /\ resource (final run) = resource st
  /\ objects (final run)
     = objects st ++ created (events (create_dependents env icspec st)).
Proof.
  intros Hparse Hvalid Hready Hfail run. subst run.
  pose proof (create_dependents_no_write env icspec st) as Hnowrite.
  pose proof (create_dependents_resource env icspec st) as Hres.
  destruct (ensure_all_steps env icspec create_order st)
    as (_ & _ & _ & Hobjs & _).
  change (ensure_all env icspec create_order)
    with (create_dependents env icspec) in Hobjs.
  unfold on_innodbcluster_create.
  unfold bind, try_except, lift, parsed_spec, validate, logger, print, emit,
    when, raise, ret, invoke, result, final, events in *.
  rewrite Hparse. simpl. rewrite Hvalid, Hready. simpl.
  destruct (create_dependents env icspec st) as [[r st1] evs].
  simpl in *. subst r. simpl.
  repeat split.
  - rewrite !app_comm_cons. apply last_snoc.
  - rewrite forallb_app, Hnowrite. reflexivity.
  - exact Hres.
  - exact Hobjs.
Qed.

Lemma create_failure_reported_witness :
  result (on_innodbcluster_create env_no_quota cluster_new st_empty)
  = Raise (ApiException 403)
  /\ objects (final (on_innodbcluster_create env_no_quota cluster_new
                       st_empty))
     = [InitConf; PrivateSecrets; RouterAccount; Service].
Proof.
  destruct (create_failure_reported env_no_quota cluster_new spec_3_1
              st_empty (ApiException 403) eq_refl eq_refl eq_refl eq_refl)
    as (Hres & _ & _ & _ & Hobjs).
  split; [exact Hres | rewrite Hobjs; reflexivity].
Defined.

(** X22. [on_innodbcluster_create] writes the status only as PENDING with
    no instance online and the time of the clock, only on a cluster that is
    not ready whose spec is valid, only after every block of the creation
    returned and the operator version was written. On a cluster that is
    ready it makes no lookup and no call, and leaves the state as it
    is. *)
Theorem status_written_last (env : Env) (cluster : InnoDBCluster)
    (st : State) :
  let run := on_innodbcluster_create env cluster st in
  (forall s n t r,
     In (Called (SetStatus s n t) r) (events run) ->
     s = PENDING /\ n = 0 /\ t = isotime env
     /\ ready cluster = false
     /\ In (Called (SetOperatorVersion (DEFAULT_OPERATOR_VERSION_TAG env))
                   None) (events run)
     /\ exists icspec,
          parse_spec cluster = Ok icspec
          /\ validate_raises icspec = None
          /\ result (create_dependents env icspec st) = Ok tt)
  /\ (ready cluster = true ->
      calls (events run) = [] /\ looked_up (events run) = []
      /\ final run = st).
Proof.
  intros run. subst run.
  unfold on_innodbcluster_create.
  unfold bind, try_except, lift, parsed_spec, validate, logger, print, emit,
    when, raise, ret, invoke, result, final, events.
  destruct (parse_spec cluster) as [icspec | eparse] eqn:Hparse; simpl.
  2: { destruct eparse; simpl; split; try (intros; repeat split);
       intros; simpl in *; intuition discriminate. }
  destruct (validate_raises icspec) as [evalid |] eqn:Hvalid; simpl.
  { destruct evalid; simpl; split; try (intros; repeat split);
      intros; simpl in *; intuition discriminate. }
  destruct (ready cluster) eqn:Hready; simpl.
  { split; [| intros _; repeat split].
    intros; simpl in *; intuition discriminate. }
  split; [| discriminate].
  pose proof (create_dependents_no_write env icspec st) as Hnowrite.
  unfold events in Hnowrite.
  destruct (create_dependents env icspec st) as [[[[] | e] st1] evs] eqn:Hdeps;
    simpl in *.
  - destruct (call_raises env 0
                (SetOperatorVersion (DEFAULT_OPERATOR_VERSION_TAG env)))
      eqn:Hversion; simpl;
      [| destruct (call_raises env 0 (SetStatus PENDING 0 (isotime env)))
           eqn:Hstatus; simpl ];
      intros s n t r Hin;
      repeat (destruct Hin as [Hin | Hin]; [discriminate Hin |]);
      apply in_app_or in Hin as [Hin | Hin];
      try (exfalso; apply (no_write_in evs (SetStatus s n t) r Hnowrite
                             eq_refl Hin));
      simpl in Hin;
      repeat (destruct Hin as [Hin | Hin]; try discriminate Hin);
      try contradiction;
      inversion Hin; subst;
      (repeat split;
       [ do 8 right; apply in_or_app; right; simpl; tauto
       | exists icspec; repeat split;
         first [assumption | rewrite Hdeps; reflexivity] ]).
  - intros s n t r Hin.
    repeat (destruct Hin as [Hin | Hin]; [discriminate Hin |]).
    apply in_app_or in Hin as [Hin | Hin].
    + exfalso. apply (no_write_in evs (SetStatus s n t) r Hnowrite eq_refl Hin).
    + simpl in Hin. intuition discriminate.
Qed.

Lemma status_written_last_witness :
  ready cluster_new = false
  /\ calls (events (on_innodbcluster_create env_calm cluster_up st_running))
     = [].
Proof.
  destruct (status_written_last env_calm cluster_new st_empty) as [Hstatus _].
  destruct (status_written_last env_calm cluster_up st_running)
    as [_ Hready].
  split.
  - apply (Hstatus PENDING 0 "2021-06-01T10:00:00Z" None).
    vm_compute. tauto.
  - apply Hready. reflexivity.
Defined.

(** ** The blocks of the creation, in general *)

Lemma ensure_all_looked_up (env : Env) (icspec : InnoDBClusterSpec)
    (ks : list ObjKind) :
  forall st, looked_up (events (ensure_all env icspec ks st)) `prefix_of` ks.
Proof.
  induction ks as [| k ks IH]; intros st; [apply prefix_nil |].
  destruct (ensure_step env icspec k st) as (Hlook & _).
  destruct ks as [| k2 ks].
  - simpl. rewrite Hlook. reflexivity.
  - change (ensure_all env icspec (k :: k2 :: ks) st)
      with (bind (ensure env icspec k)
                 (fun _ => ensure_all env icspec (k2 :: ks)) st).
    rewrite bind_run.
    destruct (result (ensure env icspec k st)) as [[] | e].
    + cbn [events snd]. rewrite looked_up_app, Hlook.
      apply prefix_cons, IH.
    + cbn [events snd]. rewrite Hlook. apply prefix_cons, prefix_nil.
Qed.

(** A block either raises, as the last thing it does, or returns having
    looked its object up. *)
Lemma ensure_stops (env : Env) (icspec : InnoDBClusterSpec) (k : ObjKind)
    (st : State) :
  match first_failure block_failure (events (ensure env icspec k st)) with
  | Some (e, rest) => result (ensure env icspec k st) = Raise e /\ rest = []
  | None =>
      result (ensure env icspec k st) = Ok tt
      /\ looked_up (events (ensure env icspec k st)) = [k]
  end.
Proof.
  unfold ensure, ignore_404, bind, try_except, cluster_get, when,
    invoke, print, emit, ret, raise, result, final, events.
  destruct (api_get env (objects st) k) as [[|] | e] eqn:Hget; simpl.
  - split; reflexivity.
  - destruct (step_guard icspec k) eqn:Hguard; simpl;
      destruct (call_raises env 0 (Prepare k)); simpl;
      try destruct (call_raises env 0 (Adopt k)); simpl;
      try destruct (call_raises env 0 (Create k)); simpl;
      split; reflexivity.
  - destruct e as [status | | | | | |]; simpl.
    2-7: split; reflexivity.
    destruct (decide (status = 404)) as [-> | H404];
      [| rewrite !(bool_decide_eq_false_2 _ H404)]; simpl.
    + destruct (step_guard icspec k) eqn:Hguard; simpl;
        destruct (call_raises env 0 (Prepare k)); simpl;
        try destruct (call_raises env 0 (Adopt k)); simpl;
        try destruct (call_raises env 0 (Create k)); simpl;
        split; reflexivity.
    + rewrite ?(bool_decide_eq_false_2 _ H404). simpl.
      rewrite ?(bool_decide_eq_false_2 _ H404). split; reflexivity.
Qed.

(** So the blocks stop at the first that raises, or look up every
    object. *)
Lemma ensure_all_stops (env : Env) (icspec : InnoDBClusterSpec)
    (ks : list ObjKind) :
  forall st,
    match first_failure block_failure
            (events (ensure_all env icspec ks st)) with
    | Some (e, rest) =>
        result (ensure_all env icspec ks st) = Raise e /\ rest = []
    | None =>
        result (ensure_all env icspec ks st) = Ok tt
        /\ looked_up (events (ensure_all env icspec ks st)) = ks
    end.
Proof.
  induction ks as [| k ks IH]; intros st; [split; reflexivity |].
  pose proof (ensure_stops env icspec k st) as Hk.
  destruct ks as [| k2 ks]; [exact Hk |].
  change (ensure_all env icspec (k :: k2 :: ks) st)
    with (bind (ensure env icspec k)
               (fun _ => ensure_all env icspec (k2 :: ks)) st).
  rewrite bind_run.
  destruct (first_failure block_failure (events (ensure env icspec k st)))
    as [[e rest] |] eqn:Hfirst.
  - destruct Hk as [Hres ->]. rewrite Hres. cbn [result events fst snd].
    rewrite Hfirst. split; reflexivity.
  - destruct Hk as [Hres Hlook]. rewrite Hres. cbn [result events fst snd].
    rewrite first_failure_app, Hfirst.
    specialize (IH (final (ensure env icspec k st))).
    destruct (first_failure block_failure
                (events (ensure_all env icspec (k2 :: ks)
                           (final (ensure env icspec k st)))))
      as [[e rest] |]; [exact IH |].
    destruct IH as [IHres IHlook]. split; [exact IHres |].
    rewrite looked_up_app, Hlook, IHlook. reflexivity.
Qed.

(** X25. [on_innodbcluster_create] goes through its blocks in order: the
    objects it has looked up are always the first ones of the order, each
    once. On a cluster that is not ready and whose spec is valid it stops at
    the first lookup (other than by 404), manifest, adoption, creation or
    write of the resource that raises: it raises the same, and does
    nothing after it but post the warning when a block raised. When none
    raises it looks up all nine objects and returns. *)
Theorem create_blocks_in_order (env : Env) (cluster : InnoDBCluster)
    (st : State) :
  let run := on_innodbcluster_create env cluster st in
  looked_up (events run) `prefix_of` create_order
  /\ forall icspec,
       parse_spec cluster = Ok icspec ->
       validate_raises icspec = None ->
       ready cluster = false ->
       match first_failure block_failure (events run) with
       | Some (e, rest) =>
           result run = Raise e
           /\ rest = if existsb writes_resource (calls (events run))
                     then []
                     else [Diag WARNING "CreateCluster" "CreateResourceFailed"
                             "{exc}"]
       | None =>
           result run = Ok tt /\ looked_up (events run) = create_order
       end.
Proof.
  intros run. subst run. split.
  - unfold on_innodbcluster_create.
    unfold bind, try_except, lift, parsed_spec, validate, logger, print, emit,
      when, raise, ret, invoke, events.
    destruct (parse_spec cluster) as [icspec | eparse]; simpl.
    2: { destruct eparse; apply prefix_nil. }
    destruct (validate_raises icspec) as [evalid |]; simpl.
    { destruct evalid; apply prefix_nil. }
    destruct (ready cluster); simpl; [apply prefix_nil |].
    pose proof (ensure_all_looked_up env icspec create_order st) as Hlook.
    change (ensure_all env icspec create_order)
      with (create_dependents env icspec) in Hlook.
    unfold events in Hlook.
    destruct (create_dependents env icspec st) as [[[[] | e] st1] evs];
      simpl in *.
    + destruct (call_raises env 0
                  (SetOperatorVersion (DEFAULT_OPERATOR_VERSION_TAG env)));
        simpl;
        [| destruct (call_raises env 0 (SetStatus PENDING 0 (isotime env)));
           simpl ];
        rewrite looked_up_app; simpl; rewrite app_nil_r; exact Hlook.
    + rewrite looked_up_app. simpl. rewrite app_nil_r. exact Hlook.
  - intros icspec Hparse Hvalid Hready.
    pose proof (ensure_all_stops env icspec create_order st) as Hstops.
    pose proof (create_dependents_no_write env icspec st) as Hnowrite.
    apply no_call_among in Hnowrite.
    change (ensure_all env icspec create_order)
      with (create_dependents env icspec) in Hstops.
    unfold on_innodbcluster_create.
    unfold bind, try_except, lift, parsed_spec, validate, logger, print, emit,
      when, raise, ret, invoke, result, final, events in *.
    rewrite Hparse. simpl. rewrite Hvalid, Hready. simpl.
    destruct (create_dependents env icspec st) as [[r st1] evs].
    simpl in *.
    destruct (first_failure block_failure evs) as [[e rest] |] eqn:Hfirst.
    + destruct Hstops as [-> ->]. simpl.
      rewrite first_failure_app, Hfirst, calls_app, existsb_app, Hnowrite.
      split; reflexivity.
    + destruct Hstops as [-> Hlook]. simpl.
      destruct (call_raises env 0
                  (SetOperatorVersion (DEFAULT_OPERATOR_VERSION_TAG env)));
        simpl;
        [| destruct (call_raises env 0 (SetStatus PENDING 0 (isotime env)));
           simpl ];
        rewrite first_failure_app, Hfirst; simpl;
        rewrite ?calls_app, ?existsb_app, ?Hnowrite, ?looked_up_app, ?Hlook;
        simpl; split; reflexivity.
Qed.

Lemma create_blocks_in_order_witness :
  (result (on_innodbcluster_create env_calm cluster_new st_empty) = Ok tt
   /\ looked_up (events (on_innodbcluster_create env_calm cluster_new
                           st_empty)) = create_order)
  /\ (result (on_innodbcluster_create env_no_quota cluster_new st_empty)
      = Raise (ApiException 403)
      /\ looked_up (events (on_innodbcluster_create env_no_quota cluster_new
                              st_empty))
         = [InitConf; PrivateSecrets; RouterAccount; Service; StatefulSet]).
Proof.
  split.
  - exact (proj2 (create_blocks_in_order env_calm cluster_new st_empty)
             spec_3_1 eq_refl eq_refl eq_refl).
  - split; [| reflexivity].
    exact (proj1 (proj2 (create_blocks_in_order env_no_quota cluster_new
                           st_empty)
                    spec_3_1 eq_refl eq_refl eq_refl)).
Defined.

Lemma ensure_no_duplicate (env : Env) (icspec : InnoDBClusterSpec)
    (k : ObjKind) (st : State) :
  sees_objects env ->
  NoDup (objects st) ->
  NoDup (objects (final (ensure env icspec k st))).
Proof.
  intros Hsees Hnodup.
  destruct (decide (k ∈ objects st)) as [Hin | Hnotin].
  - rewrite ensure_found by (apply Hsees, Hin). exact Hnodup.
  - destruct (ensure_step env icspec k st) as (_ & Hsub & _ & _ & Hobjs & _).
    rewrite Hobjs.
    apply sublist_cons_r in Hsub as [Hnil | (l & Hcreated & Hl)].
    + apply sublist_nil_r in Hnil. rewrite Hnil, app_nil_r. exact Hnodup.
    + apply sublist_nil_r in Hl. subst l. rewrite Hcreated.
      apply NoDup_app. split; [exact Hnodup |].
      split; [| apply NoDup_singleton].
      intros x Hx Hxk. apply list_elem_of_singleton in Hxk. subst x.
      contradiction.
Qed.

Lemma ensure_all_no_duplicate (env : Env) (icspec : InnoDBClusterSpec)
    (ks : list ObjKind) :
  sees_objects env ->
  forall st,
    NoDup (objects st) ->
    NoDup (objects (final (ensure_all env icspec ks st))).
Proof.
  intros Hsees. induction ks as [| k ks IH]; intros st Hnodup;
    [exact Hnodup |].
  destruct ks as [| k2 ks].
  - simpl. apply ensure_no_duplicate; assumption.
  - change (ensure_all env icspec (k :: k2 :: ks) st)
      with (bind (ensure env icspec k)
                 (fun _ => ensure_all env icspec (k2 :: ks)) st).
    rewrite bind_run.
    pose proof (ensure_no_duplicate env icspec k st Hsees Hnodup) as Hstep.
    destruct (result (ensure env icspec k st)) as [[] | e];
      cbn [final fst snd]; [apply IH |]; exact Hstep.
Qed.

(** X26. When the lookups find every object the platform holds,
    [on_innodbcluster_create] never creates an object a second time:
    objects that were distinct before are distinct after, however the
    invocation ends. *)
Theorem create_never_duplicates (env : Env) (cluster : InnoDBCluster)
    (st : State) :
  sees_objects env ->
  NoDup (objects st) ->
  NoDup (objects (final (on_innodbcluster_create env cluster st))).
Proof.
  intros Hsees Hnodup.
  unfold on_innodbcluster_create.
  unfold bind, try_except, lift, parsed_spec, validate, logger, print, emit,
    when, raise, ret, invoke, final.
  destruct (parse_spec cluster) as [icspec | eparse]; simpl.
  2: { destruct eparse; exact Hnodup. }
  destruct (validate_raises icspec) as [evalid |]; simpl.
  { destruct evalid; exact Hnodup. }
  destruct (ready cluster); simpl; [exact Hnodup |].
  pose proof (ensure_all_no_duplicate env icspec create_order Hsees st Hnodup)
    as Hdeps.
  change (ensure_all env icspec create_order)
    with (create_dependents env icspec) in Hdeps.
  unfold final in Hdeps.
  destruct (create_dependents env icspec st) as [[[[] | e] st1] evs];
    simpl in *; [| exact Hdeps].
  destruct (call_raises env 0
              (SetOperatorVersion (DEFAULT_OPERATOR_VERSION_TAG env)));
    simpl; [exact Hdeps |].
  destruct (call_raises env 0 (SetStatus PENDING 0 (isotime env)));
    simpl; exact Hdeps.
Qed.

Lemma platform_get_sees_objects : sees_objects env_calm.
Proof.
  intros store k Hin. simpl. unfold platform_get.
  rewrite bool_decide_eq_true_2 by assumption. reflexivity.
Qed.

Lemma create_never_duplicates_witness :
  NoDup (objects (final (on_innodbcluster_create env_calm cluster_new
                           st_half))).
Proof.
  apply (create_never_duplicates env_calm cluster_new st_half).
  - apply platform_get_sees_objects.
  - apply (bool_decide_unpack _). vm_compute. exact I.
Defined.
